(** * Contract-tender: the notice pipeline of the procurement search

    A shallow embedding of the pure core of the repository:
    - [src/lib/fts.mjs]      [containsAuthorityKeyword], [selectRelevantRelease],
                             [mapReleasePackageToNotice]; of the projection,
                             [extractBudgetValues], [selectAward],
                             [selectContract], [selectBuyer], [formatAddress];
                             of the search over release packages, its page
                             limit, [normaliseOcdsStage], [partyLooksNhs],
                             [partyHasBuyerRole], [releaseLooksNhs],
                             [matchesPreferredAuthority];
    - [src/lib/filters.mjs]  [deriveProcurementStage], [applyFilters] and
                             their helpers;
    - [src/app/api/search/route.ts] (also [src/unnamed/part_000])
                             [decodeHtmlEntities] and the attachment of the
                             derived stage to a notice;
    - [src/lib/contractsfinder.mjs] and the Find a Tender route
      ([src/unnamed/part_001])  the page sizes;
    - [src/app/api/export/route.ts]  [escapeCsvField];
    - [src/app/page.tsx]     [parseCsv].

    Data.  A notice, a release package and a filter criterion are plain
    JavaScript values, so the embedding has one type [value] of such values
    and the source's functions are functions on it.  A call that can raise
    a [TypeError] or a [RangeError] returns a [result].

    Strings.  [string] is read as a sequence of ASCII code units, and
    [toLowerCase]/[toUpperCase] are the ASCII case maps: on a string of
    ASCII characters ([JS.asciiText]) they are what the engine computes; on
    other characters the engine follows the Unicode case tables, which the
    embedding does not have.  The entity decoder creates characters from
    arbitrary code points, so it works on lists of UTF-16 code units
    instead (module [Route]).

    Coercions.  [String(v)] and [Number(v)] throw a [TypeError] for an
    object with an own property [toString] that is not a function (JSON can
    carry one); [JS.ToString] and [JS.ToNumber] are the coercions of the
    other values.  [JS.plain] holds of the values the embedding is faithful
    on: their strings are ASCII and none of their objects has an own
    [toString].

    Host.  Three primitives depend on the digits of a binary64 number or on
    the engine and are a parameter [Host] of the embedding: the rendering
    of a finite number, [Number] applied to a string, and what [Date.parse]
    does with a string outside the fragment of the ECMAScript date-time
    format that [JS.parseIsoUtc] reads. *)

From Stdlib Require Import String Ascii List ZArith NArith QArith Bool Lia DecimalString.
Import ListNotations.
Local Open Scope string_scope.
Local Open Scope Z_scope.

(** ** JavaScript values and primitives *)

Module JS.

(** A binary64 number, as far as the source observes it: it is compared,
    tested for [NaN] and for zero, and rendered.  A finite number is the
    rational it denotes. *)
Inductive number : Type :=
| NaN
| PInf
| NInf
| Fin (q : Q).

(** [VBuiltin name] is a built-in function object, reached only through
    the prototype of an object literal ([Object.prototype.constructor] is
    [VBuiltin "Object"]). *)
#[warnings="-register-all"] Inductive value : Type :=
| VUndefined
| VNull
| VBool (b : bool)
| VNum (n : number)
| VStr (s : string)
| VArr (items : list value)
| VObj (fields : list (string * value))
| VBuiltin (name : string).

Inductive error : Type := TypeError | RangeError.

Inductive result (A : Type) : Type :=
| Ret (a : A)
| Throw (e : error).
Arguments Ret {A} a.
Arguments Throw {A} e.

Definition bind {A B : Type} (m : result A) (k : A -> result B) : result B :=
  match m with
  | Ret a => k a
  | Throw e => Throw e
  end.

(** [x <- m ;; k]: run [m]; an exception of [m] is the exception of the
    whole, otherwise continue with its value. *)
Notation "x <- m ;; k" := (bind m (fun x => k))
  (at level 61, m at next level, right associativity).

Record Host : Type := {
  NumberToString : Q -> string;
  StringToNumber : string -> number;
  DateParseOther : string -> option Z
}.

(** *** Characters and strings *)

Definition code (c : ascii) : N := N_of_ascii c.

Definition isLowerAscii (c : ascii) : bool := ((97 <=? code c) && (code c <=? 122))%N.
Definition isUpperAscii (c : ascii) : bool := ((65 <=? code c) && (code c <=? 90))%N.
Definition isDigit (c : ascii) : bool := ((48 <=? code c) && (code c <=? 57))%N.

(** [\w] of a regular expression without the [u] flag: [[A-Za-z0-9_]]. *)
Definition isWordChar (c : ascii) : bool :=
  isLowerAscii c || isUpperAscii c || isDigit c || (code c =? 95)%N.

Definition lowerChar (c : ascii) : ascii :=
  if isUpperAscii c then ascii_of_N (code c + 32) else c.
Definition upperChar (c : ascii) : ascii :=
  if isLowerAscii c then ascii_of_N (code c - 32) else c.

Fixpoint mapString (f : ascii -> ascii) (s : string) : string :=
  match s with
  | EmptyString => EmptyString
  | String c s' => String (f c) (mapString f s')
  end.

Fixpoint filterString (p : ascii -> bool) (s : string) : string :=
  match s with
  | EmptyString => EmptyString
  | String c s' => if p c then String c (filterString p s') else filterString p s'
  end.

(** [s.toLowerCase()] and [s.toUpperCase()] for a string of ASCII
    characters ([asciiText] below); a character outside ASCII is left as it
    is, where the engine would consult the Unicode tables. *)
Definition toLowerCase (s : string) : string := mapString lowerChar s.
Definition toUpperCase (s : string) : string := mapString upperChar s.

(** The strings of ASCII characters. *)
Definition isAsciiChar (c : ascii) : bool := (code c <? 128)%N.

Fixpoint asciiText (s : string) : bool :=
  match s with
  | EmptyString => true
  | String c s' => isAsciiChar c && asciiText s'
  end.

Fixpoint startsWith (s pat : string) : bool :=
  match pat, s with
  | EmptyString, _ => true
  | String _ _, EmptyString => false
  | String p pat', String c s' => Ascii.eqb p c && startsWith s' pat'
  end.

Definition nonEmpty (s : string) : bool := negb (String.eqb s EmptyString).

(** [s.includes(pat)]. *)
Fixpoint includes (s pat : string) : bool :=
  startsWith s pat ||
  match s with
  | EmptyString => false
  | String _ s' => includes s' pat
  end.

(** [items.join(sep)] once the items are rendered. *)
Fixpoint join (sep : string) (items : list string) : string :=
  match items with
  | [] => EmptyString
  | [x] => x
  | x :: rest => x ++ sep ++ join sep rest
  end.

(** *** Numbers *)

Definition isNaN (n : number) : bool :=
  match n with NaN => true | _ => false end.

(** [a < b] on numbers: false as soon as one side is [NaN]. *)
Definition num_ltb (a b : number) : bool :=
  match a, b with
  | NaN, _ | _, NaN => false
  | _, NInf => false
  | NInf, _ => true
  | PInf, _ => false
  | Fin _, PInf => true
  | Fin p, Fin q => negb (Qle_bool q p)
  end.

(** [a === b] on numbers. *)
Definition num_eqb (a b : number) : bool :=
  match a, b with
  | PInf, PInf | NInf, NInf => true
  | Fin p, Fin q => Qeq_bool p q
  | _, _ => false
  end.

Definition num_is_zero (n : number) : bool :=
  match n with Fin q => Qeq_bool q 0 | _ => false end.

(** *** Coercions *)

(** [Boolean(v)], the truthiness behind [!v], [v || w] and [if (v)]. *)
Definition truthy (v : value) : bool :=
  match v with
  | VUndefined | VNull => false
  | VBool b => b
  | VNum n => negb (isNaN n || num_is_zero n)
  | VStr s => nonEmpty s
  | VArr _ | VObj _ | VBuiltin _ => true
  end.

(** [v || w]. *)
Definition or_else (v w : value) : value := if truthy v then v else w.

(** [v ?? w]. *)
Definition nullish (v : value) : bool :=
  match v with VUndefined | VNull => true | _ => false end.

Inductive jstype : Type :=
| TUndefined | TObject | TBoolean | TNumber | TString | TFunction.

Definition typeof (v : value) : jstype :=
  match v with
  | VUndefined => TUndefined
  | VNull | VArr _ | VObj _ => TObject
  | VBool _ => TBoolean
  | VNum _ => TNumber
  | VStr _ => TString
  | VBuiltin _ => TFunction
  end.

Definition jstype_eqb (a b : jstype) : bool :=
  match a, b with
  | TUndefined, TUndefined | TObject, TObject | TBoolean, TBoolean
  | TNumber, TNumber | TString, TString | TFunction, TFunction => true
  | _, _ => false
  end.

Definition isArray (v : value) : bool :=
  match v with VArr _ => true | _ => false end.

(** [a === b].  Two arrays or two objects are equal when they are the same
    reference; the embedding has no references and the values the source
    compares this way (identifiers, tokens) are primitives, so distinct
    references are assumed there. *)
Definition strict_eq (a b : value) : bool :=
  match a, b with
  | VUndefined, VUndefined | VNull, VNull => true
  | VBool x, VBool y => Bool.eqb x y
  | VNum x, VNum y => num_eqb x y
  | VStr x, VStr y => String.eqb x y
  | VBuiltin x, VBuiltin y => String.eqb x y
  | _, _ => false
  end.

Section WithHost.
Variable h : Host.

(** [String(v)] where it returns ([plain] below): an array is joined with
    commas, with nothing for an [undefined] or [null] item; an object
    without an own [toString] is ["[object Object]"]; a built-in function
    is rendered with the spacing of V8.  For an object with an own
    [toString] that is not a function the engine throws a [TypeError];
    such objects are outside [plain]. *)
Fixpoint ToString (v : value) : string :=
  match v with
  | VUndefined => "undefined"
  | VNull => "null"
  | VBool true => "true"
  | VBool false => "false"
  | VNum NaN => "NaN"
  | VNum PInf => "Infinity"
  | VNum NInf => "-Infinity"
  | VNum (Fin q) => NumberToString h q
  | VStr s => s
  | VArr items =>
      join "," (map (fun x => match x with
                              | VUndefined | VNull => EmptyString
                              | _ => ToString x
                              end) items)
  | VObj _ => "[object Object]"
  | VBuiltin name => "function " ++ name ++ "() { [native code] }"
  end.

(** [Number(v)], where it returns; an array, an object or a function goes
    through its string, and the engine throws where [String(v)] does. *)
Definition ToNumber (v : value) : number :=
  match v with
  | VUndefined => NaN
  | VNull => Fin 0
  | VBool true => Fin 1
  | VBool false => Fin 0
  | VNum n => n
  | VStr s => StringToNumber h s
  | VArr _ | VObj _ | VBuiltin _ => StringToNumber h (ToString v)
  end.

End WithHost.

(** The plain values: every string in them is ASCII and no object in them
    has an own property [toString].  On these the case maps are those of
    the engine and [String], [Number], template literals, [join] and
    [Date.parse] throw nothing. *)
Fixpoint plain (v : value) : bool :=
  match v with
  | VStr s => asciiText s
  | VArr items => forallb plain items
  | VObj fields =>
      (fix plainFields (fs : list (string * value)) : bool :=
         match fs with
         | [] => true
         | (key, x) :: rest =>
             negb (String.eqb key "toString") && plain x && plainFields rest
         end) fields
  | _ => true
  end.

(** *** Dates *)

(** The fragment of the ECMAScript date-time string format read here:
    [YYYY], [YYYY-MM] or [YYYY-MM-DD], alone (midnight UTC) or followed by
    [THH:mmZ], [THH:mm:ssZ] or [THH:mm:ss.sssZ], each field in range for
    the calendar.  Every engine reads such a string the same way.  Local
    times, offsets and other notations are left to the host. *)

Definition digitValue (c : ascii) : Z := Z.of_N (code c) - 48.

(** Exactly [n] decimal digits at the head of [s]. *)
Fixpoint readDigits (n : nat) (acc : Z) (s : string) : option (Z * string) :=
  match n with
  | O => Some (acc, s)
  | S n' =>
      match s with
      | String c s' =>
          if isDigit c then readDigits n' (acc * 10 + digitValue c) s' else None
      | EmptyString => None
      end
  end.

Definition expect (c : ascii) (s : string) : option string :=
  match s with
  | String c' s' => if Ascii.eqb c c' then Some s' else None
  | EmptyString => None
  end.

Definition isLeapYear (y : Z) : bool :=
  ((y mod 4 =? 0) && negb (y mod 100 =? 0)) || (y mod 400 =? 0).

Definition daysInMonth (y m : Z) : Z :=
  if m =? 2 then (if isLeapYear y then 29 else 28)
  else if (m =? 4) || (m =? 6) || (m =? 9) || (m =? 11) then 30
  else 31.

(** Days from 1970-01-01 to the civil date [y]-[m]-[d]. *)
Definition daysFromCivil (y m d : Z) : Z :=
  let y' := if m <=? 2 then y - 1 else y in
  let era := y' / 400 in
  let yoe := y' - era * 400 in
  let mp := if m <=? 2 then m + 9 else m - 3 in
  let doy := (153 * mp + 2) / 5 + d - 1 in
  let doe := yoe * 365 + yoe / 4 - yoe / 100 + doy in
  era * 146097 + doe - 719468.

Definition msPerDay : Z := 86400000.

Definition utcMillis (y m d hh mm ss ms : Z) : option Z :=
  if (1 <=? m) && (m <=? 12) && (1 <=? d) && (d <=? daysInMonth y m)
     && (hh <=? 23) && (mm <=? 59) && (ss <=? 59)
  then Some (daysFromCivil y m d * msPerDay
             + hh * 3600000 + mm * 60000 + ss * 1000 + ms)
  else None.

(** The date part, the fields it gives and what follows it. *)
Definition readDate (s : string) : option (Z * Z * Z * string) :=
  match readDigits 4 0 s with
  | None => None
  | Some (y, r1) =>
      match expect "-" r1 with
      | None => Some (y, 1, 1, r1)
      | Some r2 =>
          match readDigits 2 0 r2 with
          | None => None
          | Some (m, r3) =>
              match expect "-" r3 with
              | None => Some (y, m, 1, r3)
              | Some r4 =>
                  match readDigits 2 0 r4 with
                  | None => None
                  | Some (d, r5) => Some (y, m, d, r5)
                  end
              end
          end
      end
  end.

(** The time part after [T], up to the final [Z]: hours, minutes, seconds
    and milliseconds. *)
Definition readTime (s : string) : option (Z * Z * Z * Z) :=
  match readDigits 2 0 s with
  | None => None
  | Some (hh, r1) =>
      match expect ":" r1 with
      | None => None
      | Some r2 =>
          match readDigits 2 0 r2 with
          | None => None
          | Some (mm, r3) =>
              if String.eqb r3 "Z" then Some (hh, mm, 0, 0)
              else
                match expect ":" r3 with
                | None => None
                | Some r4 =>
                    match readDigits 2 0 r4 with
                    | None => None
                    | Some (ss, r5) =>
                        if String.eqb r5 "Z" then Some (hh, mm, ss, 0)
                        else
                          match expect "." r5 with
                          | None => None
                          | Some r6 =>
                              match readDigits 3 0 r6 with
                              | Some (ms, r7) =>
                                  if String.eqb r7 "Z" then Some (hh, mm, ss, ms)
                                  else None
                              | None => None
                              end
                          end
                    end
                end
          end
      end
  end.

Definition parseIsoUtc (s : string) : option Z :=
  match readDate s with
  | None => None
  | Some (y, m, d, rest) =>
      match rest with
      | EmptyString => utcMillis y m d 0 0 0 0
      | String c rest' =>
          if Ascii.eqb c "T" then
            match readTime rest' with
            | Some (hh, mm, ss, ms) => utcMillis y m d hh mm ss ms
            | None => None
            end
          else None
      end
  end.

(** [Date.parse(text)]: the time value in milliseconds, [None] for [NaN]. *)
Definition Date_parse (h : Host) (text : string) : option Z :=
  match parseIsoUtc text with
  | Some t => Some t
  | None => DateParseOther h text
  end.

(** *** Property access *)

(** An object literal is the list of its own properties in source order;
    a key names the first entry that carries it. *)
Fixpoint assoc (fields : list (string * value)) (key : string) : option value :=
  match fields with
  | [] => None
  | (k, v) :: rest => if String.eqb k key then Some v else assoc rest key
  end.

(** [v?.key] for the property names the source reads: an own property of an
    object literal, [undefined] otherwise (none of these names is a
    property of a string, a number, an array or a function). *)
Definition get (v : value) (key : string) : value :=
  match v with
  | VObj fields => match assoc fields key with Some x => x | None => VUndefined end
  | _ => VUndefined
  end.

(** [v.key], which throws on [undefined] and [null]. *)
Definition get_strict (v : value) (key : string) : result value :=
  if nullish v then Throw TypeError else Ret (get v key).

(** [{ ...obj, key: x }]. *)
Fixpoint set_field (fields : list (string * value)) (key : string) (x : value)
  : list (string * value) :=
  match fields with
  | [] => [(key, x)]
  | (k, v) :: rest =>
      if String.eqb k key then (k, x) :: rest else (k, v) :: set_field rest key x
  end.

(** The members every object literal inherits from [Object.prototype]. *)
Definition Object_prototype (key : string) : value :=
  if String.eqb key "constructor" then VBuiltin "Object"
  else if String.eqb key "toString" then VBuiltin "toString"
  else if String.eqb key "toLocaleString" then VBuiltin "toLocaleString"
  else if String.eqb key "valueOf" then VBuiltin "valueOf"
  else if String.eqb key "hasOwnProperty" then VBuiltin "hasOwnProperty"
  else if String.eqb key "isPrototypeOf" then VBuiltin "isPrototypeOf"
  else if String.eqb key "propertyIsEnumerable" then VBuiltin "propertyIsEnumerable"
  else if String.eqb key "__defineGetter__" then VBuiltin "__defineGetter__"
  else if String.eqb key "__defineSetter__" then VBuiltin "__defineSetter__"
  else if String.eqb key "__lookupGetter__" then VBuiltin "__lookupGetter__"
  else if String.eqb key "__lookupSetter__" then VBuiltin "__lookupSetter__"
  else if String.eqb key "__proto__" then VObj []
  else VUndefined.

(** [TABLE[key]] for a constant table of strings written as an object
    literal: an own entry first, then the prototype. *)
Definition table_get (table : list (string * string)) (key : string) : value :=
  match find (fun kv => String.eqb (fst kv) key) table with
  | Some kv => VStr (snd kv)
  | None => Object_prototype key
  end.

(** [recv.includes(pattern)]: the string method, or a [TypeError] when the
    receiver has no such method (a number, a boolean, an object literal, a
    function).  An array receiver has [Array.prototype.includes]. *)
Definition call_includes (recv : value) (pattern : string) : result bool :=
  match recv with
  | VStr s => Ret (includes s pattern)
  | VArr items => Ret (existsb (strict_eq (VStr pattern)) items)
  | _ => Throw TypeError
  end.

(** [items.some(f)] for a callback that can throw. *)
Fixpoint some {A : Type} (f : A -> result bool) (items : list A) : result bool :=
  match items with
  | [] => Ret false
  | x :: rest => b <- f x ;; if b then Ret true else some f rest
  end.

End JS.

Import JS.

(** ** [src/lib/fts.mjs] *)

Module Fts.

Definition FTS_AUTHORITY_KEYWORDS : list string :=
  ["nhs"; "nhs trust"; "nhs foundation trust"; "national health service"].

(** [NHS_REGEX = /(^|\W)nhs(\W|$)/i].  With the [i] flag each of the three
    letters matches in either case. *)
Definition sameLetter (c letter : ascii) : bool := Ascii.eqb (lowerChar c) letter.

(** [nhs(\W|$)] at the head of [s]. *)
Definition nhsThenBoundary (s : string) : bool :=
  match s with
  | String a (String b (String c rest)) =>
      sameLetter a "n" && sameLetter b "h" && sameLetter c "s" &&
      match rest with
      | EmptyString => true
      | String d _ => negb (isWordChar d)
      end
  | _ => false
  end.

(** [\Wnhs(\W|$)] somewhere in [s]. *)
Fixpoint nhsAfterNonWord (s : string) : bool :=
  match s with
  | EmptyString => false
  | String c s' => (negb (isWordChar c) && nhsThenBoundary s') || nhsAfterNonWord s'
  end.

(** [NHS_REGEX.test(s)]: the alternative [^] matches at the first index
    only. *)
Definition NHS_REGEX_test (s : string) : bool :=
  nhsThenBoundary s || nhsAfterNonWord s.

(** The case maps are the ASCII ones, so this is the source's function on
    the strings of ASCII characters and on what is not a string. *)
Definition containsAuthorityKeyword (value : value) : bool :=
  match value with
  | VStr s =>
      if NHS_REGEX_test s then true
      else
        let upper := toUpperCase s in
        if includes upper "NHS" then true
        else existsb (fun keyword => includes upper (toUpperCase keyword))
                     FTS_AUTHORITY_KEYWORDS
  | _ => false
  end.

Section WithHost.
Variable h : Host.

(** [Date.parse(release.date || '') || 0]. *)
Definition releaseDate (release : value) : Z :=
  match Date_parse h (ToString h (or_else (get release "date") (VStr EmptyString))) with
  | Some t => t
  | None => 0
  end.

(** [pkg.releases.find(release => release.id === noticeId)]; reading [id]
    from an [undefined] or [null] release throws. *)
Fixpoint findById (releases : list value) (noticeId : value) : result value :=
  match releases with
  | [] => Ret VUndefined
  | release :: rest =>
      id <- get_strict release "id" ;;
      if strict_eq id noticeId then Ret release else findById rest noticeId
  end.

(** [[...releases].sort((a, b) => dateB - dateA)].  The comparator is
    consistent, so the result is the stable arrangement by decreasing date,
    written here as an insertion sort that keeps a release in front of the
    later ones of the same date.  [findById] has read [id] from every
    release before the sort runs, so [date] is read from none that is
    [undefined] or [null]. *)
Fixpoint insertByDate (a : value) (sorted : list value) : list value :=
  match sorted with
  | [] => [a]
  | b :: rest =>
      if releaseDate b - releaseDate a <=? 0 then a :: sorted
      else b :: insertByDate a rest
  end.

Fixpoint sortByDate (releases : list value) : list value :=
  match releases with
  | [] => []
  | a :: rest => insertByDate a (sortByDate rest)
  end.

Definition releasesOf (pkg : value) : list value :=
  match get pkg "releases" with
  | VArr items => items
  | _ => []
  end.

Definition selectRelevantRelease (pkg noticeId : value) : result value :=
  if negb (truthy pkg) || negb (isArray (get pkg "releases"))
     || (length (releasesOf pkg) =? 0)%nat
  then Ret VNull
  else if negb (truthy noticeId) then Ret (nth 0 (releasesOf pkg) VUndefined)
  else
    byId <- findById (releasesOf pkg) noticeId ;;
    if truthy byId then Ret byId
    else Ret (or_else (nth 0 (sortByDate (releasesOf pkg)) VUndefined) VNull).

(** [normalizeNotice(raw) = { ...raw }]. *)
Definition normalizeNotice (raw : list (string * value)) : value := VObj raw.

(** The flattening of the selected release into the notice's fields (the
    body of [mapReleasePackageToNotice] after the release is chosen) is a
    parameter: it takes the base record and the release. *)
Variable projectSelected : list (string * value) -> value -> result value.

Definition mapReleasePackageToNotice (base : list (string * value)) (pkg : value)
  : result value :=
  release <- selectRelevantRelease pkg (get (VObj base) "id") ;;
  if negb (truthy release) then Ret (normalizeNotice base)
  else projectSelected base release.

End WithHost.

End Fts.

(** ** [src/lib/filters.mjs] *)

Module Filters.

Definition STAGE_LABELS : list (string * string) :=
  [ ("pipeline", "Pipeline"); ("planning", "Planning"); ("tender", "Tender");
    ("award", "Award"); ("contract", "Contract"); ("termination", "Termination") ].

Definition STAGE_MATCHERS : list (string * list string) :=
  [ ("pipeline", ["pipeline"; "futureopportunity"]);
    ("planning", ["planning"; "preprocurement"; "priorinformation"; "earlyengagement"]);
    ("tender", ["tender"; "contractnotice"; "callforcompetition"; "competition";
                "corrigendum"; "voluntaryexantetransparencynotice"]);
    ("award", ["award"; "contractaward"]);
    ("contract", ["contract"; "implementation"]);
    ("termination", ["termination"; "terminate"; "cancel"; "closed"]) ].

Definition TYPE_ALIAS : list (string * string) :=
  [ ("contract", "contract"); ("opportunity", "contract");
    ("pipeline", "pipeline"); ("futureopportunity", "pipeline");
    ("preprocurement", "preprocurement"); ("earlyengagement", "preprocurement") ].

(** The characters kept by [.replace(/[^a-z0-9]+/g, '')]. *)
Definition isTokenChar (c : ascii) : bool := isLowerAscii c || isDigit c.

(** [resolveStageToken(values)]: the first matcher one of whose patterns
    occurs in one of the values. *)
Fixpoint resolveWith (matchers : list (string * list string)) (values : list value)
  : result string :=
  match matchers with
  | [] => Ret EmptyString
  | (token, patterns) :: rest =>
      hit <- some (fun candidate =>
                     some (fun pattern => call_includes candidate pattern) patterns)
                  values ;;
      if hit then Ret token else resolveWith rest values
  end.

Definition resolveStageToken (values : list value) : result string :=
  resolveWith STAGE_MATCHERS values.

(** [fields.some(value => Boolean(value))] in [hasContractTiming]. *)
Definition contractTimingFields (notice : value) : list value :=
  [ get notice "start"; get notice "contractStart"; get notice "contractStartDate";
    get notice "contractPeriodStart";
    get (get (get notice "contract") "period") "startDate" ].

Definition hasContractTiming (notice : value) : bool :=
  existsb truthy (contractTimingFields notice).

Section WithHost.
Variable h : Host.

Definition normaliseToken (value : value) : string :=
  if negb (truthy value) && negb (strict_eq value (VNum (Fin 0))) then EmptyString
  else filterString isTokenChar (toLowerCase (ToString h value)).

Definition normaliseContractsFinderType (value : value) : JS.value :=
  let token := normaliseToken value in
  if negb (nonEmpty token) then VStr EmptyString
  else or_else (table_get TYPE_ALIAS token) (VStr token).

Definition normaliseProcurementStageToken (value : value) : result string :=
  let token := normaliseToken value in
  if negb (nonEmpty token) then Ret EmptyString
  else if truthy (table_get STAGE_LABELS token) then Ret token
  else resolveStageToken [VStr token].

(** The local [push] of [collectStageCandidates]. *)
Fixpoint push (value : value) : list string :=
  match value with
  | VNull | VUndefined => []
  | VArr items => flat_map push items
  | _ =>
      if strict_eq value (VStr EmptyString) then []
      else
        let token := normaliseToken value in
        if nonEmpty token then [token] else []
  end.

Definition collectStageCandidates (notice : value) : list string :=
  push (get notice "procurementStage") ++
  push (get notice "noticeStage") ++
  push (get notice "stage") ++
  push (get notice "stageName") ++
  push (get notice "noticeType") ++
  push (get notice "noticeStatus") ++
  push (get notice "type") ++
  push (get notice "status") ++
  push (get notice "tags") ++
  (if truthy (get notice "awardedDate") || truthy (get notice "awardedValue")
   then push (VStr "award") else []) ++
  (if hasContractTiming notice then push (VStr "contract") else []) ++
  (if truthy (get notice "end") || truthy (get notice "contractEnd")
      || truthy (get notice "contractEndDate") || truthy (get notice "terminationDate")
   then push (VStr "termination") else []).

(** [String(notice.source || '').toUpperCase()]. *)
Definition sourceOf (source : value) : string :=
  toUpperCase (ToString h (or_else source (VStr EmptyString))).

Definition isContractsFinderSource (source : string) : bool :=
  String.eqb source "CF" || String.eqb source "CONTRACTS FINDER".

Definition isFindATenderSource (source : string) : bool :=
  String.eqb source "FTS" || String.eqb source "TD" || String.eqb source "FIND A TENDER".

(** [normaliseContractsFinderType(notice.noticeType || '')] and
    [normaliseToken(notice.noticeStatus || '')]. *)
Definition typeTokenOf (notice : value) : JS.value :=
  normaliseContractsFinderType (or_else (get notice "noticeType") (VStr EmptyString)).

Definition statusTokenOf (notice : value) : string :=
  normaliseToken (or_else (get notice "noticeStatus") (VStr EmptyString)).

(** The rules of [deriveProcurementStage] that apply to a Contracts Finder
    notice only; [None] when control leaves the block without a [return]. *)
Definition contractsFinderRules (notice typeToken : value) (statusToken : string)
  : option value :=
  if strict_eq typeToken (VStr "pipeline") then Some (table_get STAGE_LABELS "pipeline")
  else if strict_eq typeToken (VStr "preprocurement")
  then Some (table_get STAGE_LABELS "planning")
  else if String.eqb statusToken "open" then Some (table_get STAGE_LABELS "tender")
  else if String.eqb statusToken "awarded"
  then Some (if hasContractTiming notice
             then table_get STAGE_LABELS "contract"
             else table_get STAGE_LABELS "award")
  else if String.eqb statusToken "closed"
  then Some (table_get STAGE_LABELS "termination")
  else None.

Definition deriveProcurementStage (notice : value) : result value :=
  if negb (truthy notice) || negb (jstype_eqb (typeof notice) TObject)
  then Ret (VStr EmptyString)
  else
    explicitToken <- normaliseProcurementStageToken (get notice "procurementStage") ;;
    if nonEmpty explicitToken then Ret (table_get STAGE_LABELS explicitToken)
    else
      let source := sourceOf (get notice "source") in
      let typeToken := typeTokenOf notice in
      let statusToken := statusTokenOf notice in
      match (if isContractsFinderSource source
             then contractsFinderRules notice typeToken statusToken
             else None) with
      | Some label => Ret label
      | None =>
          let candidates :=
            ((if truthy typeToken then [typeToken] else []) ++
             map VStr (collectStageCandidates notice) ++
             (if nonEmpty statusToken then [VStr statusToken] else []))%list in
          resolved <- resolveStageToken candidates ;;
          if nonEmpty resolved then Ret (table_get STAGE_LABELS resolved)
          else if isContractsFinderSource source && strict_eq typeToken (VStr "contract")
          then Ret (table_get STAGE_LABELS "tender")
          else Ret (VStr EmptyString)
      end.

Definition buildSearchableBlob (notice : value) : string :=
  toLowerCase
    (join " "
       (map (ToString h)
          [ or_else (get notice "title") (VStr EmptyString);
            or_else (get notice "description") (VStr EmptyString);
            or_else (get notice "cpvCodes") (VStr EmptyString);
            or_else (get notice "organisationName") (VStr EmptyString);
            or_else (get notice "organisationAddress") (VStr EmptyString);
            or_else (get notice "regionText") (VStr EmptyString);
            or_else (get notice "region") (VStr EmptyString);
            or_else (get notice "noticeIdentifier") (VStr EmptyString) ])).

Definition matchesAuthorityKeywords (notice : value) : bool :=
  existsb Fts.containsAuthorityKeyword
    [ get notice "organisationName"; get notice "organisationAddress";
      get notice "title"; get notice "description";
      get notice "regionText"; get notice "region" ].

(** A time value, or [None] for the source's [null]. *)
Definition parseDateSafe (value : value) : option Z :=
  if negb (truthy value) then None else Date_parse h (ToString h value).

Definition parseNumberSafe (value : value) : option number :=
  if nullish value || strict_eq value (VStr EmptyString) then None
  else
    let numeric := ToNumber h value in
    if isNaN numeric then None else Some numeric.

Definition normaliseDateStart (value : value) : option Z :=
  match Date_parse h (ToString h value ++ "T00:00:00Z") with
  | Some parsed => Some parsed
  | None => Date_parse h (ToString h value)
  end.

Definition normaliseDateEnd (value : value) : option Z :=
  match Date_parse h (ToString h value ++ "T23:59:59Z") with
  | Some parsed => Some parsed
  | None => Date_parse h (ToString h value)
  end.

(** The options of [applyFilters]; an option that is left out is [[]] or
    [VUndefined]. *)
Record Criteria : Type := {
  keywords : list string;
  types : list string;
  statuses : list string;
  procurementStages : list string;
  dateFrom : value;
  dateTo : value;
  valueFrom : value;
  valueTo : value;
  sources : list string
}.

(** [typeof v === "number" ? v : v ? Number(v) : null]. *)
Definition valueBound (v : value) : option number :=
  match v with
  | VNum n => Some n
  | _ => if truthy v then Some (ToNumber h v) else None
  end.

(** [value ? normalise(value) : null]. *)
Definition dateBound (normalise : value -> option Z) (v : value) : option Z :=
  if truthy v then normalise v else None.

(** The truthiness of a bound that is a time value or [null]. *)
Definition timeGiven (t : option Z) : bool :=
  match t with
  | Some z => negb (z =? 0)
  | None => false
  end.

Definition expandSource (value : string) : list string :=
  if negb (nonEmpty value) then []
  else if String.eqb value "FTS" then ["FTS"; "TD"]
  else if String.eqb value "TD" then ["FTS"; "TD"]
  else [value].

Definition hasString (set : list string) (x : string) : bool :=
  existsb (String.eqb x) set.

(** What [applyFilters] computes from its options before it filters. *)
Record Prepared : Type := {
  kw : list string;
  typeSet : list value;
  statusSet : list string;
  stageSet : list string;
  minValue : option number;
  maxValue : option number;
  fromTime : option Z;
  toTime : option Z;
  sourceSet : list string
}.

Fixpoint mapM {A B : Type} (f : A -> result B) (items : list A) : result (list B) :=
  match items with
  | [] => Ret []
  | x :: rest => y <- f x ;; ys <- mapM f rest ;; Ret (y :: ys)
  end.

Definition prepare (c : Criteria) : result Prepared :=
  stageTokens <- mapM (fun s => normaliseProcurementStageToken (VStr s))
                      (procurementStages c) ;;
  Ret {| kw := filter nonEmpty (map toLowerCase (keywords c));
         typeSet := filter truthy
                      (map (fun s => normaliseContractsFinderType (VStr s)) (types c));
         statusSet := filter nonEmpty (map toLowerCase (statuses c));
         stageSet := filter nonEmpty stageTokens;
         minValue := valueBound (valueFrom c);
         maxValue := valueBound (valueTo c);
         fromTime := dateBound normaliseDateStart (dateFrom c);
         toTime := dateBound normaliseDateEnd (dateTo c);
         sourceSet := flat_map expandSource (map (fun s => sourceOf (VStr s)) (sources c)) |}.

(** The blocks of the filter callback, each [true] when the notice gets
    past it. *)

Definition sourceFilter (p : Prepared) (noticeSource : string) : bool :=
  negb ((0 <? length (sourceSet p))%nat && negb (hasString (sourceSet p) noticeSource)).

Definition stageFilter (p : Prepared) (stageLabel : value) : result bool :=
  if (0 <? length (stageSet p))%nat then
    stageToken <- normaliseProcurementStageToken stageLabel ;;
    Ret (negb (nonEmpty stageToken && negb (hasString (stageSet p) stageToken)))
  else Ret true.

Definition typeFilter (p : Prepared) (noticeSource : string) (notice : value) : bool :=
  if (0 <? length (typeSet p))%nat && isContractsFinderSource noticeSource then
    let noteType := typeTokenOf notice in
    negb (negb (truthy noteType) || negb (existsb (strict_eq noteType) (typeSet p)))
  else true.

Definition statusFilter (p : Prepared) (noticeSource : string) (notice : value) : bool :=
  if (0 <? length (statusSet p))%nat && isContractsFinderSource noticeSource then
    let noteStatus := statusTokenOf notice in
    negb (negb (nonEmpty noteStatus) || negb (hasString (statusSet p) noteStatus))
  else true.

Definition keywordFilter (p : Prepared) (noticeSource : string) (notice : value) : bool :=
  if isFindATenderSource noticeSource && (0 <? length (kw p))%nat then
    let blob := buildSearchableBlob notice in
    existsb (fun token => includes blob token) (kw p) && matchesAuthorityKeywords notice
  else true.

(** The date the notice is filtered by. *)
Definition candidateDate (notice : value) : option Z :=
  match parseDateSafe (get notice "publishedDate") with
  | Some candidate => Some candidate
  | None =>
      let fallbackDates :=
        flat_map (fun v => match parseDateSafe v with Some t => [t] | None => [] end)
          [ get notice "lastNotifiableUpdate"; get notice "awardedDate";
            get notice "deadlineDate" ] in
      match fallbackDates with
      | first :: _ => Some first
      | [] => None
      end
  end.

Definition dateFilter (p : Prepared) (notice : value) : bool :=
  if timeGiven (fromTime p) || timeGiven (toTime p) then
    match candidateDate notice with
    | None => false
    | Some candidate =>
        negb (match fromTime p with
              | Some t => timeGiven (fromTime p) && (candidate <? t)
              | None => false
              end)
        && negb (match toTime p with
                 | Some t => timeGiven (toTime p) && (t <? candidate)
                 | None => false
                 end)
    end
  else true.

Definition numericValues (notice : value) : list number :=
  flat_map (fun v => match parseNumberSafe v with Some n => [n] | None => [] end)
    [ get notice "valueLow"; get notice "valueHigh"; get notice "awardedValue" ].

(** The callback of [numericValues.some] in the value block. *)
Definition withinRange (p : Prepared) (current : number) : bool :=
  negb (match minValue p with Some m => num_ltb current m | None => false end)
  && negb (match maxValue p with Some m => num_ltb m current | None => false end).

Definition valueFilter (p : Prepared) (notice : value) : bool :=
  match minValue p, maxValue p with
  | None, None => true
  | _, _ =>
      match numericValues notice with
      | [] => true
      | values => existsb (withinRange p) values
      end
  end.

(** The callback of [notices.filter]. *)
Definition keepNotice (p : Prepared) (notice : value) : result bool :=
  source <- get_strict notice "source" ;;
  let noticeSource := sourceOf source in
  if negb (sourceFilter p noticeSource) then Ret false
  else
    stageLabel <- deriveProcurementStage notice ;;
    stageOk <- stageFilter p stageLabel ;;
    Ret (stageOk
         && typeFilter p noticeSource notice
         && statusFilter p noticeSource notice
         && keywordFilter p noticeSource notice
         && dateFilter p notice
         && valueFilter p notice).

Fixpoint filterM {A : Type} (f : A -> result bool) (items : list A) : result (list A) :=
  match items with
  | [] => Ret []
  | x :: rest =>
      keep <- f x ;;
      kept <- filterM f rest ;;
      Ret (if keep then x :: kept else kept)
  end.

Definition applyFilters (notices : list value) (c : Criteria) : result (list value) :=
  p <- prepare c ;; filterM (keepNotice p) notices.

End WithHost.

End Filters.

(** ** [src/app/api/search/route.ts] *)

Module Route.

(** A string of the decoder: its UTF-16 code units. *)
Definition ustring : Type := list N.

Definition units (s : string) : ustring := map N_of_ascii (list_ascii_of_string s).

Definition text (u : ustring) : string := string_of_list_ascii (map ascii_of_N u).

Local Open Scope N_scope.

Definition isDecimalDigit (u : N) : bool := (48 <=? u) && (u <=? 57).
Definition isLetter (u : N) : bool :=
  ((97 <=? u) && (u <=? 122)) || ((65 <=? u) && (u <=? 90)).
(** [[0-9a-f]] under the [i] flag. *)
Definition isHexDigit (u : N) : bool :=
  isDecimalDigit u || ((97 <=? u) && (u <=? 102)) || ((65 <=? u) && (u <=? 70)).

Definition digitOf (u : N) : N :=
  if isDecimalDigit u then u - 48
  else if 97 <=? u then u - 87
  else u - 55.

(** [Number.parseInt(digits, radix)] on a non-empty run of digits of that
    radix, before it is rounded to a binary64 number. *)
Definition parseInt (digits : ustring) (radix : N) : N :=
  fold_left (fun acc u => acc * radix + digitOf u) digits 0.

(** The integers that round to [Infinity]: [Number.isFinite] is false for
    them.  (In radix 10 an engine may replace the digits after the 20th by
    zeros, which can move this bound by a relative [1e-19].) *)
Definition roundsToInfinity (n : N) : bool := 2 ^ 1024 - 2 ^ 970 <=? n.

(** [String.fromCodePoint(n)]: a [RangeError] above [0x10FFFF]. *)
Definition fromCodePoint (n : N) : result ustring :=
  if n <=? 1114111 then
    Ret (if n <? 65536 then [n]
         else [55296 + (n - 65536) / 1024; 56320 + (n - 65536) mod 1024])
  else Throw RangeError.

(** The longest prefix of [s] made of characters in [p], and the rest. *)
Fixpoint span (p : N -> bool) (s : ustring) : ustring * ustring :=
  match s with
  | u :: s' =>
      if p u then let (run, rest) := span p s' in (u :: run, rest)
      else ([], s)
  | [] => ([], [])
  end.

(** A match of [prefix class+ ;] at the head of [s]: the captured run.
    The run is greedy and what follows it is not in the class, so the
    match exists exactly when the longest run is followed by [;]. *)
Definition matchReference (prefix : ustring -> option ustring) (class : N -> bool)
    (s : ustring) : option ustring :=
  match prefix s with
  | None => None
  | Some body =>
      let (run, rest) := span class body in
      match run, rest with
      | _ :: _, 59 :: _ => Some run
      | _, _ => None
      end
  end.

(** [&#x] and [&#X]. *)
Definition hexPrefix (s : ustring) : option ustring :=
  match s with
  | 38 :: 35 :: x :: body => if (x =? 120) || (x =? 88) then Some body else None
  | _ => None
  end.

(** [&#]. *)
Definition decimalPrefix (s : ustring) : option ustring :=
  match s with
  | 38 :: 35 :: body => Some body
  | _ => None
  end.

(** [&]. *)
Definition namedPrefix (s : ustring) : option ustring :=
  match s with
  | 38 :: body => Some body
  | _ => None
  end.

(** [s.replace(re, callback)] for a global expression [re] of the shape
    above: the matches are found from left to right and do not overlap;
    [skip] counts the characters of the current match still to pass.  The
    callback receives the whole match and the captured run. *)
Fixpoint replaceAll (prefix : ustring -> option ustring) (prefixLength : nat)
    (class : N -> bool) (callback : ustring -> ustring -> result ustring)
    (skip : nat) (s : ustring) : result ustring :=
  match s with
  | [] => Ret []
  | u :: s' =>
      match skip with
      | S skip' => replaceAll prefix prefixLength class callback skip' s'
      | O =>
          match matchReference prefix class s with
          | Some run =>
              let size := (prefixLength + length run + 1)%nat in
              replacement <- callback (firstn size s) run ;;
              tail <- replaceAll prefix prefixLength class callback (size - 1) s' ;;
              Ret (replacement ++ tail)%list
          | None =>
              tail <- replaceAll prefix prefixLength class callback 0 s' ;;
              Ret (u :: tail)
          end
      end
  end.

Definition NAMED_HTML_ENTITIES : list (string * string) :=
  [ ("amp", "&"); ("lt", "<"); ("gt", ">");
    ("quot", String (ascii_of_nat 34) EmptyString); ("apos", "'"); ("nbsp", " ") ].

Definition numericCallback (radix : N) (whole digits : ustring) : result ustring :=
  let codePoint := parseInt digits radix in
  if negb (roundsToInfinity codePoint) then fromCodePoint codePoint else Ret whole.

Section WithHost.
Variable h : Host.

(** [NAMED_HTML_ENTITIES[name.toLowerCase()] ?? `&${name};`]; the value the
    callback returns is turned into a string by [replace]. *)
Definition namedCallback (whole name : ustring) : result ustring :=
  let mapped := table_get NAMED_HTML_ENTITIES (toLowerCase (text name)) in
  Ret (if nullish mapped then (38 :: name ++ [59])%list
       else units (ToString h mapped)).

Inductive optionalText : Type :=
| TextUndefined
| TextNull
| Text (s : ustring).

Definition decodeHtmlEntities (value : optionalText) : result optionalText :=
  match value with
  | TextUndefined | TextNull => Ret value
  | Text [] => Ret (Text [])
  | Text s =>
      s1 <- replaceAll hexPrefix 3 isHexDigit (numericCallback 16) 0 s ;;
      s2 <- replaceAll decimalPrefix 2 isDecimalDigit (numericCallback 10) 0 s1 ;;
      s3 <- replaceAll namedPrefix 1 isLetter namedCallback 0 s2 ;;
      Ret (Text s3)
  end.

(** [{ ...notice, procurementStage: stageLabel || null }] after
    [deriveProcurementStage(notice)], as both mappers of the route do. *)
Definition attachStage (notice : list (string * value)) : result value :=
  stageLabel <- Filters.deriveProcurementStage h (VObj notice) ;;
  Ret (VObj (set_field notice "procurementStage" (or_else stageLabel VNull))).

End WithHost.

End Route.

(** ** Further built-ins *)

Module Builtins.

(** [recv.toLowerCase()]: a [TypeError] unless the receiver is a string
    ([undefined] and [null] have no properties, the other values no such
    method). *)
Definition call_toLowerCase (recv : value) : result string :=
  match recv with
  | VStr s => Ret (toLowerCase s)
  | _ => Throw TypeError
  end.

(** The [WhiteSpace] and [LineTerminator] characters among the ASCII
    characters: TAB, LF, VT, FF, CR and SP. *)
Definition isWhiteSpace (c : ascii) : bool :=
  ((9 <=? code c) && (code c <=? 13))%N || (code c =? 32)%N.

Fixpoint trimStart (s : string) : string :=
  match s with
  | EmptyString => EmptyString
  | String c s' => if isWhiteSpace c then trimStart s' else s
  end.

Fixpoint trimEnd (s : string) : string :=
  match s with
  | EmptyString => EmptyString
  | String c s' =>
      match trimEnd s' with
      | EmptyString => if isWhiteSpace c then EmptyString else String c EmptyString
      | rest => String c rest
      end
  end.

(** [s.trim()] for a string of ASCII characters; the engine also strips
    the white space outside ASCII (U+00A0, U+FEFF and others). *)
Definition trim (s : string) : string := trimEnd (trimStart s).

(** [Math.min(a, b)] and [Math.max(a, b)]: [NaN] as soon as one argument
    is. *)
Definition Math_min (a b : number) : number :=
  match a, b with
  | NaN, _ | _, NaN => NaN
  | _, _ => if num_ltb b a then b else a
  end.

Definition Math_max (a b : number) : number :=
  match a, b with
  | NaN, _ | _, NaN => NaN
  | _, _ => if num_ltb a b then b else a
  end.

(** [n || d] on numbers. *)
Definition num_or (n d : number) : number :=
  if isNaN n || num_is_zero n then d else n.

(** [items.find(f)] for a callback that can throw; [None] is the
    [undefined] of a search without a hit. *)
Fixpoint array_find {A : Type} (f : A -> result bool) (items : list A)
  : result (option A) :=
  match items with
  | [] => Ret None
  | x :: rest => b <- f x ;; if b then Ret (Some x) else array_find f rest
  end.

Definition found (hit : option value) : value :=
  match hit with
  | Some x => x
  | None => VUndefined
  end.

(** A parameter with a default value: the default stands in for
    [undefined]. *)
Definition defaulted (v : value) (d : number) : value :=
  match v with
  | VUndefined => VNum d
  | _ => v
  end.

(** [Array.isArray(v) ? v : []]. *)
Definition elements (v : value) : list value :=
  match v with
  | VArr items => items
  | _ => []
  end.

End Builtins.

Import Builtins.

(** ** [src/lib/fts.mjs]: the helpers of the projection *)

Module FtsProjection.

(** The result [{ primary }] of [extractBudgetValues]. *)
Definition budget (primary : value) : value := VObj [("primary", primary)].

Definition extractBudgetValues (planning : value) : result value :=
  if negb (truthy planning) || negb (jstype_eqb (typeof planning) TObject)
  then Ret (budget VNull)
  else
    let budgeting := or_else (get planning "budget") (VObj []) in
    if isArray (get budgeting "budgetBreakdown")
       && (0 <? length (elements (get budgeting "budgetBreakdown")))%nat
    then
      first <- array_find
                 (fun item => amount <- get_strict item "amount" ;; Ret (truthy amount))
                 (elements (get budgeting "budgetBreakdown")) ;;
      Ret (budget (or_else (get (found first) "amount") VNull))
    else if truthy (get budgeting "amount") then Ret (budget (get budgeting "amount"))
    else Ret (budget VNull).

(** [item => item.status && item.status.toLowerCase() === "active"]. *)
Definition isActive (item : value) : result bool :=
  status <- get_strict item "status" ;;
  if truthy status then
    lower <- call_toLowerCase status ;;
    Ret (String.eqb lower "active")
  else Ret false.

Definition selectAward (awards : value) : result value :=
  match awards with
  | VArr items =>
      active <- array_find isActive items ;;
      Ret (or_else (or_else (found active) (nth 0 items VUndefined)) VNull)
  | _ => Ret VNull
  end.

Definition selectContract (contracts : value) : result value :=
  match contracts with
  | VArr items =>
      active <- array_find isActive items ;;
      Ret (or_else (or_else (found active) (nth 0 items VUndefined)) VNull)
  | _ => Ret VNull
  end.

(** [party => Array.isArray(party.roles) &&
              party.roles.some(role => role.toLowerCase() === "buyer")]. *)
Definition isBuyer (party : value) : result bool :=
  roles <- get_strict party "roles" ;;
  match roles with
  | VArr items =>
      some (fun role => lower <- call_toLowerCase role ;; Ret (String.eqb lower "buyer"))
           items
  | _ => Ret false
  end.

Definition selectBuyer (parties : value) : result value :=
  match parties with
  | VArr items =>
      buyer <- array_find isBuyer items ;;
      Ret (or_else (found buyer) VNull)
  | _ => Ret VNull
  end.

Definition formatAddress (address : value) : value :=
  if negb (truthy address) || negb (jstype_eqb (typeof address) TObject) then VNull
  else
    let parts :=
      filter nonEmpty
        (map (fun part => match part with
                          | VStr s => trim s
                          | _ => EmptyString
                          end)
           [ get address "streetAddress"; get address "locality"; get address "region";
             get address "postalCode"; get address "countryName";
             get address "description" ]) in
    if (0 <? length parts)%nat then VStr (join ", " parts) else VNull.

End FtsProjection.

(** ** [src/lib/fts.mjs]: the search over release packages *)

Module FtsSearch.

Definition DEFAULT_PAGE_SIZE : number := Fin 50.
Definition OCDS_DEFAULT_STAGE : string := "tender".
Definition OCDS_MAX_LIMIT : number := Fin 100.

Section WithHost.
Variable h : Host.

(** [limit] in [searchFindATenderViaOcds], for the parameter
    [pageSize = DEFAULT_PAGE_SIZE]:
    [Math.max(1, Math.min(Number(pageSize) || DEFAULT_PAGE_SIZE, OCDS_MAX_LIMIT))]. *)
Definition ocdsLimit (pageSize : value) : number :=
  let pageSize := defaulted pageSize DEFAULT_PAGE_SIZE in
  Math_max (Fin 1) (Math_min (num_or (ToNumber h pageSize) DEFAULT_PAGE_SIZE) OCDS_MAX_LIMIT).

Definition normaliseOcdsStage (value : value) : string :=
  if negb (truthy value) then OCDS_DEFAULT_STAGE
  else
    let token := toLowerCase (ToString h value) in
    if String.eqb token "tender" || String.eqb token "award" || String.eqb token "planning"
    then token
    else OCDS_DEFAULT_STAGE.

(** [release?.id || release?.ocid], the id of the base record that
    [searchFindATenderViaOcds] builds for a release. *)
Definition releaseId (release : value) : value :=
  or_else (get release "id") (get release "ocid").

(** The package [{ releases: [release] }] it hands to
    [mapReleasePackageToNotice]. *)
Definition singleRelease (release : value) : value :=
  VObj [("releases", VArr [release])].

(** [/buyer|procuringentity|procuring_entity|contractingauthority|contracting_entity/i]. *)
Definition BUYER_ROLE_test (s : string) : bool :=
  existsb (includes (toLowerCase s))
    [ "buyer"; "procuringentity"; "procuring_entity"; "contractingauthority";
      "contracting_entity" ].


Definition partyHasBuyerRole (party : value) : bool :=
  if negb (truthy party) || negb (jstype_eqb (typeof party) TObject) then false
  else
    existsb (fun role => BUYER_ROLE_test (ToString h (or_else role (VStr EmptyString))))
            (elements (get party "roles")).



End WithHost.

Definition matchesPreferredAuthority (notice : value) : bool :=
  if negb (truthy notice) || negb (jstype_eqb (typeof notice) TObject) then false
  else
    existsb Fts.containsAuthorityKeyword
      [ get notice "organisationName"; get notice "organisationAddress";
        get notice "regionText"; get notice "region";
        get notice "description"; get notice "title" ].

End FtsSearch.

(** ** [src/lib/contractsfinder.mjs] and the Find a Tender route
    ([src/unnamed/part_001]): the page sizes *)

Module PageSize.

Definition CF_MAX_PAGE_SIZE : number := Fin 1000.
Definition DEFAULT_LIMIT : number := Fin 50.

Section WithHost.
Variable h : Host.

(** [safeSize] in [searchContractsFinder], for the parameter
    [size = CF_MAX_PAGE_SIZE]:
    [Math.min(Math.max(Number(size) || 0, 1), CF_MAX_PAGE_SIZE)]. *)
Definition safeSize (size : value) : number :=
  let size := defaulted size CF_MAX_PAGE_SIZE in
  Math_min (Math_max (num_or (ToNumber h size) (Fin 0)) (Fin 1)) CF_MAX_PAGE_SIZE.

(** [pageSize] in the route, for [limit = DEFAULT_LIMIT] of the request
    body: [Math.min(100, Math.max(1, Number(limit) || DEFAULT_LIMIT))]. *)
Definition pageSize (limit : value) : number :=
  let limit := defaulted limit DEFAULT_LIMIT in
  Math_min (Fin 100) (Math_max (Fin 1) (num_or (ToNumber h limit) DEFAULT_LIMIT)).

End WithHost.

End PageSize.

(** ** [src/app/api/export/route.ts] *)

Module ExportRoute.

Definition newline : ascii := ascii_of_nat 10.


Section WithHost.
Variable h : Host.


End WithHost.

End ExportRoute.

(** ** [src/app/page.tsx] *)

Module Page.

(** [[,\n]]. *)
Definition isSeparator (c : ascii) : bool :=
  Ascii.eqb c "," || Ascii.eqb c ExportRoute.newline.

(** [value.split(/[,\n]+/)]: the pieces between the runs of separators; the
    first piece of the result is the one being read, [inRun] tells that the
    character before was a separator. *)
Fixpoint split (inRun : bool) (s : string) : list string :=
  match s with
  | EmptyString => [EmptyString]
  | String c s' =>
      if isSeparator c then
        if inRun then split true s' else EmptyString :: split true s'
      else
        match split false s' with
        | piece :: pieces => String c piece :: pieces
        | [] => [String c EmptyString]
        end
  end.

Definition parseCsv (value : string) : list string :=
  filter nonEmpty (map trim (split false value)).

End Page.

(** ** Notions used in the statements *)

Fixpoint everyChar (p : ascii -> bool) (s : string) : bool :=
  match s with
  | EmptyString => true
  | String c s' => p c && everyChar p s'
  end.

(** The six labels of a procurement stage. *)
Definition stageLabels : list string :=
  ["Pipeline"; "Planning"; "Tender"; "Award"; "Contract"; "Termination"].

Definition stageTokens : list string := map fst Filters.STAGE_LABELS.

(** What [resolveStageToken] computes when every value is a string. *)
Fixpoint resolveStrings (matchers : list (string * list string)) (values : list string)
  : string :=
  match matchers with
  | [] => EmptyString
  | (token, patterns) :: rest =>
      if existsb (fun s => existsb (includes s) patterns) values then token
      else resolveStrings rest values
  end.

(** The order of the numbers other than [NaN]. *)
Definition num_le (a b : number) : Prop :=
  match a, b with
  | NaN, _ | _, NaN => False
  | NInf, _ => True
  | _, PInf => True
  | Fin p, Fin q => (p <= q)%Q
  | _, _ => False
  end.




(** The values that are not objects: two of them are strictly equal
    exactly when [strict_eq] says so. *)
Definition isPrimitive (v : value) : bool :=
  match v with
  | VArr _ | VObj _ | VBuiltin _ => false
  | _ => true
  end.

(** The options of [applyFilters] are plain: the listed strings are ASCII
    and the bounds are plain values. *)
Definition plainCriteria (c : Filters.Criteria) : bool :=
  forallb asciiText (Filters.keywords c)
  && forallb asciiText (Filters.types c)
  && forallb asciiText (Filters.statuses c)
  && forallb asciiText (Filters.procurementStages c)
  && forallb asciiText (Filters.sources c)
  && plain (Filters.dateFrom c) && plain (Filters.dateTo c)
  && plain (Filters.valueFrom c) && plain (Filters.valueTo c).

(** ** Example data *)

Fixpoint readNatural (acc : Z) (s : string) : option Z :=
  match s with
  | EmptyString => Some acc
  | String c s' => if isDigit c then readNatural (acc * 10 + digitValue c) s' else None
  end.

(** A host for the closed examples: it renders the integer part of a
    number in decimal, reads a run of decimal digits as a number and knows
    no date notation beyond [parseIsoUtc].  None of the examples below
    consults it; they hold on every host. *)
Definition exampleHost : Host :=
  {| NumberToString := fun q => NilZero.string_of_int (Z.to_int (Qnum q / Zpos (Qden q)));
     StringToNumber := fun s =>
       match s with
       | EmptyString => Fin 0
       | _ => match readNatural 0 s with Some z => Fin (inject_Z z) | None => NaN end
       end;
     DateParseOther := fun _ => None |}.

Definition number_of (z : Z) : value := VNum (Fin (inject_Z z)).

(** The options of [applyFilters] with keywords, a date range and a value
    range, the others left out. *)
Definition criteriaOf (keywords : list string) (dateFrom dateTo valueFrom valueTo : value)
  : Filters.Criteria :=
  {| Filters.keywords := keywords; Filters.types := []; Filters.statuses := [];
     Filters.procurementStages := [];
     Filters.dateFrom := dateFrom; Filters.dateTo := dateTo;
     Filters.valueFrom := valueFrom; Filters.valueTo := valueTo;
     Filters.sources := [] |}.

Definition contractsFinderAwarded : list (string * value) :=
  [ ("source", VStr "CF"); ("noticeType", VStr "Contract");
    ("noticeStatus", VStr "Awarded"); ("start", VStr "2024-04-01") ].

Definition explicitAwardNotice : list (string * value) :=
  [ ("source", VStr "CF"); ("procurementStage", VStr "AWARD");
    ("noticeType", VStr "Pipeline"); ("noticeStatus", VStr "Open") ].

Definition constructorStageNotice : list (string * value) :=
  [ ("procurementStage", VStr "constructor") ].

Definition lowValueNotice : value :=
  VObj [ ("valueLow", VNum (Fin 1000)); ("valueHigh", VNull); ("awardedValue", VNull) ].



Definition undatedNotice : value := VObj [ ("title", VStr "Undated") ].

Definition notice1969 : value := VObj [ ("publishedDate", VStr "1969-06-01T00:00:00Z") ].

Definition noticeJune15 : value := VObj [ ("publishedDate", VStr "2024-06-15T12:00:00Z") ].

Definition plainTenderNotice : value :=
  VObj [ ("source", VStr "FTS"); ("title", VStr "Cloud hosting");
         ("organisationName", VStr "Acme Widgets Ltd") ].

Definition nhsTenderNotice : value :=
  VObj [ ("source", VStr "FTS"); ("title", VStr "Cloud hosting");
         ("organisationName", VStr "Leeds NHS Trust") ].

(** What [applyFilters] prepares from [{ keywords: ["Cloud"] }]. *)
Definition cloudPrepared : Filters.Prepared :=
  {| Filters.kw := ["cloud"]; Filters.typeSet := []; Filters.statusSet := [];
     Filters.stageSet := [];
     Filters.minValue := None; Filters.maxValue := None;
     Filters.fromTime := None; Filters.toTime := None; Filters.sourceSet := [] |}.

Definition releaseJanuary : list (string * value) :=
  [ ("id", VStr "rel-1"); ("date", VStr "2024-01-01") ].

Definition releaseMarch : list (string * value) :=
  [ ("id", VStr "rel-2"); ("date", VStr "2024-03-01") ].

Definition twoReleasePackage : value :=
  VObj [ ("releases", VArr [VObj releaseJanuary; VObj releaseMarch]) ].

(** A package with [null] in front of the release of March. *)
Definition nullFirstPackage : value :=
  VObj [ ("releases", VArr [VNull; VObj releaseMarch]) ].

(** [&#x1] followed by 256 zeros and [;]: the code point [2 ^ 1024]. *)
Definition hugeReference : Route.ustring :=
  (Route.units "&#x1" ++ repeat 48%N 256 ++ Route.units ";")%list.

(** ** Notions used in the further properties *)

(** The notices the callback of [applyFilters] keeps. *)
Definition keeps (h : Host) (p : Filters.Prepared) (notice : value) : bool :=
  match Filters.keepNotice h p notice with
  | Ret true => true
  | _ => false
  end.

(** The options [c] with other stages, and with the types and statuses
    left out. *)
Definition withStages (c : Filters.Criteria) (stages : list string) : Filters.Criteria :=
  {| Filters.keywords := Filters.keywords c; Filters.types := Filters.types c;
     Filters.statuses := Filters.statuses c; Filters.procurementStages := stages;
     Filters.dateFrom := Filters.dateFrom c; Filters.dateTo := Filters.dateTo c;
     Filters.valueFrom := Filters.valueFrom c; Filters.valueTo := Filters.valueTo c;
     Filters.sources := Filters.sources c |}.

Definition withoutTypesAndStatuses (c : Filters.Criteria) : Filters.Criteria :=
  {| Filters.keywords := Filters.keywords c; Filters.types := [];
     Filters.statuses := []; Filters.procurementStages := Filters.procurementStages c;
     Filters.dateFrom := Filters.dateFrom c; Filters.dateTo := Filters.dateTo c;
     Filters.valueFrom := Filters.valueFrom c; Filters.valueTo := Filters.valueTo c;
     Filters.sources := Filters.sources c |}.

(** The source of a notice as [applyFilters] and [deriveProcurementStage]
    read it. *)
Definition noticeSourceOf (h : Host) (notice : value) : string :=
  Filters.sourceOf h (get notice "source").

(** The candidates [deriveProcurementStage] hands to [resolveStageToken]:
    the type token in front, the tokens of [collectStageCandidates], the
    status token at the end. *)
Definition stageCandidatesOf (h : Host) (notice : value) : list value :=
  ((if truthy (Filters.typeTokenOf h notice) then [Filters.typeTokenOf h notice] else []) ++
   map VStr (Filters.collectStageCandidates h notice) ++
   (if nonEmpty (Filters.statusTokenOf h notice)
    then [VStr (Filters.statusTokenOf h notice)] else []))%list.

Definition awardedFtsNotice : list (string * value) :=
  [ ("source", VStr "FTS"); ("noticeType", VStr "Contract");
    ("awardedDate", VStr "2024-05-01"); ("start", VStr "2024-06-01");
    ("end", VStr "2026-05-31") ].

Definition bareContractNotice : list (string * value) :=
  [ ("source", VStr "CF"); ("noticeType", VStr "Contract") ].

Definition withSources (c : Filters.Criteria) (sources : list string) : Filters.Criteria :=
  {| Filters.keywords := Filters.keywords c; Filters.types := Filters.types c;
     Filters.statuses := Filters.statuses c;
     Filters.procurementStages := Filters.procurementStages c;
     Filters.dateFrom := Filters.dateFrom c; Filters.dateTo := Filters.dateTo c;
     Filters.valueFrom := Filters.valueFrom c; Filters.valueTo := Filters.valueTo c;
     Filters.sources := sources |}.

(** A release with an awarded and an active award. *)
Definition pendingAward : value := VObj [ ("id", VStr "a1"); ("status", VStr "pending") ].
Definition activeAward : value := VObj [ ("id", VStr "a2"); ("status", VStr "Active") ].

(** A planning section whose budget has a breakdown without amounts beside
    a flat amount. *)
Definition planningWithBreakdown : value :=
  VObj [ ("budget",
          VObj [ ("amount", VObj [ ("amount", VNum (Fin 5000)) ]);
                 ("budgetBreakdown", VArr [ VObj [ ("description", VStr "Year 1") ] ]) ]) ].

Definition buyerParty : value :=
  VObj [ ("id", VStr "GB-NHS-1"); ("name", VStr "Leeds Teaching Hospitals");
         ("roles", VArr [ VStr "Buyer" ]) ].


(** A string without white space at either end. *)
Definition trimmed (s : string) : Prop := trimStart s = s /\ trimEnd s = s.

(** The fields [formatAddress] reads, in its order. *)
Definition addressFields (address : value) : list value :=
  [ get address "streetAddress"; get address "locality"; get address "region";
    get address "postalCode"; get address "countryName"; get address "description" ].

Definition leedsAddress : value :=
  VObj [ ("streetAddress", VStr " 1 Great George Street "); ("locality", VStr "Leeds");
         ("region", VStr "   "); ("postalCode", VNum (Fin 1)) ].






(** * Properties *)

(** ** Results and strings *)

Lemma bind_Ret {A B} (m : result A) (k : A -> result B) b :
  bind m k = Ret b -> exists a, m = Ret a /\ k a = Ret b.
Proof. destruct m; simpl; intros H; [eauto | discriminate]. Qed.

Lemma nonEmpty_false s : nonEmpty s = false -> s = EmptyString.
Proof.
  unfold nonEmpty. intros H. apply negb_false_iff in H. now apply String.eqb_eq in H.
Qed.


Lemma get_set_same fields key x : get (VObj (set_field fields key x)) key = x.
Proof.
  unfold get. induction fields as [|[k v] rest IH]; simpl.
  - now rewrite String.eqb_refl.
  - destruct (String.eqb k key) eqn:E; simpl; rewrite E; [reflexivity|assumption].
Qed.

Lemma get_set_other fields key x k :
  k <> key -> get (VObj (set_field fields key x)) k = get (VObj fields) k.
Proof.
  intros Hk. unfold get. induction fields as [|[k' v] rest IH]; simpl.
  - destruct (String.eqb_spec key k); [congruence|reflexivity].
  - destruct (String.eqb_spec k' key) as [->|Hne]; simpl.
    + destruct (String.eqb_spec key k); [congruence|reflexivity].
    + destruct (String.eqb k' k); [reflexivity|assumption].
Qed.

Lemma startsWith_app s p q : startsWith s (p ++ q) = true -> startsWith s p = true.
Proof.
  revert s. induction p as [|c p IH]; intros s; [now destruct s|].
  destruct s as [|d s]; [discriminate|]. simpl.
  intros H. apply andb_true_iff in H. destruct H as [Hc Hs].
  rewrite Hc. simpl. now apply IH.
Qed.

Lemma includes_app s p q : includes s (p ++ q) = true -> includes s p = true.
Proof.
  induction s as [|c s IH]; cbn [includes].
  - rewrite !orb_false_r. apply startsWith_app.
  - intros H. apply orb_true_iff in H. apply orb_true_iff.
    destruct H as [H|H]; [left; now apply startsWith_app in H|right; now apply IH].
Qed.

Lemma includes_here s p : startsWith s p = true -> includes s p = true.
Proof. intros H. destruct s; cbn [includes]; rewrite H; reflexivity. Qed.

Lemma includes_later c s p : includes s p = true -> includes (String c s) p = true.
Proof. intros H. cbn [includes]. rewrite H. apply orb_true_r. Qed.

Lemma startsWith_iff s pat :
  startsWith s pat = true <-> exists post, s = pat ++ post.
Proof.
  revert s. induction pat as [|p pat IH]; intros s.
  - split; [intros _; now exists s | intros _; now destruct s].
  - destruct s as [|c s]; simpl.
    + split; [discriminate | intros [post H]; discriminate].
    + rewrite andb_true_iff, IH. split.
      * intros [Hc [post ->]]. apply Ascii.eqb_eq in Hc. subst. now exists post.
      * intros [post [= -> ->]]. split; [apply Ascii.eqb_refl | now exists post].
Qed.

(** [includes] is the substring test. *)
Lemma includes_iff s pat :
  includes s pat = true <-> exists pre post, s = pre ++ pat ++ post.
Proof.
  induction s as [|c s IH]; cbn [includes].
  - rewrite orb_false_r, startsWith_iff. split.
    + intros [post H]. now exists EmptyString, post.
    + intros [pre [post H]]. destruct pre; [now exists post | discriminate].
  - rewrite orb_true_iff, startsWith_iff, IH. split.
    + intros [[post H]|[pre [post H]]].
      * now exists EmptyString, post.
      * exists (String c pre), post. simpl. now rewrite H.
    + intros [pre [post H]]. destruct pre as [|d pre].
      * left. now exists post.
      * right. injection H as -> ->. now exists pre, post.
Qed.

Lemma filterString_every p s : everyChar p (filterString p s) = true.
Proof.
  induction s as [|c s IH]; simpl; [reflexivity|].
  destruct (p c) eqn:E; simpl; [rewrite E|]; assumption.
Qed.

(** ** Authority match *)

Lemma sameLetter_upper c letter :
  Fts.sameLetter c letter = true -> isLowerAscii letter = true ->
  upperChar c = upperChar letter.
Proof.
  unfold Fts.sameLetter. intros H Hl. apply Ascii.eqb_eq in H. subst letter.
  destruct c as [[] [] [] [] [] [] [] []]; try discriminate Hl; reflexivity.
Qed.

Lemma nhsThenBoundary_upper s :
  Fts.nhsThenBoundary s = true -> startsWith (toUpperCase s) "NHS" = true.
Proof.
  destruct s as [|a [|b [|c rest]]]; try discriminate. simpl.
  intros H. repeat (apply andb_true_iff in H; destruct H as [H ?]).
  rewrite (sameLetter_upper a "n"), (sameLetter_upper b "h"), (sameLetter_upper c "s")
    by (assumption || reflexivity).
  destruct rest; reflexivity.
Qed.

Lemma nhsAfterNonWord_upper s :
  Fts.nhsAfterNonWord s = true -> includes (toUpperCase s) "NHS" = true.
Proof.
  induction s as [|c s IH]; [discriminate|].
  cbn [Fts.nhsAfterNonWord]. intros H. apply orb_true_iff in H.
  change (toUpperCase (String c s)) with (String (upperChar c) (toUpperCase s)).
  apply includes_later. destruct H as [H|H].
  - apply andb_true_iff in H. apply includes_here, nhsThenBoundary_upper. tauto.
  - now apply IH.
Qed.

Lemma NHS_REGEX_upper s :
  Fts.NHS_REGEX_test s = true -> includes (toUpperCase s) "NHS" = true.
Proof.
  unfold Fts.NHS_REGEX_test. intros H. apply orb_true_iff in H. destruct H as [H|H].
  - now apply includes_here, nhsThenBoundary_upper.
  - now apply nhsAfterNonWord_upper.
Qed.

(** C1, counterexample.  [containsAuthorityKeyword("Cornhshire")] is [true]:
    the letters [nhs] inside a word are enough. *)
Lemma C1_counterexample :
  Fts.containsAuthorityKeyword (VStr "Cornhshire") = true.
Proof. reflexivity. Qed.

(** C1, as amended.  For a string of ASCII characters,
    [containsAuthorityKeyword] is [true] exactly when the upper-case form of
    the string contains [NHS] or [NATIONAL HEALTH SERVICE] as a substring;
    no word boundary is required, and the two phrases that begin with [nhs]
    add nothing.  For anything that is not a string it is [false].  The
    regular expression does reject ["Cornhshire"], but the substring tests
    that follow it accept it.  ["Greater Manchester NHS Trust"] is accepted
    and ["Acme Widgets Ltd"] is not. *)
Theorem C1_authority_match_is_substring :
  (forall s : string,
     asciiText s = true ->
     (Fts.containsAuthorityKeyword (VStr s) = true <->
      includes (toUpperCase s) "NHS" = true
      \/ includes (toUpperCase s) "NATIONAL HEALTH SERVICE" = true))
  /\ (forall v : value,
        jstype_eqb (typeof v) TString = false -> Fts.containsAuthorityKeyword v = false)
  /\ Fts.NHS_REGEX_test "Cornhshire" = false
  /\ Fts.containsAuthorityKeyword (VStr "Cornhshire") = true
  /\ Fts.containsAuthorityKeyword (VStr "Greater Manchester NHS Trust") = true
  /\ Fts.containsAuthorityKeyword (VStr "Acme Widgets Ltd") = false.
Proof.
  split; [|split; [|repeat split; reflexivity]].
  - intros s _. split.
    + intros H. unfold Fts.containsAuthorityKeyword in H.
      destruct (Fts.NHS_REGEX_test s) eqn:Er; [left; now apply NHS_REGEX_upper|].
      destruct (includes (toUpperCase s) "NHS") eqn:En; [now left|].
      cbn [existsb Fts.FTS_AUTHORITY_KEYWORDS] in H.
      change (toUpperCase "nhs") with "NHS" in H.
      change (toUpperCase "nhs trust") with ("NHS" ++ " TRUST") in H.
      change (toUpperCase "nhs foundation trust") with ("NHS" ++ " FOUNDATION TRUST") in H.
      change (toUpperCase "national health service") with "NATIONAL HEALTH SERVICE" in H.
      rewrite En in H.
      destruct (includes (toUpperCase s) ("NHS" ++ " TRUST")) eqn:E1;
        [apply includes_app in E1; congruence|].
      destruct (includes (toUpperCase s) ("NHS" ++ " FOUNDATION TRUST")) eqn:E2;
        [apply includes_app in E2; congruence|].
      right. simpl in H. now rewrite orb_false_r in H.
    + intros H. unfold Fts.containsAuthorityKeyword.
      destruct (Fts.NHS_REGEX_test s); [reflexivity|].
      destruct (includes (toUpperCase s) "NHS") eqn:En; [reflexivity|].
      destruct H as [H|H]; [congruence|].
      cbn [existsb Fts.FTS_AUTHORITY_KEYWORDS].
      change (toUpperCase "national health service") with "NATIONAL HEALTH SERVICE".
      rewrite H. now rewrite !orb_true_r.
  - intros v Hv. destruct v; try reflexivity. discriminate Hv.
Qed.

(** C1, witness: the name of an NHS trust. *)
Lemma C1_witness :
  Fts.containsAuthorityKeyword (VStr "Greater Manchester NHS Trust") = true <->
  includes (toUpperCase "Greater Manchester NHS Trust") "NHS" = true
  \/ includes (toUpperCase "Greater Manchester NHS Trust") "NATIONAL HEALTH SERVICE" = true.
Proof.
  exact (proj1 C1_authority_match_is_substring "Greater Manchester NHS Trust" eq_refl).
Defined.

(** ** Entity decoder *)

(** The decoder on the references of the specification. *)
Lemma decode_examples (h : Host) :
  Route.decodeHtmlEntities h (Route.Text (Route.units "&amp;")) = Ret (Route.Text (Route.units "&"))
  /\ Route.decodeHtmlEntities h (Route.Text (Route.units "&#65;")) = Ret (Route.Text (Route.units "A"))
  /\ Route.decodeHtmlEntities h (Route.Text (Route.units "&#x41;")) = Ret (Route.Text (Route.units "A"))
  /\ Route.decodeHtmlEntities h (Route.Text (Route.units "&unknown;"))
     = Ret (Route.Text (Route.units "&unknown;"))
  /\ Route.decodeHtmlEntities h Route.TextNull = Ret Route.TextNull
  /\ Route.decodeHtmlEntities h (Route.Text []) = Ret (Route.Text []).
Proof. repeat split; vm_compute; reflexivity. Qed.

(** C3, the failing input.  A numeric reference above [0x10FFFF] is finite,
    so the decoder calls [String.fromCodePoint] on it and a [RangeError]
    leaves [decodeHtmlEntities]: [&#x110000;] and [&#1114112;] are not left
    as they are.  [&#x10FFFF;] is decoded, and only a reference so long that
    it rounds to [Infinity] is left untouched. *)
Theorem C3_code_point_above_range_throws (h : Host) :
  Route.decodeHtmlEntities h (Route.Text (Route.units "&#x110000;")) = Throw RangeError
  /\ Route.decodeHtmlEntities h (Route.Text (Route.units "Caf&#1114112;")) = Throw RangeError
  /\ Route.decodeHtmlEntities h (Route.Text (Route.units "&#x10FFFF;"))
     = Ret (Route.Text [56319%N; 57343%N])
  /\ Route.decodeHtmlEntities h (Route.Text hugeReference) = Ret (Route.Text hugeReference).
Proof. repeat split; vm_compute; reflexivity. Qed.

(** ** Release selection *)

Section Releases.
Variable h : Host.

Lemma sortByDate_head (a : value) (rest : list value) :
  exists before latest after tail,
    a :: rest = (before ++ latest :: after)%list
    /\ (forall x, In x before -> Fts.releaseDate h x < Fts.releaseDate h latest)
    /\ (forall x, In x after -> Fts.releaseDate h x <= Fts.releaseDate h latest)
    /\ Fts.sortByDate h (a :: rest) = latest :: tail.
Proof.
  revert a. induction rest as [|b rest IH]; intros a.
  - exists [], a, [], []. split; [reflexivity|].
    split; [intros x []|]. split; [intros x []|reflexivity].
  - destruct (IH b) as [before [latest [after [tail [Hsplit [Hb [Ha Hs]]]]]]].
    cbn [Fts.sortByDate] in *. rewrite Hs. cbn [Fts.insertByDate].
    destruct (Z.leb_spec (Fts.releaseDate h latest - Fts.releaseDate h a) 0) as [Hle|Hgt].
    + exists [], a, (b :: rest), (latest :: tail).
      split; [reflexivity|]. split; [intros x []|]. split; [|reflexivity].
      intros x Hx. rewrite Hsplit in Hx. apply in_app_or in Hx.
      destruct Hx as [Hx|[<-|Hx]]; [specialize (Hb x Hx)| |specialize (Ha x Hx)]; lia.
    + exists (a :: before), latest, after, (Fts.insertByDate h a tail).
      split; [simpl; now rewrite Hsplit|].
      split; [intros x [<-|Hx]; [lia|now apply Hb]|].
      split; [assumption|reflexivity].
Qed.

Lemma findById_none (releases : list value) (id : value) :
  (forall x, In x releases -> nullish x = false /\ strict_eq (get x "id") id = false) ->
  Fts.findById releases id = Ret VUndefined.
Proof.
  induction releases as [|r rest IH]; intros H; [reflexivity|].
  destruct (H r (or_introl eq_refl)) as [Hn Hr].
  cbn [Fts.findById]. unfold get_strict. rewrite Hn. cbn [bind]. rewrite Hr.
  apply IH. intros x Hx. apply H. now right.
Qed.

Lemma findById_first before r after (id : value) :
  (forall x, In x before -> nullish x = false /\ strict_eq (get x "id") id = false) ->
  nullish r = false -> strict_eq (get r "id") id = true ->
  Fts.findById (before ++ r :: after) id = Ret r.
Proof.
  induction before as [|b before IH]; intros Hb Hn Hr.
  - cbn [app Fts.findById]. unfold get_strict. rewrite Hn. cbn [bind]. now rewrite Hr.
  - destruct (Hb b (or_introl eq_refl)) as [Hnb Hidb].
    cbn [app Fts.findById]. unfold get_strict. rewrite Hnb. cbn [bind]. rewrite Hidb.
    apply IH; [|assumption|assumption]. intros x Hx. apply Hb. now right.
Qed.

Lemma findById_nullish before x after (id : value) :
  (forall y, In y before -> nullish y = false /\ strict_eq (get y "id") id = false) ->
  nullish x = true ->
  Fts.findById (before ++ x :: after) id = Throw TypeError.
Proof.
  induction before as [|b before IH]; intros Hb Hx.
  - cbn [app Fts.findById]. unfold get_strict. now rewrite Hx.
  - destruct (Hb b (or_introl eq_refl)) as [Hnb Hidb].
    cbn [app Fts.findById]. unfold get_strict. rewrite Hnb. cbn [bind]. rewrite Hidb.
    apply IH; [|assumption]. intros y Hy. apply Hb. now right.
Qed.

(** With releases and a truthy id, the selection is the search by id and
    then the sort. *)
Lemma select_with_releases (pkg : value) (releases : list value) (id : value) :
  truthy pkg = true -> get pkg "releases" = VArr releases ->
  releases <> [] -> truthy id = true ->
  Fts.selectRelevantRelease h pkg id
  = bind (Fts.findById releases id) (fun byId =>
      if truthy byId then Ret byId
      else Ret (or_else (nth 0 (Fts.sortByDate h releases) VUndefined) VNull)).
Proof.
  intros Hpkg Hrel Hne Hid. unfold Fts.selectRelevantRelease, Fts.releasesOf.
  rewrite Hpkg, Hrel, Hid. cbn [isArray negb orb].
  destruct releases; [contradiction|reflexivity].
Qed.

End Releases.

(** C4, counterexample.  A package with [null] in front of the release
    whose id is the id of the base record: reading [id] from [null] throws,
    so that release is not selected and [mapReleasePackageToNotice] throws
    too, whatever the projection. *)
Lemma C4_counterexample :
  Fts.selectRelevantRelease exampleHost nullFirstPackage (VStr "rel-2") = Throw TypeError
  /\ Fts.releasesOf nullFirstPackage = [VNull; VObj releaseMarch]
  /\ strict_eq (get (VObj releaseMarch) "id") (VStr "rel-2") = true
  /\ Fts.mapReleasePackageToNotice exampleHost (fun _ release => Ret release)
       [("id", VStr "rel-2")] nullFirstPackage = Throw TypeError.
Proof. repeat split; reflexivity. Qed.

(** C4, as amended.  For a base record with an id, truthy and not an
    object, as both callers pass it, and a package with releases.  When a
    release has an [id] strictly equal to it and no release in front of it
    is [null] or [undefined], the first such release is selected.  When no
    release has that id and none is [null] or [undefined], the release
    with the greatest date is selected, the first of them in the package
    among equal dates; a release without a readable date counts as time 0,
    the dates are plain values, and a release that is a falsy value gives
    [null].  When a [null] or [undefined] release comes before any release
    with the id, a [TypeError] is thrown.  When the package is [null], has
    no [releases] array or an empty one, nothing is selected,
    [mapReleasePackageToNotice] returns the base record with the fields it
    had and nothing is thrown.  For the two releases dated 2024-01-01 and
    2024-03-01 and an id that matches neither, the release of March is
    selected. *)
Theorem C4_release_selection :
  (* a release with the id of the base record *)
  (forall (h : Host) (pkg : value) (before after : list value) (r id : value),
     truthy id = true -> isPrimitive id = true ->
     truthy pkg = true -> get pkg "releases" = VArr (before ++ r :: after) ->
     (forall x, In x before -> nullish x = false /\ strict_eq (get x "id") id = false) ->
     strict_eq (get r "id") id = true ->
     Fts.selectRelevantRelease h pkg id = Ret r)
  /\
  (* otherwise the latest release, the first of them in the package *)
  (forall (h : Host) (pkg : value) (releases : list value) (id : value),
     truthy id = true -> isPrimitive id = true ->
     truthy pkg = true -> get pkg "releases" = VArr releases -> releases <> [] ->
     (forall x, In x releases ->
        nullish x = false /\ strict_eq (get x "id") id = false
        /\ plain (get x "date") = true) ->
     exists before latest after,
       releases = (before ++ latest :: after)%list
       /\ (forall x, In x before -> Fts.releaseDate h x < Fts.releaseDate h latest)
       /\ (forall x, In x after -> Fts.releaseDate h x <= Fts.releaseDate h latest)
       /\ Fts.selectRelevantRelease h pkg id = Ret (or_else latest VNull))
  /\
  (* a null release in front of every release with the id *)
  (forall (h : Host) (project : list (string * value) -> value -> result value)
          (base : list (string * value)) (pkg : value) (before after : list value)
          (x : value),
     truthy (get (VObj base) "id") = true -> isPrimitive (get (VObj base) "id") = true ->
     truthy pkg = true -> get pkg "releases" = VArr (before ++ x :: after) ->
     (forall y, In y before ->
        nullish y = false /\ strict_eq (get y "id") (get (VObj base) "id") = false) ->
     nullish x = true ->
     Fts.selectRelevantRelease h pkg (get (VObj base) "id") = Throw TypeError
     /\ Fts.mapReleasePackageToNotice h project base pkg = Throw TypeError)
  /\
  (* no package or no release: the base record, and nothing is thrown *)
  (forall (h : Host) (project : list (string * value) -> value -> result value)
          (base : list (string * value)) (pkg : value),
     truthy pkg = false \/ isArray (get pkg "releases") = false
       \/ get pkg "releases" = VArr [] ->
     Fts.selectRelevantRelease h pkg (get (VObj base) "id") = Ret VNull
     /\ Fts.mapReleasePackageToNotice h project base pkg = Ret (VObj base))
  /\
  (* the two releases of January and March *)
  (forall (h : Host) (id : string),
     id <> EmptyString -> id <> "rel-1" -> id <> "rel-2" ->
     Fts.selectRelevantRelease h twoReleasePackage (VStr id) = Ret (VObj releaseMarch)).
Proof.
  split; [|split; [|split; [|split]]].
  - intros h pkg before after r id Hid _ Hpkg Hrel Hb Hr.
    assert (Hn : nullish r = false).
    { destruct r; try reflexivity; cbn [get] in Hr;
        destruct id; try discriminate Hr; discriminate Hid. }
    rewrite (select_with_releases h pkg _ id Hpkg Hrel) by (assumption || now destruct before).
    rewrite findById_first by assumption. cbn [bind].
    destruct r; try discriminate Hn; try reflexivity; cbn [get] in Hr;
      destruct id; try discriminate Hr; discriminate Hid.
  - intros h pkg releases id Hid _ Hpkg Hrel Hne Hall.
    rewrite (select_with_releases h pkg _ id Hpkg Hrel) by assumption.
    rewrite findById_none by (intros x Hx; destruct (Hall x Hx) as [? [? _]]; auto).
    cbn [bind truthy].
    destruct releases as [|a rest]; [contradiction|].
    destruct (sortByDate_head h a rest)
      as [before [latest [after [tail [Hsplit [Hb [Ha Hs]]]]]]].
    exists before, latest, after. split; [exact Hsplit|].
    split; [assumption|]. split; [assumption|].
    rewrite Hs. reflexivity.
  - intros h project base pkg before after x Hid _ Hpkg Hrel Hb Hx.
    assert (Hsel : Fts.selectRelevantRelease h pkg (get (VObj base) "id") = Throw TypeError).
    { rewrite (select_with_releases h pkg _ _ Hpkg Hrel) by (assumption || now destruct before).
      rewrite findById_nullish by assumption. reflexivity. }
    split; [assumption|].
    unfold Fts.mapReleasePackageToNotice. rewrite Hsel. reflexivity.
  - intros h project base pkg Hpkg.
    assert (Hsel : Fts.selectRelevantRelease h pkg (get (VObj base) "id") = Ret VNull).
    { unfold Fts.selectRelevantRelease, Fts.releasesOf.
      destruct Hpkg as [H|[H|H]]; rewrite H.
      - reflexivity.
      - now rewrite orb_true_r.
      - cbn [isArray negb length Nat.eqb]. now rewrite !orb_true_r. }
    split; [assumption|].
    unfold Fts.mapReleasePackageToNotice. rewrite Hsel. reflexivity.
  - intros h id Hne H1 H2.
    rewrite (select_with_releases h twoReleasePackage
               [VObj releaseJanuary; VObj releaseMarch] (VStr id)).
    + rewrite findById_none; [reflexivity|].
      intros x [<-|[<-|[]]]; (split; [reflexivity|]).
      * change (get (VObj releaseJanuary) "id") with (VStr "rel-1").
        cbn [strict_eq]. apply String.eqb_neq. congruence.
      * change (get (VObj releaseMarch) "id") with (VStr "rel-2").
        cbn [strict_eq]. apply String.eqb_neq. congruence.
    + reflexivity.
    + reflexivity.
    + discriminate.
    + cbn [truthy]. unfold nonEmpty. apply negb_true_iff, String.eqb_neq. assumption.
Qed.

(** C4, witness: the release of March is found by its id, behind the
    release of January. *)
Lemma C4_witness :
  Fts.selectRelevantRelease exampleHost twoReleasePackage (VStr "rel-2")
  = Ret (VObj releaseMarch).
Proof.
  refine (proj1 C4_release_selection exampleHost twoReleasePackage
            [VObj releaseJanuary] [] (VObj releaseMarch) (VStr "rel-2") _ _ _ _ _ _).
  - reflexivity.
  - reflexivity.
  - reflexivity.
  - reflexivity.
  - intros x [<-|[]]. split; reflexivity.
  - reflexivity.
Defined.

(** ** Stage classifier *)

(** A notice that is an object gets past the first test of
    [deriveProcurementStage]. *)
Ltac derive_on_object :=
  unfold Filters.deriveProcurementStage;
  cbn [truthy typeof jstype_eqb negb orb].

Lemma Object_prototype_token k :
  everyChar Filters.isTokenChar k = true ->
  Object_prototype k =
  if String.eqb k "constructor" then VBuiltin "Object" else VUndefined.
Proof.
  intros Hk. unfold Object_prototype.
  repeat match goal with
  | |- context [String.eqb k ?lit] =>
      lazymatch lit with
      | "constructor" => fail
      | _ => destruct (String.eqb_spec k lit) as [->|_]; [vm_compute in Hk; discriminate|]
      end
  end.
  reflexivity.
Qed.

Section Stage.
Variable h : Host.

Lemma normaliseToken_every v : everyChar Filters.isTokenChar (Filters.normaliseToken h v) = true.
Proof.
  unfold Filters.normaliseToken.
  destruct (negb (truthy v) && negb (strict_eq v (VNum (Fin 0)))); [reflexivity|].
  apply filterString_every.
Qed.

Lemma stage_label_lookup k :
  everyChar Filters.isTokenChar k = true ->
  k <> "constructor" ->
  (exists label, In (k, label) Filters.STAGE_LABELS /\
                 table_get Filters.STAGE_LABELS k = VStr label)
  \/ (~ In k stageTokens /\ table_get Filters.STAGE_LABELS k = VUndefined).
Proof.
  intros Hk Hc. unfold table_get, Filters.STAGE_LABELS. cbn [find fst snd].
  repeat match goal with
  | |- context [String.eqb ?lit k] =>
      destruct (String.eqb_spec lit k) as [<-|?];
        [left; eexists; split; [|reflexivity]; simpl; tauto|]
  end.
  right. split.
  - unfold stageTokens. simpl. intuition congruence.
  - rewrite Object_prototype_token by assumption.
    destruct (String.eqb_spec k "constructor"); [contradiction|reflexivity].
Qed.

Lemma stage_token_label t :
  In t stageTokens ->
  exists label, In (t, label) Filters.STAGE_LABELS /\ In label stageLabels /\
                table_get Filters.STAGE_LABELS t = VStr label /\ nonEmpty t = true.
Proof.
  unfold stageTokens, stageLabels. simpl. intros H.
  repeat (destruct H as [<-|H];
          [refine (ex_intro _ _ (conj _ (conj _ (conj eq_refl eq_refl)))); simpl; tauto|]).
  contradiction.
Qed.

Lemma resolveWith_tokens matchers values t :
  Filters.resolveWith matchers values = Ret t ->
  t = EmptyString \/ In t (map fst matchers).
Proof.
  induction matchers as [|[token patterns] rest IH]; simpl; intros H.
  - left. congruence.
  - apply bind_Ret in H. destruct H as [hit [_ H]].
    destruct hit.
    + right. left. congruence.
    + destruct (IH H); [left|right; right]; assumption.
Qed.

Lemma resolveStageToken_tokens values t :
  Filters.resolveStageToken values = Ret t -> t = EmptyString \/ In t stageTokens.
Proof. apply resolveWith_tokens. Qed.

Lemma table_get_token table k :
  everyChar Filters.isTokenChar k = true ->
  k <> "constructor" ->
  (exists x, table_get table k = VStr x /\ In x (map snd table))
  \/ table_get table k = VUndefined.
Proof.
  intros Hk Hc. unfold table_get.
  destruct (find _ table) as [kv|] eqn:E.
  - left. exists (snd kv). split; [reflexivity|].
    apply find_some in E. apply in_map. tauto.
  - right. rewrite Object_prototype_token by assumption.
    destruct (String.eqb_spec k "constructor"); [contradiction|reflexivity].
Qed.

Lemma some_includes s patterns :
  some (fun pattern => call_includes (VStr s) pattern) patterns
  = Ret (existsb (includes s) patterns).
Proof.
  induction patterns as [|p rest IH]; simpl; [reflexivity|].
  destruct (includes s p); simpl; [reflexivity|assumption].
Qed.

Lemma some_strings patterns values :
  some (fun candidate =>
          some (fun pattern => call_includes candidate pattern) patterns)
       (map VStr values)
  = Ret (existsb (fun s => existsb (includes s) patterns) values).
Proof.
  induction values as [|s rest IH]; cbn [some map existsb]; [reflexivity|].
  rewrite some_includes. cbn [bind].
  destruct (existsb (includes s) patterns); cbn [orb]; [reflexivity|assumption].
Qed.

Lemma resolveWith_strings matchers values :
  Filters.resolveWith matchers (map VStr values) = Ret (resolveStrings matchers values).
Proof.
  induction matchers as [|[token patterns] rest IH];
    cbn [Filters.resolveWith resolveStrings]; [reflexivity|].
  rewrite some_strings. cbn [bind].
  destruct (existsb _ values); [reflexivity|assumption].
Qed.

Lemma normaliseProcurementStageToken_total v :
  exists t, Filters.normaliseProcurementStageToken h v = Ret t.
Proof.
  unfold Filters.normaliseProcurementStageToken.
  destruct (negb (nonEmpty _)); [eauto|].
  destruct (truthy _); [eauto|].
  unfold Filters.resolveStageToken.
  eexists. apply (resolveWith_strings Filters.STAGE_MATCHERS [_]).
Qed.

Lemma normaliseProcurementStageToken_cases v t :
  Filters.normaliseToken h v <> "constructor" ->
  Filters.normaliseProcurementStageToken h v = Ret t ->
  t = EmptyString \/ In t stageTokens.
Proof.
  intros Hc. unfold Filters.normaliseProcurementStageToken.
  destruct (negb (nonEmpty _)); [intros [= <-]; now left|].
  destruct (stage_label_lookup _ (normaliseToken_every v) Hc)
    as [[label [Hin Hget]]|[_ Hget]]; rewrite Hget; cbn [truthy].
  - destruct (nonEmpty label).
    + intros H. injection H as <-. right. unfold stageTokens.
      change (Filters.normaliseToken h v) with (fst (Filters.normaliseToken h v, label)).
      now apply in_map.
    + apply resolveStageToken_tokens.
  - apply resolveStageToken_tokens.
Qed.

Lemma normaliseContractsFinderType_string v :
  Filters.normaliseToken h v <> "constructor" ->
  exists s, Filters.normaliseContractsFinderType h v = VStr s.
Proof.
  intros Hc. unfold Filters.normaliseContractsFinderType.
  destruct (negb (nonEmpty _)); [eauto|].
  destruct (table_get_token Filters.TYPE_ALIAS _ (normaliseToken_every v) Hc)
    as [[x [Hget _]]|Hget]; rewrite Hget; unfold or_else; simpl.
  - destruct (nonEmpty x); eauto.
  - eauto.
Qed.

Lemma contractsFinderRules_label notice typeToken statusToken label :
  Filters.contractsFinderRules notice typeToken statusToken = Some label ->
  exists s, label = VStr s /\ In s stageLabels.
Proof.
  unfold Filters.contractsFinderRules.
  repeat match goal with
  | |- context [if ?b then _ else _] => destruct b
  end; intros [= <-]; eexists; (split; [reflexivity|]); unfold stageLabels; simpl; tauto.
Qed.

Lemma derive_shape notice :
  Filters.normaliseToken h (get notice "procurementStage") <> "constructor" ->
  Filters.normaliseToken h (or_else (get notice "noticeType") (VStr EmptyString))
    <> "constructor" ->
  exists s, Filters.deriveProcurementStage h notice = Ret (VStr s)
            /\ (s = EmptyString \/ In s stageLabels).
Proof.
  intros Hstage Htype. unfold Filters.deriveProcurementStage.
  destruct (negb (truthy notice) || negb (jstype_eqb (typeof notice) TObject));
    [eauto|].
  destruct (normaliseProcurementStageToken_total (get notice "procurementStage"))
    as [explicit Hexp].
  rewrite Hexp. simpl.
  destruct (normaliseProcurementStageToken_cases _ _ Hstage Hexp) as [->|Hin].
  - simpl.
    destruct (normaliseContractsFinderType_string _ Htype) as [ty Hty].
    unfold Filters.typeTokenOf. rewrite Hty.
    destruct (if Filters.isContractsFinderSource _ then _ else None) as [label|] eqn:Erule.
    + destruct (Filters.isContractsFinderSource _); [|discriminate].
      apply contractsFinderRules_label in Erule. destruct Erule as [s [-> Hs]]. eauto.
    + set (candidates := (_ ++ _ ++ _)%list).
      assert (Hc : exists l, candidates = map VStr l).
      { subst candidates.
        exists ((if truthy (VStr ty) then [ty] else []) ++
                Filters.collectStageCandidates h notice ++
                (if nonEmpty (Filters.statusTokenOf h notice)
                 then [Filters.statusTokenOf h notice] else []))%list.
        rewrite !map_app. f_equal; [|f_equal].
        - destruct (truthy (VStr ty)); reflexivity.
        - destruct (nonEmpty _); reflexivity. }
      destruct Hc as [l ->]. unfold Filters.resolveStageToken.
      rewrite resolveWith_strings. cbn [bind].
      pose proof (resolveWith_tokens Filters.STAGE_MATCHERS (map VStr l)
                    (resolveStrings Filters.STAGE_MATCHERS l)
                    (resolveWith_strings _ _)) as [->|Hin].
      * simpl. destruct (_ && _); [|eauto].
        exists "Tender". split; [reflexivity|]. right. unfold stageLabels. simpl. tauto.
      * destruct (stage_token_label _ Hin) as [label [_ [Hl [Hget Hne]]]].
        rewrite Hne, Hget. eauto.
  - destruct (stage_token_label _ Hin) as [label [_ [Hl [Hget Hne]]]].
    rewrite Hne, Hget. eauto.
Qed.

End Stage.

Lemma resolveStrings_none matchers values :
  Forall (fun m => fst m <> EmptyString) matchers ->
  (resolveStrings matchers values = EmptyString <->
   forall m s, In m matchers -> In s values -> existsb (includes s) (snd m) = false).
Proof.
  intros Hne. induction Hne as [|[token patterns] rest Htok _ IH]; simpl.
  - tauto.
  - destruct (existsb _ values) eqn:E.
    + split; [intros ->; now elim Htok|].
      intros H. apply existsb_exists in E. destruct E as [s [Hs Hp]].
      pose proof (H (token, patterns) s (or_introl eq_refl) Hs) as Hq.
      simpl in Hq. congruence.
    + rewrite IH. split.
      * intros H m s [<-|Hm] Hs; [|now apply H].
        simpl. destruct (existsb (includes s) patterns) eqn:Ep; [|reflexivity].
        rewrite <- E. symmetry. apply existsb_exists. eauto.
      * intros H m s Hm Hs. apply H; [now right|assumption].
Qed.

Lemma STAGE_MATCHERS_named : Forall (fun m => fst m <> EmptyString) Filters.STAGE_MATCHERS.
Proof. repeat constructor; discriminate. Qed.

Lemma resolveStrings_fewer values values' :
  (forall s, In s values' -> In s values) ->
  resolveStrings Filters.STAGE_MATCHERS values = EmptyString ->
  resolveStrings Filters.STAGE_MATCHERS values' = EmptyString.
Proof.
  intros Hincl. rewrite !(resolveStrings_none _ _ STAGE_MATCHERS_named).
  intros H m s Hm Hs. apply H; auto.
Qed.

Section Stage2.
Variable h : Host.

Lemma label_is_explicit label :
  In label stageLabels ->
  exists t, Filters.normaliseProcurementStageToken h (VStr label) = Ret t
            /\ nonEmpty t = true /\ table_get Filters.STAGE_LABELS t = VStr label
            /\ truthy (VStr label) = true.
Proof.
  unfold stageLabels. simpl. intros H.
  repeat (destruct H as [<-|H]; [eexists; repeat split; reflexivity|]).
  contradiction.
Qed.

(** Away from the token [constructor], deriving again after the stage is
    attached gives the stage that was attached. *)
Lemma derive_attach_same fields v :
  Filters.normaliseToken h (get (VObj fields) "procurementStage") <> "constructor" ->
  Filters.normaliseToken h (or_else (get (VObj fields) "noticeType") (VStr EmptyString))
    <> "constructor" ->
  Filters.deriveProcurementStage h (VObj fields) = Ret v ->
  Filters.deriveProcurementStage h
    (VObj (set_field fields "procurementStage" (or_else v VNull))) = Ret v.
Proof.
  intros Hstage Htype Hd.
  destruct (derive_shape h _ Hstage Htype) as [s [Hs Hcase]].
  rewrite Hs in Hd. injection Hd as <-.
  destruct Hcase as [->|Hlabel].
  - (* nothing derived: [null] is attached *)
    change (or_else (VStr EmptyString) VNull) with VNull.
    revert Hs. derive_on_object.
    rewrite get_set_same.
    destruct (normaliseProcurementStageToken_total h (get (VObj fields) "procurementStage"))
      as [explicit Hexp].
    rewrite Hexp. cbn [bind].
    destruct (normaliseProcurementStageToken_cases h _ _ Hstage Hexp) as [->|Hin].
    2:{ destruct (stage_token_label _ Hin) as [label [_ [Hl [Hget Hne]]]].
        rewrite Hne, Hget. intros [= ->]. simpl in Hl. intuition discriminate. }
    change (Filters.normaliseProcurementStageToken h VNull) with (@Ret string EmptyString).
    cbn [bind nonEmpty String.eqb negb].
    unfold Filters.typeTokenOf, Filters.statusTokenOf, Filters.contractsFinderRules,
      Filters.collectStageCandidates, Filters.hasContractTiming,
      Filters.contractTimingFields.
    rewrite get_set_same. rewrite !get_set_other by discriminate.
    destruct (normaliseContractsFinderType_string h _ Htype) as [ty Hty].
    rewrite Hty.
    match goal with
    | |- context [match ?r with Some _ => _ | None => _ end] => destruct r as [label|]
    end; [trivial|].
    change (Filters.push h VNull) with (@nil string). cbn [app].
    set (A := if truthy (VStr ty) then [VStr ty] else []).
    set (B := if nonEmpty _ then [VStr _] else []).
    assert (HA : exists a, A = map VStr a).
    { subst A. destruct (truthy (VStr ty)); [now exists [ty] | now exists []]. }
    assert (HB : exists b, B = map VStr b).
    { subst B. destruct (nonEmpty _); [eexists [_] | exists []]; reflexivity. }
    destruct HA as [a ->]. destruct HB as [b ->].
    rewrite <- !map_app. unfold Filters.resolveStageToken.
    rewrite !resolveWith_strings. cbn [bind].
    match goal with
    | |- context [resolveStrings _ (a ++ (Filters.push h ?ps ++ ?rest) ++ b)%list] =>
        set (P := Filters.push h ps); set (R := rest)
    end.
    destruct (nonEmpty (resolveStrings _ (a ++ (P ++ R) ++ b))) eqn:E.
    { pose proof (resolveWith_tokens Filters.STAGE_MATCHERS _ _
                    (resolveWith_strings _ (a ++ (P ++ R) ++ b))) as [Hr|Hin].
      - rewrite Hr in E. discriminate.
      - destruct (stage_token_label _ Hin) as [label [_ [Hl [Hget Hne]]]].
        rewrite Hget. intros [= ->]. simpl in Hl. intuition discriminate. }
    apply nonEmpty_false in E.
    rewrite (resolveStrings_fewer (a ++ (P ++ R) ++ b) (a ++ R ++ b)); [trivial| |exact E].
    intros x. rewrite !in_app_iff. tauto.
  - (* a label was derived and is read back *)
    destruct (label_is_explicit _ Hlabel) as [t [Ht [Hne [Hget Htruthy]]]].
    unfold or_else. rewrite Htruthy.
    derive_on_object.
    rewrite get_set_same, Ht. cbn [bind]. now rewrite Hne, Hget.
Qed.



End Stage2.

(** C9.  When the [procurementStage] field of a notice normalises to one of
    the six stage tokens, [deriveProcurementStage] returns the label of
    that token, whatever the other fields of the notice are. *)
Theorem C9_explicit_stage_wins (h : Host) (fields : list (string * value))
    (token label : string) :
  In (token, label) Filters.STAGE_LABELS ->
  Filters.normaliseProcurementStageToken h (get (VObj fields) "procurementStage")
    = Ret token ->
  Filters.deriveProcurementStage h (VObj fields) = Ret (VStr label).
Proof.
  intros Hin Hexp. derive_on_object.
  rewrite Hexp. cbn [bind].
  simpl in Hin.
  repeat (destruct Hin as [[= <- <-]|Hin]; [reflexivity|]).
  contradiction.
Qed.

(** C9, witness: [procurementStage: "AWARD"] on a Contracts Finder notice of
    type Pipeline and status Open. *)
Lemma C9_witness :
  In ("award", "Award") Filters.STAGE_LABELS /\
  Filters.normaliseProcurementStageToken exampleHost
    (get (VObj explicitAwardNotice) "procurementStage") = Ret "award" /\
  Filters.deriveProcurementStage exampleHost (VObj explicitAwardNotice)
    = Ret (VStr "Award").
Proof.
  assert (H1 : In ("award", "Award") Filters.STAGE_LABELS) by (simpl; tauto).
  assert (H2 : Filters.normaliseProcurementStageToken exampleHost
                 (get (VObj explicitAwardNotice) "procurementStage") = Ret "award")
    by reflexivity.
  split; [exact H1|split; [exact H2|]].
  exact (C9_explicit_stage_wins exampleHost explicitAwardNotice "award" "Award" H1 H2).
Defined.



(** On every host a notice without fields has no stage. *)
Lemma derive_empty_notice (h : Host) :
  Filters.deriveProcurementStage h (VObj []) = Ret (VStr EmptyString).
Proof. reflexivity. Qed.

(** C2, counterexample.  For a notice without any field
    [deriveProcurementStage] returns the empty string, which is neither
    [null] nor one of the six labels. *)
Lemma C2_counterexample :
  Filters.deriveProcurementStage exampleHost (VObj []) = Ret (VStr EmptyString)
  /\ VStr EmptyString <> VNull
  /\ ~ In EmptyString stageLabels.
Proof.
  split; [reflexivity|]. split; [discriminate|].
  simpl. intuition discriminate.
Qed.

(** C2, as amended.  For a plain notice (its strings are ASCII and none of
    its objects has an own [toString], on which [String] would throw):
    unless the [procurementStage] or the [noticeType] of the notice
    normalises to the token [constructor], [deriveProcurementStage] returns
    one of the six labels or the empty string, and throws nothing; the
    stage the search route attaches to the notice is then that label, or
    [null] in place of the empty string. *)
Theorem C2_stage_label_or_empty_string (h : Host) (notice : value) :
  plain notice = true ->
  Filters.normaliseToken h (get notice "procurementStage") <> "constructor" ->
  Filters.normaliseToken h (or_else (get notice "noticeType") (VStr EmptyString))
    <> "constructor" ->
  (exists s, Filters.deriveProcurementStage h notice = Ret (VStr s)
             /\ (s = EmptyString \/ In s stageLabels))
  /\
  (forall fields, notice = VObj fields ->
     exists attached,
       Route.attachStage h fields
       = Ret (VObj (set_field fields "procurementStage" attached))
       /\ (attached = VNull \/ exists label, In label stageLabels /\ attached = VStr label)).
Proof.
  intros _ Hstage Htype.
  destruct (derive_shape h notice Hstage Htype) as [s [Hs Hcase]].
  split; [eauto|].
  intros fields ->. unfold Route.attachStage. rewrite Hs. cbn [bind].
  eexists. split; [reflexivity|].
  destruct Hcase as [->|Hl]; [now left|].
  right. exists s. split; [assumption|].
  destruct (label_is_explicit h _ Hl) as [_ [_ [_ [_ Ht]]]].
  unfold or_else. now rewrite Ht.
Qed.

(** C2, witness: an awarded Contracts Finder notice. *)
Lemma C2_witness :
  exists s, Filters.deriveProcurementStage exampleHost (VObj contractsFinderAwarded)
            = Ret (VStr s)
            /\ (s = EmptyString \/ In s stageLabels).
Proof.
  refine (proj1 (C2_stage_label_or_empty_string exampleHost (VObj contractsFinderAwarded)
                   eq_refl _ _));
    vm_compute; discriminate.
Defined.

(** [STAGE_LABELS["constructor"]] is the inherited [Object] function, so
    for [{ procurementStage: "constructor" }], a notice that no mapper of
    the route builds, [deriveProcurementStage] returns that function. *)
Lemma explicit_constructor_stage (h : Host) :
  Filters.deriveProcurementStage h (VObj constructorStageNotice)
    = Ret (VBuiltin "Object")
  /\ Route.attachStage h constructorStageNotice
     = Ret (VObj [("procurementStage", VBuiltin "Object")])
  /\ Filters.deriveProcurementStage h (VObj [("procurementStage", VBuiltin "Object")])
     = Ret (VStr EmptyString).
Proof. repeat split; reflexivity. Qed.



(** ** Filter engine *)





Section Values.
Variable h : Host.






End Values.

Section Filtering.
Variable h : Host.

Lemma filterM_kept {A} (f : A -> result bool) items kept x :
  Filters.filterM f items = Ret kept -> In x kept -> In x items /\ f x = Ret true.
Proof.
  revert kept. induction items as [|y rest IH]; simpl; intros kept H Hin.
  - injection H as <-. contradiction.
  - destruct (f y) as [keep|] eqn:Ey; [|discriminate]. simpl in H.
    destruct (Filters.filterM f rest) as [kept'|]; [|discriminate]. simpl in H.
    injection H as <-. destruct keep.
    + destruct Hin as [<-|Hin]; [auto|]. destruct (IH kept' eq_refl Hin). auto.
    + destruct (IH kept' eq_refl Hin). auto.
Qed.

Lemma keepNotice_true p notice :
  Filters.keepNotice h p notice = Ret true ->
  exists source,
    get_strict notice "source" = Ret source
    /\ Filters.keywordFilter h p (Filters.sourceOf h source) notice = true
    /\ Filters.dateFilter h p notice = true
    /\ Filters.valueFilter h p notice = true.
Proof.
  unfold Filters.keepNotice.
  destruct (get_strict notice "source") as [source|]; [|discriminate]. cbn [bind].
  destruct (negb (Filters.sourceFilter p _)); [discriminate|].
  destruct (Filters.deriveProcurementStage h notice) as [label|]; [|discriminate].
  cbn [bind]. destruct (Filters.stageFilter h p label) as [ok|]; [|discriminate].
  cbn [bind]. intros [= H]. exists source. split; [reflexivity|].
  repeat (apply andb_true_iff in H; destruct H as [H ?]). auto.
Qed.

Lemma applyFilters_kept notices c kept notice :
  Filters.applyFilters h notices c = Ret kept -> In notice kept ->
  exists p source,
    Filters.prepare h c = Ret p /\ In notice notices
    /\ get_strict notice "source" = Ret source
    /\ Filters.keywordFilter h p (Filters.sourceOf h source) notice = true
    /\ Filters.dateFilter h p notice = true
    /\ Filters.valueFilter h p notice = true.
Proof.
  unfold Filters.applyFilters. intros H Hin.
  destruct (Filters.prepare h c) as [p|]; [|discriminate]. cbn [bind] in H.
  destruct (filterM_kept _ _ _ _ H Hin) as [Hn Hk].
  destruct (keepNotice_true _ _ Hk) as [source Hs].
  exists p, source. tauto.
Qed.

Lemma prepare_fields c p :
  Filters.prepare h c = Ret p ->
  Filters.kw p = filter nonEmpty (map toLowerCase (Filters.keywords c))
  /\ Filters.minValue p = Filters.valueBound h (Filters.valueFrom c)
  /\ Filters.maxValue p = Filters.valueBound h (Filters.valueTo c)
  /\ Filters.fromTime p = Filters.dateBound (Filters.normaliseDateStart h) (Filters.dateFrom c)
  /\ Filters.toTime p = Filters.dateBound (Filters.normaliseDateEnd h) (Filters.dateTo c).
Proof.
  unfold Filters.prepare.
  destruct (Filters.mapM _ _) as [tokens|]; [|discriminate].
  cbn [bind]. intros [= <-]. repeat split.
Qed.

Lemma candidateDate_spec notice :
  Filters.candidateDate h notice =
  match Filters.parseDateSafe h (get notice "publishedDate") with
  | Some t => Some t
  | None =>
      match Filters.parseDateSafe h (get notice "lastNotifiableUpdate") with
      | Some t => Some t
      | None =>
          match Filters.parseDateSafe h (get notice "awardedDate") with
          | Some t => Some t
          | None => Filters.parseDateSafe h (get notice "deadlineDate")
          end
      end
  end.
Proof.
  unfold Filters.candidateDate.
  destruct (Filters.parseDateSafe h (get notice "publishedDate")); [reflexivity|].
  cbn [flat_map].
  destruct (Filters.parseDateSafe h (get notice "lastNotifiableUpdate")); [reflexivity|].
  destruct (Filters.parseDateSafe h (get notice "awardedDate")); [reflexivity|].
  destruct (Filters.parseDateSafe h (get notice "deadlineDate")); reflexivity.
Qed.

(** The date block with a bound other than the time value 0: the notice
    passes exactly when it has a candidate date within the bounds. *)
Lemma dateFilter_iff p notice :
  Filters.timeGiven (Filters.fromTime p) || Filters.timeGiven (Filters.toTime p) = true ->
  (Filters.dateFilter h p notice = true <->
   exists candidate,
     Filters.candidateDate h notice = Some candidate
     /\ (forall t, Filters.fromTime p = Some t -> t <> 0 -> t <= candidate)
     /\ (forall t, Filters.toTime p = Some t -> t <> 0 -> candidate <= t)).
Proof.
  intros Hgiven. unfold Filters.dateFilter. rewrite Hgiven.
  destruct (Filters.candidateDate h notice) as [candidate|].
  2:{ split; [discriminate|]. intros [x [Hx _]]. discriminate. }
  rewrite andb_true_iff, !negb_true_iff. split.
  - intros [Hf Ht]. exists candidate. split; [reflexivity|]. split; intros t Et Hz.
    + rewrite Et in Hf. cbn [Filters.timeGiven] in Hf.
      destruct (Z.eqb_spec t 0); [contradiction|]. cbn [negb andb] in Hf.
      apply Z.ltb_ge in Hf. assumption.
    + rewrite Et in Ht. cbn [Filters.timeGiven] in Ht.
      destruct (Z.eqb_spec t 0); [contradiction|]. cbn [negb andb] in Ht.
      apply Z.ltb_ge in Ht. assumption.
  - intros [x [[= <-] [Hf Ht]]]. split.
    + destruct (Filters.fromTime p) as [t|]; [|reflexivity]. cbn [Filters.timeGiven].
      destruct (Z.eqb_spec t 0); [reflexivity|]. cbn [negb andb].
      apply Z.ltb_ge. now apply Hf.
    + destruct (Filters.toTime p) as [t|]; [|reflexivity]. cbn [Filters.timeGiven].
      destruct (Z.eqb_spec t 0); [reflexivity|]. cbn [negb andb].
      apply Z.ltb_ge. now apply Ht.
Qed.

Lemma keywordFilter_iff p noticeSource notice :
  Filters.isFindATenderSource noticeSource = true ->
  Filters.kw p <> [] ->
  (Filters.keywordFilter h p noticeSource notice = true <->
   (exists token, In token (Filters.kw p)
                  /\ includes (Filters.buildSearchableBlob h notice) token = true)
   /\ Filters.matchesAuthorityKeywords notice = true).
Proof.
  intros Hsrc Hkw. unfold Filters.keywordFilter. rewrite Hsrc.
  destruct (Filters.kw p) as [|k ks] eqn:E; [contradiction|].
  cbn [length Nat.ltb Nat.leb andb].
  rewrite andb_true_iff, existsb_exists. tauto.
Qed.

Lemma keywordFilter_other_source p noticeSource notice :
  Filters.isFindATenderSource noticeSource = false ->
  Filters.keywordFilter h p noticeSource notice = true.
Proof. intros Hsrc. unfold Filters.keywordFilter. now rewrite Hsrc. Qed.

Lemma contractsFinder_not_findATender noticeSource :
  Filters.isContractsFinderSource noticeSource = true ->
  Filters.isFindATenderSource noticeSource = false.
Proof.
  unfold Filters.isContractsFinderSource, Filters.isFindATenderSource.
  intros H. apply orb_true_iff in H.
  destruct H as [H|H]; apply String.eqb_eq in H; subst; reflexivity.
Qed.

End Filtering.

Lemma kept_keyword (keywords : list string) (token : string) :
  In token (filter nonEmpty (map toLowerCase keywords)) ->
  exists keyword, In keyword keywords /\ keyword <> EmptyString
                  /\ token = toLowerCase keyword.
Proof.
  rewrite filter_In, in_map_iff. intros [[keyword [<- Hin]] Hne].
  exists keyword. split; [assumption|]. split; [|reflexivity].
  intros ->. discriminate.
Qed.




Lemma utcMillis_end_of_day y m d t :
  utcMillis y m d 0 0 0 0 = Some t ->
  utcMillis y m d 23 59 59 0 = Some (t + 86399000).
Proof.
  unfold utcMillis.
  destruct ((1 <=? m) && (m <=? 12) && (1 <=? d) && (d <=? daysInMonth y m)); simpl;
    [|discriminate].
  intros [= <-]. f_equal. lia.
Qed.

(** A calendar day written [YYYY-MM-DD]: with [T00:00:00Z] appended it is
    the same instant, with [T23:59:59Z] the last second of the day. *)
Lemma named_day_bounds day t :
  String.length day = 10%nat -> parseIsoUtc day = Some t ->
  parseIsoUtc (day ++ "T00:00:00Z") = Some t
  /\ parseIsoUtc (day ++ "T23:59:59Z") = Some (t + 86399000).
Proof.
  intros Hlen H.
  do 10 (destruct day as [|? day]; [discriminate|]).
  destruct day; [|discriminate]. clear Hlen.
  unfold parseIsoUtc, readDate, readTime, expect in *.
  cbn -[utcMillis Z.mul Z.add digitValue Ascii.eqb isDigit] in *.
  repeat match type of H with
  | context [if isDigit ?c then _ else _] =>
      destruct (isDigit c) eqn:?;
      cbn -[utcMillis Z.mul Z.add digitValue Ascii.eqb isDigit] in *;
      [|try discriminate H]
  | context [if Ascii.eqb ?c ?c' then _ else _] =>
      destruct (Ascii.eqb c c') eqn:?;
      cbn -[utcMillis Z.mul Z.add digitValue Ascii.eqb isDigit] in *;
      try discriminate H
  end.
  - change (Ascii.eqb "T" "T") with true. cbv iota.
    change (isDigit "0") with true. change (isDigit "2") with true.
    change (isDigit "3") with true. change (isDigit "5") with true.
    change (isDigit "9") with true.
    cbn -[utcMillis Z.mul Z.add digitValue].
    change ((0 * 10 + digitValue "0") * 10 + digitValue "0") with 0.
    change ((0 * 10 + digitValue "2") * 10 + digitValue "3") with 23.
    change ((0 * 10 + digitValue "5") * 10 + digitValue "9") with 59.
    split; [exact H|]. now apply utcMillis_end_of_day.
  - discriminate H.
Qed.

Section DayBounds.
Variable h : Host.

(** The bounds [applyFilters] prepares from such a day. *)
Lemma day_bounds_of_criteria day t :
  String.length day = 10%nat -> parseIsoUtc day = Some t ->
  Filters.dateBound (Filters.normaliseDateStart h) (VStr day) = Some t
  /\ Filters.dateBound (Filters.normaliseDateEnd h) (VStr day) = Some (t + 86399000).
Proof.
  intros Hlen Hday. destruct (named_day_bounds day t Hlen Hday) as [Hs He].
  unfold Filters.dateBound, Filters.normaliseDateStart, Filters.normaliseDateEnd, Date_parse.
  cbn [ToString truthy]. rewrite Hs, He.
  destruct day; [discriminate|]. split; reflexivity.
Qed.

End DayBounds.

(** The boundary example of the specification: a notice published at noon
    on 2024-06-15 is kept for the range of that single day and dropped
    when the range starts the day after. *)
Lemma date_range_same_day (h : Host) :
  Filters.applyFilters h [noticeJune15]
    (criteriaOf [] (VStr "2024-06-15") (VStr "2024-06-15") VUndefined VUndefined)
  = Ret [noticeJune15]
  /\ Filters.applyFilters h [noticeJune15]
       (criteriaOf [] (VStr "2024-06-16") VUndefined VUndefined VUndefined)
     = Ret [].
Proof. split; reflexivity. Qed.

(** C6, the failing input.  [dateFrom: "1970-01-01"] is the time value 0,
    which the date block takes for a bound that is not there: a notice
    without any date and a notice published in 1969 are both kept.  With
    [dateFrom: "1970-01-02"] both are dropped. *)
Theorem C6_epoch_start_bound_ignored (h : Host) :
  Filters.dateBound (Filters.normaliseDateStart h) (VStr "1970-01-01") = Some 0
  /\ Filters.candidateDate h undatedNotice = None
  /\ Filters.applyFilters h [undatedNotice; notice1969]
       (criteriaOf [] (VStr "1970-01-01") VUndefined VUndefined VUndefined)
     = Ret [undatedNotice; notice1969]
  /\ Filters.applyFilters h [undatedNotice; notice1969]
       (criteriaOf [] (VStr "1970-01-02") VUndefined VUndefined VUndefined)
     = Ret [].
Proof. repeat split; reflexivity. Qed.

(** C8, counterexample.  With a keyword list that holds one empty keyword, a
    Find a Tender notice that fails the authority match is kept. *)
Lemma C8_counterexample :
  Filters.applyFilters exampleHost [plainTenderNotice]
    (criteriaOf [EmptyString] VUndefined VUndefined VUndefined VUndefined)
  = Ret [plainTenderNotice]
  /\ Filters.isFindATenderSource (Filters.sourceOf exampleHost (get plainTenderNotice "source"))
     = true
  /\ Filters.matchesAuthorityKeywords plainTenderNotice = false.
Proof. repeat split; reflexivity. Qed.

(** C8, as amended.  For plain options and plain notices (their strings
    are ASCII and none of their objects has an own [toString]).  The
    keywords are lowercased and the empty ones are dropped.  When at least
    one keyword is left, a Find a Tender notice passes the keyword block
    exactly when one of them is a substring of the blob of the notice and
    the notice passes the authority match; when none is left the block
    removes nothing.  A Contracts Finder notice passes the block whatever
    the keywords.  Hence a Find a Tender notice in the result of
    [applyFilters], for a list with a non-empty keyword, contains one of
    the non-empty keywords and passes the authority match. *)
Theorem C8_keyword_filter_find_a_tender :
  (* the keywords that count: lowercased, the empty ones dropped *)
  (forall (h : Host) (c : Filters.Criteria) (p : Filters.Prepared),
     plainCriteria c = true ->
     Filters.prepare h c = Ret p ->
     Filters.kw p = filter nonEmpty (map toLowerCase (Filters.keywords c)))
  /\
  (* a Find a Tender notice, at least one keyword that counts *)
  (forall (h : Host) (p : Filters.Prepared) (noticeSource : string) (notice : value),
     forallb asciiText (Filters.kw p) = true ->
     plain notice = true ->
     Filters.isFindATenderSource noticeSource = true ->
     Filters.kw p <> [] ->
     (Filters.keywordFilter h p noticeSource notice = true <->
      (exists token, In token (Filters.kw p)
                     /\ includes (Filters.buildSearchableBlob h notice) token = true)
      /\ Filters.matchesAuthorityKeywords notice = true))
  /\
  (* a Contracts Finder notice, whatever the keywords *)
  (forall (h : Host) (p : Filters.Prepared) (noticeSource : string) (notice : value),
     Filters.isContractsFinderSource noticeSource = true ->
     Filters.keywordFilter h p noticeSource notice = true)
  /\
  (* what a Find a Tender notice in the result of [applyFilters] satisfies *)
  (forall (h : Host) (notices kept : list value) (c : Filters.Criteria)
          (notice source : value),
     plainCriteria c = true ->
     forallb plain notices = true ->
     Filters.applyFilters h notices c = Ret kept ->
     In notice kept ->
     get_strict notice "source" = Ret source ->
     Filters.isFindATenderSource (Filters.sourceOf h source) = true ->
     (exists keyword, In keyword (Filters.keywords c) /\ keyword <> EmptyString) ->
     (exists keyword,
        In keyword (Filters.keywords c) /\ keyword <> EmptyString
        /\ includes (Filters.buildSearchableBlob h notice) (toLowerCase keyword) = true)
     /\ Filters.matchesAuthorityKeywords notice = true).
Proof.
  split; [|split; [|split]].
  - intros h c p _ Hp. now destruct (prepare_fields h c p Hp).
  - intros h p noticeSource notice _ _. apply keywordFilter_iff.
  - intros h p noticeSource notice Hcf.
    apply keywordFilter_other_source. now apply contractsFinder_not_findATender.
  - intros h notices kept c notice source _ _ Hkept Hin Hsrc Hfts [keyword [Hk Hne]].
    destruct (applyFilters_kept h _ _ _ _ Hkept Hin)
      as [p [source' [Hp [_ [Hsrc' [Hkw _]]]]]].
    rewrite Hsrc in Hsrc'. injection Hsrc' as <-.
    destruct (prepare_fields h c p Hp) as [Ekw _].
    assert (Hsome : Filters.kw p <> []).
    { rewrite Ekw. intros Hnil.
      assert (Hin' : In (toLowerCase keyword) (filter nonEmpty (map toLowerCase (Filters.keywords c)))).
      { apply filter_In. split; [now apply in_map|].
        destruct keyword; [contradiction|reflexivity]. }
      rewrite Hnil in Hin'. contradiction. }
    apply (keywordFilter_iff h p _ notice Hfts Hsome) in Hkw.
    destruct Hkw as [[token [Htok Hinc]] Hauth]. split; [|assumption].
    rewrite Ekw in Htok. apply kept_keyword in Htok.
    destruct Htok as [keyword' [Hk' [Hne' ->]]]. eauto.
Qed.

(** C8, witness: the keyword [cloud] and a notice of an NHS trust. *)
Lemma C8_witness :
  Filters.keywordFilter exampleHost cloudPrepared "FTS" nhsTenderNotice = true <->
  (exists token, In token (Filters.kw cloudPrepared)
                 /\ includes (Filters.buildSearchableBlob exampleHost nhsTenderNotice) token
                    = true)
  /\ Filters.matchesAuthorityKeywords nhsTenderNotice = true.
Proof.
  refine (proj1 (proj2 C8_keyword_filter_find_a_tender)
            exampleHost cloudPrepared "FTS" nhsTenderNotice _ _ _ _);
    [reflexivity | reflexivity | reflexivity | discriminate].
Defined.

(** * Further properties *)

(** ** [applyFilters] as a whole *)

Section FilterLaws.
Variable h : Host.

Lemma filterM_is_filter {A} (f : A -> result bool) items kept :
  Filters.filterM f items = Ret kept ->
  kept = filter (fun x => match f x with Ret true => true | _ => false end) items.
Proof.
  revert kept. induction items as [|x rest IH]; cbn [Filters.filterM filter]; intros kept H.
  - now injection H as <-.
  - destruct (f x) as [keep|]; [|discriminate]. cbn [bind] in H.
    destruct (Filters.filterM f rest) as [kept'|]; [|discriminate]. cbn [bind] in H.
    injection H as <-. rewrite (IH kept' eq_refl). now destruct keep.
Qed.

Lemma filterM_all_kept {A} (f : A -> result bool) items :
  (forall x, In x items -> f x = Ret true) -> Filters.filterM f items = Ret items.
Proof.
  induction items as [|x rest IH]; intros H; [reflexivity|].
  cbn [Filters.filterM]. rewrite (H x (or_introl eq_refl)). cbn [bind].
  rewrite IH; [reflexivity|]. intros y Hy. apply H. now right.
Qed.

Lemma filterM_returns {A} (f : A -> result bool) items :
  (exists kept, Filters.filterM f items = Ret kept) <->
  (forall x, In x items -> exists b, f x = Ret b).
Proof.
  induction items as [|x rest IH]; cbn [Filters.filterM].
  - split; [intros _ y []|eauto].
  - split.
    + intros [kept H]. destruct (f x) as [keep|] eqn:E; [|discriminate]. cbn [bind] in H.
      destruct (Filters.filterM f rest) as [kept'|] eqn:E'; [|discriminate].
      intros y [<-|Hy]; [eauto|]. apply IH; eauto.
    + intros H. destruct (H x (or_introl eq_refl)) as [b ->]. cbn [bind].
      destruct (proj2 IH) as [kept' ->]; [intros y Hy; apply H; now right|].
      cbn [bind]. eauto.
Qed.

Lemma filterM_ext {A} (f g : A -> result bool) items :
  (forall x, In x items -> f x = g x) -> Filters.filterM f items = Filters.filterM g items.
Proof.
  induction items as [|x rest IH]; intros H; [reflexivity|].
  cbn [Filters.filterM]. rewrite (H x (or_introl eq_refl)).
  rewrite IH; [reflexivity|]. intros y Hy. apply H. now right.
Qed.

Lemma mapM_strings_total (items : list string) :
  exists tokens,
    Filters.mapM (fun s => Filters.normaliseProcurementStageToken h (VStr s)) items
    = Ret tokens.
Proof.
  induction items as [|s rest [tokens IH]]; cbn [Filters.mapM]; [eauto|].
  destruct (normaliseProcurementStageToken_total h (VStr s)) as [t ->]. cbn [bind].
  rewrite IH. cbn [bind]. eauto.
Qed.

Lemma prepare_total c : exists p, Filters.prepare h c = Ret p.
Proof.
  unfold Filters.prepare. destruct (mapM_strings_total (Filters.procurementStages c)) as [t ->].
  cbn [bind]. eauto.
Qed.

Lemma stageFilter_total p label : exists b, Filters.stageFilter h p label = Ret b.
Proof.
  unfold Filters.stageFilter. destruct (0 <? length (Filters.stageSet p))%nat; [|eauto].
  destruct (normaliseProcurementStageToken_total h label) as [t ->]. cbn [bind]. eauto.
Qed.

Lemma keepNotice_returns p notice :
  (exists b, Filters.keepNotice h p notice = Ret b) <->
  nullish notice = false
  /\ (Filters.sourceFilter p (noticeSourceOf h notice) = false
      \/ exists label, Filters.deriveProcurementStage h notice = Ret label).
Proof.
  unfold Filters.keepNotice, get_strict, noticeSourceOf.
  destruct (nullish notice); cbn [bind].
  - split; [intros [b H]; discriminate|intros [H _]; discriminate].
  - destruct (Filters.sourceFilter p _); cbn [negb].
    + destruct (Filters.deriveProcurementStage h notice) as [label|e]; cbn [bind].
      * destruct (stageFilter_total p label) as [b ->]. cbn [bind].
        split; eauto.
      * split; [intros [b H]; discriminate|].
        intros [_ [H|[label H]]]; discriminate.
    + split; eauto.
Qed.

End FilterLaws.

(** X1.  [applyFilters] only removes notices: its result is the input with
    the notices the callback rejects left out, in the order of the input
    and each as often as it was there; it is never longer than the
    input. *)
Theorem applyFilters_only_removes (h : Host) (notices kept : list value)
    (c : Filters.Criteria) :
  Filters.applyFilters h notices c = Ret kept ->
  exists p, Filters.prepare h c = Ret p
            /\ kept = filter (keeps h p) notices
            /\ (length kept <= length notices)%nat.
Proof.
  unfold Filters.applyFilters. intros H.
  destruct (Filters.prepare h c) as [p|]; [|discriminate]. cbn [bind] in H.
  exists p. split; [reflexivity|].
  apply filterM_is_filter in H. subst kept. split; [reflexivity|apply filter_length_le].
Qed.

(** X1, witness: a notice with [valueLow = 1000] and the range [2000..3000]:
    nothing is kept. *)
Lemma applyFilters_only_removes_witness :
  exists p, Filters.prepare exampleHost
              (criteriaOf [] VUndefined VUndefined (number_of 2000) (number_of 3000))
            = Ret p
            /\ [] = filter (keeps exampleHost p) [lowValueNotice]
            /\ (length (@nil value) <= length [lowValueNotice])%nat.
Proof.
  exact (applyFilters_only_removes exampleHost [lowValueNotice] []
           (criteriaOf [] VUndefined VUndefined (number_of 2000) (number_of 3000))
           eq_refl).
Defined.

(** X2.  Filtering is idempotent: filtering the result of [applyFilters]
    again with the same options returns it unchanged, and throws
    nothing. *)
Theorem applyFilters_idempotent (h : Host) (notices kept : list value)
    (c : Filters.Criteria) :
  Filters.applyFilters h notices c = Ret kept ->
  Filters.applyFilters h kept c = Ret kept.
Proof.
  unfold Filters.applyFilters. intros H.
  destruct (Filters.prepare h c) as [p|]; [|discriminate]. cbn [bind] in *.
  apply filterM_all_kept. intros x Hx.
  now destruct (filterM_kept _ _ _ _ H Hx).
Qed.

(** X2, witness: the keyword [Cloud] on two Find a Tender notices, one of an
    NHS trust. *)
Lemma applyFilters_idempotent_witness :
  Filters.applyFilters exampleHost [nhsTenderNotice]
    (criteriaOf ["Cloud"] VUndefined VUndefined VUndefined VUndefined)
  = Ret [nhsTenderNotice].
Proof.
  exact (applyFilters_idempotent exampleHost [plainTenderNotice; nhsTenderNotice]
           [nhsTenderNotice]
           (criteriaOf ["Cloud"] VUndefined VUndefined VUndefined VUndefined) eq_refl).
Defined.

(** X3.  For plain options and plain notices (their strings are ASCII and
    none of their objects has an own [toString]): preparing the options
    throws nothing, and [applyFilters] returns exactly when no notice is
    [null] or [undefined] and, for every notice the source block does not
    reject, [deriveProcurementStage] returns; otherwise it throws. *)
Theorem applyFilters_returns_iff (h : Host) (notices : list value) (c : Filters.Criteria) :
  plainCriteria c = true ->
  forallb plain notices = true ->
  exists p,
    Filters.prepare h c = Ret p
    /\ ((exists kept, Filters.applyFilters h notices c = Ret kept) <->
        forall notice, In notice notices ->
          nullish notice = false
          /\ (Filters.sourceFilter p (noticeSourceOf h notice) = false
              \/ exists label, Filters.deriveProcurementStage h notice = Ret label)).
Proof.
  intros _ _.
  destruct (prepare_total h c) as [p Hp]. exists p. split; [assumption|].
  unfold Filters.applyFilters. rewrite Hp. cbn [bind].
  rewrite filterM_returns. split; intros H notice Hin.
  - apply keepNotice_returns. auto.
  - apply keepNotice_returns. auto.
Qed.

(** X3, witness: the keyword [Cloud] and a Find a Tender notice. *)
Lemma applyFilters_returns_iff_witness :
  exists p,
    Filters.prepare exampleHost
      (criteriaOf ["Cloud"] VUndefined VUndefined VUndefined VUndefined) = Ret p
    /\ ((exists kept,
           Filters.applyFilters exampleHost [plainTenderNotice]
             (criteriaOf ["Cloud"] VUndefined VUndefined VUndefined VUndefined) = Ret kept) <->
        forall notice, In notice [plainTenderNotice] ->
          nullish notice = false
          /\ (Filters.sourceFilter p (noticeSourceOf exampleHost notice) = false
              \/ exists label,
                   Filters.deriveProcurementStage exampleHost notice = Ret label)).
Proof.
  exact (applyFilters_returns_iff exampleHost [plainTenderNotice]
           (criteriaOf ["Cloud"] VUndefined VUndefined VUndefined VUndefined)
           eq_refl eq_refl).
Defined.

(** ** The blocks of the filter *)

Lemma toUpperCase_empty s : toUpperCase s = EmptyString <-> s = EmptyString.
Proof. destruct s; cbn; split; intros H; try reflexivity; discriminate. Qed.

Lemma toLowerCase_empty s : toLowerCase s = EmptyString <-> s = EmptyString.
Proof. destruct s; cbn; split; intros H; try reflexivity; discriminate. Qed.

Lemma nonEmpty_true s : nonEmpty s = true <-> s <> EmptyString.
Proof. destruct s; cbn; split; intros H; congruence. Qed.

Lemma hasString_In set x : Filters.hasString set x = true <-> In x set.
Proof.
  unfold Filters.hasString. rewrite existsb_exists. split.
  - intros [y [Hy E]]. apply String.eqb_eq in E. now subst.
  - intros H. exists x. split; [assumption|apply String.eqb_refl].
Qed.

Lemma sourceOf_VStr (h : Host) s : Filters.sourceOf h (VStr s) = toUpperCase s.
Proof. destruct s; reflexivity. Qed.

Lemma expandSource_In value x :
  In x (Filters.expandSource value) <->
  value <> EmptyString
  /\ (value = x \/ (In value ["FTS"; "TD"] /\ In x ["FTS"; "TD"])).
Proof.
  unfold Filters.expandSource.
  destruct (nonEmpty value) eqn:En; cbn [negb].
  2:{ apply nonEmpty_false in En. subst. split; [intros []|intros [H _]; congruence]. }
  apply nonEmpty_true in En.
  destruct (String.eqb_spec value "FTS") as [->|Hf].
  { cbn. intuition congruence. }
  destruct (String.eqb_spec value "TD") as [->|Ht].
  { cbn. intuition congruence. }
  cbn. intuition congruence.
Qed.

(** X4.  The source block, for requested sources of ASCII characters and
    a notice source of ASCII characters.  The requested sources are
    upper-cased and the empty ones dropped; [FTS] and [TD] each stand for
    both.  When nothing
    is left, every notice passes; otherwise a notice passes exactly when
    its upper-cased source is, letter for letter, one of them.  So a notice
    whose source reads [Find a Tender] or [Contracts Finder], which the
    other blocks take for a notice of that portal, is dropped when [FTS] or
    [CF] is requested. *)
Theorem source_block (h : Host) (c : Filters.Criteria) (p : Filters.Prepared)
    (noticeSource : string) :
  plainCriteria c = true ->
  asciiText noticeSource = true ->
  Filters.prepare h c = Ret p ->
  (Filters.sourceFilter p noticeSource = true <->
   (forall s, In s (Filters.sources c) -> s = EmptyString)
   \/ exists s, In s (Filters.sources c) /\ s <> EmptyString
                /\ (toUpperCase s = noticeSource
                    \/ (In (toUpperCase s) ["FTS"; "TD"] /\ In noticeSource ["FTS"; "TD"]))).
Proof.
  intros _ _ Hp.
  assert (Hset : Filters.sourceSet p
                 = flat_map Filters.expandSource
                     (map (fun s => Filters.sourceOf h (VStr s)) (Filters.sources c))).
  { revert Hp. unfold Filters.prepare.
    destruct (Filters.mapM _ _); [|discriminate]. cbn [bind]. now intros [= <-]. }
  assert (Hin : forall x, In x (Filters.sourceSet p) <->
                exists s, In s (Filters.sources c) /\ s <> EmptyString
                          /\ (toUpperCase s = x
                              \/ (In (toUpperCase s) ["FTS"; "TD"] /\ In x ["FTS"; "TD"]))).
  { intros x. rewrite Hset, in_flat_map. split.
    - intros [u [Hu Hx]]. apply in_map_iff in Hu. destruct Hu as [s [<- Hs]].
      rewrite sourceOf_VStr in Hx. apply expandSource_In in Hx.
      destruct Hx as [Hne Hx]. exists s. split; [assumption|]. split; [|assumption].
      intros ->. now apply Hne.
    - intros [s [Hs [Hne Hx]]]. exists (toUpperCase s). split.
      + apply in_map_iff. exists s. split; [apply sourceOf_VStr|assumption].
      + apply expandSource_In. split; [|assumption].
        intros E. apply Hne. now apply (proj1 (toUpperCase_empty s)). }
  unfold Filters.sourceFilter. rewrite negb_true_iff, andb_false_iff, negb_false_iff.
  rewrite hasString_In, Hin. split.
  - intros [Hlen|H]; [left|now right].
    intros s Hs. destruct s as [|a s']; [reflexivity|exfalso].
    destruct (Filters.sourceSet p) as [|y ys] eqn:Ey; [|discriminate].
    apply (proj2 (Hin (toUpperCase (String a s')))).
    exists (String a s'). split; [assumption|]. split; [discriminate|now left].
  - intros [Hall|H]; [left|now right].
    destruct (Filters.sourceSet p) as [|y ys] eqn:Ey; [reflexivity|exfalso].
    destruct (proj1 (Hin y) (or_introl eq_refl)) as [s [Hs [Hne _]]].
    apply Hne. now apply Hall.
Qed.

(** X4, witness: the request [fts] and a notice whose source reads [FIND A
    TENDER]. *)
Lemma source_block_witness :
  Filters.sourceFilter
    {| Filters.kw := []; Filters.typeSet := []; Filters.statusSet := [];
       Filters.stageSet := []; Filters.minValue := None; Filters.maxValue := None;
       Filters.fromTime := None; Filters.toTime := None;
       Filters.sourceSet := ["FTS"; "TD"] |} "FIND A TENDER" = true <->
  (forall s, In s ["fts"] -> s = EmptyString)
  \/ exists s, In s ["fts"] /\ s <> EmptyString
               /\ (toUpperCase s = "FIND A TENDER"
                   \/ (In (toUpperCase s) ["FTS"; "TD"] /\ In "FIND A TENDER" ["FTS"; "TD"])).
Proof.
  exact (source_block exampleHost
           {| Filters.keywords := []; Filters.types := []; Filters.statuses := [];
              Filters.procurementStages := [];
              Filters.dateFrom := VUndefined; Filters.dateTo := VUndefined;
              Filters.valueFrom := VUndefined; Filters.valueTo := VUndefined;
              Filters.sources := ["fts"] |} _ "FIND A TENDER" eq_refl eq_refl eq_refl).
Defined.

Section Blocks.
Variable h : Host.

Lemma mapM_In {A B} (f : A -> result B) items ys y :
  Filters.mapM f items = Ret ys -> In y ys -> exists x, In x items /\ f x = Ret y.
Proof.
  revert ys. induction items as [|x rest IH]; cbn [Filters.mapM]; intros ys H Hy.
  - injection H as <-. contradiction.
  - destruct (f x) as [y0|] eqn:E; [|discriminate]. cbn [bind] in H.
    destruct (Filters.mapM f rest) as [ys'|]; [|discriminate]. cbn [bind] in H.
    injection H as <-. destruct Hy as [<-|Hy].
    + exists x. split; [now left|assumption].
    + destruct (IH ys' eq_refl Hy) as [x' [Hx' Hf]]. exists x'. split; [now right|assumption].
Qed.

(** What [prepare] returns, field by field. *)
Lemma prepare_record c p :
  Filters.prepare h c = Ret p ->
  exists tokens,
    Filters.mapM (fun s => Filters.normaliseProcurementStageToken h (VStr s))
      (Filters.procurementStages c) = Ret tokens
    /\ p = {| Filters.kw := filter nonEmpty (map toLowerCase (Filters.keywords c));
              Filters.typeSet :=
                filter truthy
                  (map (fun s => Filters.normaliseContractsFinderType h (VStr s))
                     (Filters.types c));
              Filters.statusSet := filter nonEmpty (map toLowerCase (Filters.statuses c));
              Filters.stageSet := filter nonEmpty tokens;
              Filters.minValue := Filters.valueBound h (Filters.valueFrom c);
              Filters.maxValue := Filters.valueBound h (Filters.valueTo c);
              Filters.fromTime :=
                Filters.dateBound (Filters.normaliseDateStart h) (Filters.dateFrom c);
              Filters.toTime :=
                Filters.dateBound (Filters.normaliseDateEnd h) (Filters.dateTo c);
              Filters.sourceSet :=
                flat_map Filters.expandSource
                  (map (fun s => Filters.sourceOf h (VStr s)) (Filters.sources c)) |}.
Proof.
  unfold Filters.prepare.
  destruct (Filters.mapM _ _) as [tokens|]; [|discriminate]. cbn [bind].
  intros [= <-]. now exists tokens.
Qed.

(** A notice the callback keeps has passed every block. *)
Lemma keepNotice_blocks p notice :
  Filters.keepNotice h p notice = Ret true ->
  exists label,
    Filters.sourceFilter p (noticeSourceOf h notice) = true
    /\ Filters.deriveProcurementStage h notice = Ret label
    /\ Filters.stageFilter h p label = Ret true
    /\ Filters.typeFilter h p (noticeSourceOf h notice) notice = true
    /\ Filters.statusFilter h p (noticeSourceOf h notice) notice = true.
Proof.
  unfold Filters.keepNotice, get_strict, noticeSourceOf.
  destruct (nullish notice); [discriminate|]. cbn [bind].
  destruct (Filters.sourceFilter p _); [|discriminate]. cbn [negb].
  destruct (Filters.deriveProcurementStage h notice) as [label|]; [|discriminate].
  cbn [bind]. destruct (Filters.stageFilter h p label) as [ok|] eqn:Estage; [|discriminate].
  cbn [bind]. intros [= H]. rewrite !andb_true_iff in H.
  destruct H as [[[[[Hok Hty] Hst] _] _] _]. subst ok.
  exists label. repeat split; assumption.
Qed.

Lemma stageFilter_unstaged p : Filters.stageFilter h p (VStr EmptyString) = Ret true.
Proof.
  unfold Filters.stageFilter. destruct (0 <? length (Filters.stageSet p))%nat; reflexivity.
Qed.

End Blocks.

(** X5.  The status block, for a Contracts Finder notice.  The requested
    statuses are only lower-cased, while the status of the notice is
    normalised to letters and digits.  When a non-empty status is requested
    the notice passes exactly when its normalised status is not empty and
    is the lower-cased form of a requested one; a requested status with a
    space, a hyphen or any other character outside [a-z0-9] after
    lower-casing therefore matches no notice. *)
Theorem status_block (h : Host) (c : Filters.Criteria) (p : Filters.Prepared)
    (noticeSource : string) (notice : value) :
  Filters.prepare h c = Ret p ->
  Filters.isContractsFinderSource noticeSource = true ->
  (Filters.statusFilter h p noticeSource notice = true <->
   (forall s, In s (Filters.statuses c) -> s = EmptyString)
   \/ (Filters.statusTokenOf h notice <> EmptyString
       /\ exists s, In s (Filters.statuses c)
                    /\ toLowerCase s = Filters.statusTokenOf h notice
                    /\ everyChar Filters.isTokenChar (toLowerCase s) = true)).
Proof.
  intros Hp Hcf. destruct (prepare_record h c p Hp) as [tokens [_ ->]].
  unfold Filters.statusFilter. cbn [Filters.statusSet]. rewrite Hcf, andb_true_r.
  set (set := filter nonEmpty (map toLowerCase (Filters.statuses c))).
  assert (Hin : forall x, In x set <->
                          x <> EmptyString /\ exists s, In s (Filters.statuses c)
                                                        /\ toLowerCase s = x).
  { intros x. subst set. rewrite filter_In, in_map_iff, nonEmpty_true.
    split; [intros [[s [E Hs]] Hne]|intros [Hne [s [Hs E]]]]; eauto. }
  destruct (0 <? length set)%nat eqn:Elen.
  - rewrite negb_true_iff, orb_false_iff, !negb_false_iff, nonEmpty_true, hasString_In, Hin.
    split.
    + intros [Hne [_ [s [Hs E]]]]. right. split; [assumption|].
      exists s. split; [assumption|]. split; [assumption|].
      rewrite E. apply normaliseToken_every.
    + intros [Hall|[Hne [s [Hs [E _]]]]].
      * exfalso. destruct set as [|x xs] eqn:Eset; [discriminate|].
        destruct (proj1 (Hin x) (or_introl eq_refl)) as [Hx [s [Hs E]]].
        apply Hx. rewrite <- E. rewrite (Hall s Hs). reflexivity.
      * split; [assumption|]. split; [assumption|]. eauto.
  - split; [intros _|reflexivity]. left. intros s Hs.
    destruct s as [|a s']; [reflexivity|exfalso].
    destruct set as [|x xs] eqn:Eset; [|discriminate].
    apply (proj2 (Hin (toLowerCase (String a s')))).
    split; [discriminate|eauto].
Qed.

(** X5, witness: the request [In Progress] and a Contracts Finder notice with
    that status. *)
Lemma status_block_witness :
  Filters.statusFilter exampleHost
    {| Filters.kw := []; Filters.typeSet := []; Filters.statusSet := ["in progress"];
       Filters.stageSet := []; Filters.minValue := None; Filters.maxValue := None;
       Filters.fromTime := None; Filters.toTime := None; Filters.sourceSet := [] |}
    "CF" (VObj [("source", VStr "CF"); ("noticeStatus", VStr "In Progress")]) = true <->
  (forall s, In s ["In Progress"] -> s = EmptyString)
  \/ (Filters.statusTokenOf exampleHost
        (VObj [("source", VStr "CF"); ("noticeStatus", VStr "In Progress")]) <> EmptyString
      /\ exists s, In s ["In Progress"]
                   /\ toLowerCase s
                      = Filters.statusTokenOf exampleHost
                          (VObj [("source", VStr "CF"); ("noticeStatus", VStr "In Progress")])
                   /\ everyChar Filters.isTokenChar (toLowerCase s) = true).
Proof.
  exact (status_block exampleHost
           {| Filters.keywords := []; Filters.types := []; Filters.statuses := ["In Progress"];
              Filters.procurementStages := [];
              Filters.dateFrom := VUndefined; Filters.dateTo := VUndefined;
              Filters.valueFrom := VUndefined; Filters.valueTo := VUndefined;
              Filters.sources := [] |} _ "CF"
           (VObj [("source", VStr "CF"); ("noticeStatus", VStr "In Progress")])
           eq_refl eq_refl).
Defined.

(** X6.  The type block, for a Contracts Finder notice.  The requested
    types and the type of the notice are normalised the same way, aliases
    included: [Opportunity] is [contract], [FutureOpportunity] is
    [pipeline], [EarlyEngagement] is [preprocurement].  When a requested
    type normalises to something, the notice passes exactly when its type
    normalises to something that is the normal form of a requested type;
    so a request for [Opportunity] keeps the notices of type [Contract]. *)
Theorem type_block (h : Host) (c : Filters.Criteria) (p : Filters.Prepared)
    (noticeSource : string) (notice : value) :
  Filters.prepare h c = Ret p ->
  Filters.isContractsFinderSource noticeSource = true ->
  (Filters.typeFilter h p noticeSource notice = true <->
   (forall t, In t (Filters.types c) ->
      truthy (Filters.normaliseContractsFinderType h (VStr t)) = false)
   \/ (truthy (Filters.typeTokenOf h notice) = true
       /\ exists t, In t (Filters.types c)
                    /\ strict_eq (Filters.typeTokenOf h notice)
                         (Filters.normaliseContractsFinderType h (VStr t)) = true))
  /\ Filters.normaliseContractsFinderType h (VStr "Opportunity")
     = Filters.normaliseContractsFinderType h (VStr "Contract")
  /\ Filters.normaliseContractsFinderType h (VStr "FutureOpportunity")
     = Filters.normaliseContractsFinderType h (VStr "Pipeline")
  /\ Filters.normaliseContractsFinderType h (VStr "EarlyEngagement")
     = Filters.normaliseContractsFinderType h (VStr "PreProcurement").
Proof.
  intros Hp Hcf. split; [|repeat split; reflexivity].
  destruct (prepare_record h c p Hp) as [tokens [_ ->]].
  unfold Filters.typeFilter. cbn [Filters.typeSet]. rewrite Hcf, andb_true_r.
  set (set := filter truthy _).
  assert (Hin : forall x, In x set <->
                          truthy x = true
                          /\ exists t, In t (Filters.types c)
                                       /\ Filters.normaliseContractsFinderType h (VStr t) = x).
  { intros x. subst set. rewrite filter_In, in_map_iff.
    split; [intros [[t [E Ht]] Hx]|intros [Hx [t [Ht E]]]]; eauto. }
  destruct (0 <? length set)%nat eqn:Elen.
  - rewrite negb_true_iff, orb_false_iff, !negb_false_iff, existsb_exists. split.
    + intros [Ht [x [Hx Heq]]]. right. split; [assumption|].
      apply Hin in Hx. destruct Hx as [_ [t [Hin' <-]]]. eauto.
    + intros [Hall|[Ht [t [Hin' Heq]]]].
      * exfalso. destruct set as [|x xs] eqn:Eset; [discriminate|].
        destruct (proj1 (Hin x) (or_introl eq_refl)) as [Hx [t [Hin' E]]].
        rewrite <- E, (Hall t Hin') in Hx. discriminate.
      * split; [assumption|]. eexists. split; [|exact Heq].
        apply Hin. split; [|eauto].
        destruct (Filters.typeTokenOf h notice) as [| |b|n|s|items|fields|name];
          destruct (Filters.normaliseContractsFinderType h (VStr t))
            as [| |b'|n'|s'|items'|fields'|name']; try discriminate Heq; try discriminate Ht;
          try reflexivity.
        -- cbn [strict_eq] in Heq. apply Bool.eqb_prop in Heq. now subst.
        -- cbn [strict_eq truthy] in *. destruct n, n'; try discriminate Heq; try reflexivity.
           cbn [num_eqb isNaN num_is_zero orb negb] in *.
           apply Qeq_bool_iff in Heq. apply negb_true_iff in Ht. apply negb_true_iff.
           apply not_true_is_false. intros Hz. apply Qeq_bool_iff in Hz.
           assert (Hq : Qeq_bool q 0 = true) by (apply Qeq_bool_iff; now rewrite Heq).
           congruence.
        -- cbn [strict_eq] in Heq. apply String.eqb_eq in Heq. now subst.
  - split; [intros _|reflexivity]. left. intros t Ht.
    destruct (truthy (Filters.normaliseContractsFinderType h (VStr t))) eqn:E; [|reflexivity].
    exfalso. destruct set as [|x xs] eqn:Eset; [|discriminate].
    apply (proj2 (Hin (Filters.normaliseContractsFinderType h (VStr t)))). eauto.
Qed.

(** X6, witness: the request [Opportunity] and a Contracts Finder notice of
    type [Contract]. *)
Lemma type_block_witness :
  Filters.typeFilter exampleHost
    {| Filters.kw := []; Filters.typeSet := [VStr "contract"]; Filters.statusSet := [];
       Filters.stageSet := []; Filters.minValue := None; Filters.maxValue := None;
       Filters.fromTime := None; Filters.toTime := None; Filters.sourceSet := [] |}
    "CF" (VObj bareContractNotice) = true <->
  (forall t, In t ["Opportunity"] ->
     truthy (Filters.normaliseContractsFinderType exampleHost (VStr t)) = false)
  \/ (truthy (Filters.typeTokenOf exampleHost (VObj bareContractNotice)) = true
      /\ exists t, In t ["Opportunity"]
                   /\ strict_eq (Filters.typeTokenOf exampleHost (VObj bareContractNotice))
                        (Filters.normaliseContractsFinderType exampleHost (VStr t)) = true).
Proof.
  exact (proj1 (type_block exampleHost
           {| Filters.keywords := []; Filters.types := ["Opportunity"];
              Filters.statuses := []; Filters.procurementStages := [];
              Filters.dateFrom := VUndefined; Filters.dateTo := VUndefined;
              Filters.valueFrom := VUndefined; Filters.valueTo := VUndefined;
              Filters.sources := [] |} _ "CF" (VObj bareContractNotice) eq_refl eq_refl)).
Defined.

(** X7.  The types and the statuses of the options bear on Contracts Finder
    notices only: on notices of any other source [applyFilters] returns
    (or throws) the same with them as without. *)
Theorem types_and_statuses_bear_on_contracts_finder_only (h : Host)
    (notices : list value) (c : Filters.Criteria) :
  (forall notice, In notice notices ->
     Filters.isContractsFinderSource (noticeSourceOf h notice) = false) ->
  Filters.applyFilters h notices c
  = Filters.applyFilters h notices (withoutTypesAndStatuses c).
Proof.
  intros Hsrc. unfold Filters.applyFilters.
  destruct (prepare_total h c) as [p Hp].
  destruct (prepare_total h (withoutTypesAndStatuses c)) as [p' Hp'].
  rewrite Hp, Hp'. cbn [bind].
  destruct (prepare_record h _ _ Hp) as [tokens [Ht ->]].
  destruct (prepare_record h _ _ Hp') as [tokens' [Ht' ->]].
  cbn [withoutTypesAndStatuses Filters.procurementStages] in Ht'.
  rewrite Ht in Ht'. injection Ht' as <-.
  apply filterM_ext. intros notice Hin. specialize (Hsrc notice Hin).
  unfold noticeSourceOf in Hsrc.
  unfold Filters.keepNotice, get_strict.
  destruct (nullish notice); [reflexivity|]. cbn [bind].
  unfold Filters.sourceFilter, Filters.stageFilter, Filters.typeFilter,
    Filters.statusFilter, Filters.keywordFilter, Filters.dateFilter, Filters.valueFilter,
    Filters.withinRange.
  cbn [withoutTypesAndStatuses Filters.keywords Filters.types Filters.statuses
       Filters.dateFrom Filters.dateTo Filters.valueFrom Filters.valueTo Filters.sources
       Filters.kw Filters.typeSet Filters.statusSet Filters.stageSet Filters.minValue
       Filters.maxValue Filters.fromTime Filters.toTime Filters.sourceSet map filter length].
  rewrite Hsrc, !andb_false_r. reflexivity.
Qed.

(** X7, witness: a Find a Tender notice, the type [Pipeline] and the status
    [Open] requested. *)
Lemma types_and_statuses_bear_on_contracts_finder_only_witness :
  Filters.applyFilters exampleHost [nhsTenderNotice]
    {| Filters.keywords := []; Filters.types := ["Pipeline"]; Filters.statuses := ["Open"];
       Filters.procurementStages := [];
       Filters.dateFrom := VUndefined; Filters.dateTo := VUndefined;
       Filters.valueFrom := VUndefined; Filters.valueTo := VUndefined;
       Filters.sources := [] |}
  = Filters.applyFilters exampleHost [nhsTenderNotice]
      (withoutTypesAndStatuses
         {| Filters.keywords := []; Filters.types := ["Pipeline"];
            Filters.statuses := ["Open"]; Filters.procurementStages := [];
            Filters.dateFrom := VUndefined; Filters.dateTo := VUndefined;
            Filters.valueFrom := VUndefined; Filters.valueTo := VUndefined;
            Filters.sources := [] |}).
Proof.
  refine (types_and_statuses_bear_on_contracts_finder_only exampleHost [nhsTenderNotice] _ _).
  intros notice [<-|[]]. reflexivity.
Defined.

(** ** Stages *)

(** X8.  The stage criterion never removes a notice without a derived
    stage: on notices for which [deriveProcurementStage] returns the empty
    string, [applyFilters] returns the same whatever stages are
    requested. *)
Theorem unstaged_notices_pass_stage_criterion (h : Host) (notices : list value)
    (c : Filters.Criteria) (stages : list string) :
  (forall notice, In notice notices ->
     Filters.deriveProcurementStage h notice = Ret (VStr EmptyString)) ->
  Filters.applyFilters h notices (withStages c stages) = Filters.applyFilters h notices c.
Proof.
  intros Hd. unfold Filters.applyFilters.
  destruct (prepare_total h c) as [p Hp].
  destruct (prepare_total h (withStages c stages)) as [p' Hp'].
  rewrite Hp, Hp'. cbn [bind].
  destruct (prepare_record h _ _ Hp) as [tokens [_ ->]].
  destruct (prepare_record h _ _ Hp') as [tokens' [_ ->]].
  apply filterM_ext. intros notice Hin.
  unfold Filters.keepNotice. rewrite (Hd notice Hin).
  destruct (get_strict notice "source") as [source|]; [|reflexivity]. cbn [bind].
  rewrite !stageFilter_unstaged. reflexivity.
Qed.

(** X8, witness: a notice with a title only, the stage [Award] requested. *)
Lemma unstaged_notices_pass_stage_criterion_witness :
  Filters.applyFilters exampleHost [undatedNotice]
    (withStages (criteriaOf [] VUndefined VUndefined VUndefined VUndefined) ["Award"])
  = Filters.applyFilters exampleHost [undatedNotice]
      (criteriaOf [] VUndefined VUndefined VUndefined VUndefined).
Proof.
  refine (unstaged_notices_pass_stage_criterion exampleHost [undatedNotice] _ ["Award"] _).
  intros notice [<-|[]]. reflexivity.
Defined.

(** X9.  A notice with a stage label that [applyFilters] keeps, when a
    stage is requested that normalises to a token, has a requested stage:
    one of the requested stages normalises to the token of its label. *)
Theorem kept_stage_was_requested (h : Host) (notices kept : list value)
    (c : Filters.Criteria) (notice : value) (label : string) :
  Filters.applyFilters h notices c = Ret kept ->
  In notice kept ->
  Filters.deriveProcurementStage h notice = Ret (VStr label) ->
  In label stageLabels ->
  (exists s token, In s (Filters.procurementStages c)
                   /\ Filters.normaliseProcurementStageToken h (VStr s) = Ret token
                   /\ token <> EmptyString) ->
  exists s token, In s (Filters.procurementStages c)
                  /\ Filters.normaliseProcurementStageToken h (VStr s) = Ret token
                  /\ table_get Filters.STAGE_LABELS token = VStr label.
Proof.
  intros Hkept Hin Hd Hlabel [s0 [t0 [Hs0 [Ht0 Hne0]]]].
  unfold Filters.applyFilters in Hkept.
  destruct (Filters.prepare h c) as [p|] eqn:Hp; [|discriminate]. cbn [bind] in Hkept.
  destruct (filterM_kept _ _ _ _ Hkept Hin) as [_ Hk].
  destruct (keepNotice_blocks h p notice Hk) as [label' [_ [Hd' [Hstage _]]]].
  rewrite Hd in Hd'. injection Hd' as <-.
  destruct (prepare_record h c p Hp) as [tokens [Htokens ->]].
  unfold Filters.stageFilter in Hstage. cbn [Filters.stageSet] in Hstage.
  destruct (label_is_explicit h label Hlabel) as [t [Ht [Hne [Hget _]]]].
  assert (Hsome : In t0 (filter nonEmpty tokens)).
  { apply filter_In. split; [|now apply nonEmpty_true].
    clear -Htokens Hs0 Ht0. revert tokens Htokens.
    induction (Filters.procurementStages c) as [|s rest IH]; [contradiction|].
    cbn [Filters.mapM]. intros tokens H.
    destruct (Filters.normaliseProcurementStageToken h (VStr s)) as [y|] eqn:E; [|discriminate].
    cbn [bind] in H. destruct (Filters.mapM _ rest) as [ys|]; [|discriminate].
    cbn [bind] in H. injection H as <-. destruct Hs0 as [->|Hs0].
    - left. congruence.
    - right. now apply IH. }
  assert (Hlen : (0 <? length (filter nonEmpty tokens))%nat = true).
  { destruct (filter nonEmpty tokens); [contradiction|reflexivity]. }
  rewrite Hlen, Ht in Hstage. cbn [bind] in Hstage.
  rewrite Hne in Hstage. rewrite andb_true_l in Hstage.
  injection Hstage as Hhas. rewrite negb_true_iff, negb_false_iff in Hhas.
  apply hasString_In in Hhas. apply filter_In in Hhas.
  destruct Hhas as [Hhas _].
  destruct (mapM_In _ _ _ _ Htokens Hhas) as [s [Hs Hf]].
  exists s, t. auto.
Qed.

(** X9, witness: an awarded Contracts Finder notice with a [start] date, the
    stage [contracts] requested. *)
Lemma kept_stage_was_requested_witness :
  exists s token,
    In s ["contracts"]
    /\ Filters.normaliseProcurementStageToken exampleHost (VStr s) = Ret token
    /\ table_get Filters.STAGE_LABELS token = VStr "Contract".
Proof.
  refine (kept_stage_was_requested exampleHost [VObj contractsFinderAwarded]
            [VObj contractsFinderAwarded]
            (withStages (criteriaOf [] VUndefined VUndefined VUndefined VUndefined)
               ["contracts"])
            (VObj contractsFinderAwarded) "Contract" eq_refl _ eq_refl _ _).
  - now left.
  - simpl. tauto.
  - exists "contracts", "contract". split; [now left|]. split; [reflexivity|discriminate].
Defined.

Lemma resolveStrings_first_hit before token patterns after values s pattern :
  In s values -> In pattern patterns -> includes s pattern = true ->
  In (resolveStrings (before ++ (token, patterns) :: after) values)
     (map fst before ++ [token]).
Proof.
  intros Hs Hp Hinc. induction before as [|[t ps] rest IH]; cbn [app map fst resolveStrings].
  - assert (E : existsb (fun s => existsb (includes s) patterns) values = true).
    { apply existsb_exists. exists s. split; [assumption|].
      apply existsb_exists. eauto. }
    rewrite E. now left.
  - destruct (existsb _ values); [now left|right; exact IH].
Qed.


Lemma resolved_up_to_award values s :
  In s values -> includes s "award" = true ->
  In (resolveStrings Filters.STAGE_MATCHERS values)
     ["pipeline"; "planning"; "tender"; "award"].
Proof.
  intros Hs Hinc.
  exact (resolveStrings_first_hit
           [ ("pipeline", ["pipeline"; "futureopportunity"]);
             ("planning", ["planning"; "preprocurement"; "priorinformation";
                           "earlyengagement"]);
             ("tender", ["tender"; "contractnotice"; "callforcompetition"; "competition";
                         "corrigendum"; "voluntaryexantetransparencynotice"]) ]
           "award" ["award"; "contractaward"]
           [ ("contract", ["contract"; "implementation"]);
             ("termination", ["termination"; "terminate"; "cancel"; "closed"]) ]
           values s "award" Hs (or_introl eq_refl) Hinc).
Qed.

Section Candidates.
Variable h : Host.

Lemma typeToken_string_candidates notice ty :
  Filters.typeTokenOf h notice = VStr ty ->
  stageCandidatesOf h notice
  = map VStr ((if nonEmpty ty then [ty] else []) ++
              Filters.collectStageCandidates h notice ++
              (if nonEmpty (Filters.statusTokenOf h notice)
               then [Filters.statusTokenOf h notice] else []))%list.
Proof.
  intros E. unfold stageCandidatesOf. rewrite E. cbn [truthy].
  rewrite !map_app. f_equal; [|f_equal]; destruct (nonEmpty _); reflexivity.
Qed.

(** [deriveProcurementStage] on an object, with the candidates named. *)
Lemma derive_unfold fields :
  Filters.deriveProcurementStage h (VObj fields) =
  (explicitToken <- Filters.normaliseProcurementStageToken h
                      (get (VObj fields) "procurementStage") ;;
   if nonEmpty explicitToken then Ret (table_get Filters.STAGE_LABELS explicitToken)
   else
     match (if Filters.isContractsFinderSource (noticeSourceOf h (VObj fields))
            then Filters.contractsFinderRules (VObj fields)
                   (Filters.typeTokenOf h (VObj fields))
                   (Filters.statusTokenOf h (VObj fields))
            else None) with
     | Some label => Ret label
     | None =>
         resolved <- Filters.resolveStageToken (stageCandidatesOf h (VObj fields)) ;;
         if nonEmpty resolved then Ret (table_get Filters.STAGE_LABELS resolved)
         else if Filters.isContractsFinderSource (noticeSourceOf h (VObj fields))
                 && strict_eq (Filters.typeTokenOf h (VObj fields)) (VStr "contract")
         then Ret (table_get Filters.STAGE_LABELS "tender")
         else Ret (VStr EmptyString)
     end).
Proof. reflexivity. Qed.

End Candidates.



Lemma collect_award fields :
  forall h : Host,
  truthy (get (VObj fields) "awardedDate") || truthy (get (VObj fields) "awardedValue") = true ->
  In "award" (Filters.collectStageCandidates h (VObj fields)).
Proof.
  intros h Haward. unfold Filters.collectStageCandidates. rewrite Haward.
  rewrite !in_app_iff. do 9 right. left. now left.
Qed.

(** X11.  A plain notice (its strings are ASCII and none of its objects
    has an own [toString]) from another source than Contracts Finder,
    without an explicit stage, whose [noticeType] does not normalise to the
    token [constructor], and that has an award date or an awarded value, is
    staged [Pipeline], [Planning], [Tender] or [Award]: the inferred
    [award] candidate is matched before [contract] and [termination], so
    the contract dates of such a notice never make it [Contract] or
    [Termination]. *)
Theorem awarded_notice_is_never_contract (h : Host) (fields : list (string * value)) :
  plain (VObj fields) = true ->
  Filters.isContractsFinderSource (noticeSourceOf h (VObj fields)) = false ->
  Filters.normaliseProcurementStageToken h (get (VObj fields) "procurementStage")
    = Ret EmptyString ->
  Filters.normaliseToken h (or_else (get (VObj fields) "noticeType") (VStr EmptyString))
    <> "constructor" ->
  truthy (get (VObj fields) "awardedDate") || truthy (get (VObj fields) "awardedValue")
    = true ->
  exists label, Filters.deriveProcurementStage h (VObj fields) = Ret (VStr label)
                /\ In label ["Pipeline"; "Planning"; "Tender"; "Award"].
Proof.
  intros _ Hsrc Hexp Htype Haward.
  rewrite derive_unfold, Hexp. cbn [bind nonEmpty String.eqb negb].
  rewrite Hsrc.
  destruct (normaliseContractsFinderType_string h _ Htype) as [ty Hty].
  rewrite (typeToken_string_candidates h (VObj fields) ty Hty).
  unfold Filters.resolveStageToken. rewrite resolveWith_strings. cbn [bind].
  match goal with
  | |- context [resolveStrings _ ?values] =>
      assert (Hhit : In (resolveStrings Filters.STAGE_MATCHERS values)
                        ["pipeline"; "planning"; "tender"; "award"])
  end.
  { apply (resolved_up_to_award _ "award"); [|reflexivity].
    rewrite !in_app_iff. right. left. now apply collect_award. }
  destruct Hhit as [E|[E|[E|[E|[]]]]];
    rewrite <- E; cbn [nonEmpty String.eqb Ascii.eqb Bool.eqb negb andb];
    eexists; (split; [reflexivity|]); simpl; tauto.
Qed.

(** X11, witness: a Find a Tender notice of type [Contract] with an award
    date, a start and an end. *)
Lemma awarded_notice_is_never_contract_witness :
  exists label,
    Filters.deriveProcurementStage exampleHost (VObj awardedFtsNotice) = Ret (VStr label)
    /\ In label ["Pipeline"; "Planning"; "Tender"; "Award"].
Proof.
  refine (awarded_notice_is_never_contract exampleHost awardedFtsNotice _ _ _ _ _);
    solve [reflexivity | vm_compute; discriminate].
Defined.

(** ** Tokens *)





(** ** Dates *)

(** X13.  A date range given by two calendar days after 1 January 1970,
    written [YYYY-MM-DD]: a notice passes the date block exactly when it
    has a candidate date from midnight UTC of the first day up to
    23:59:59.000 UTC of the last day, both included; a notice without a
    candidate date, or dated within the last second of the last day after
    23:59:59.000, is dropped. *)
Theorem date_range_of_days (h : Host) (c : Filters.Criteria) (p : Filters.Prepared)
    (first last : string) (t1 t2 : Z) (notice : value) :
  String.length first = 10%nat -> parseIsoUtc first = Some t1 -> 0 < t1 ->
  String.length last = 10%nat -> parseIsoUtc last = Some t2 -> 0 < t2 ->
  Filters.dateFrom c = VStr first -> Filters.dateTo c = VStr last ->
  Filters.prepare h c = Ret p ->
  (Filters.dateFilter h p notice = true <->
   exists candidate, Filters.candidateDate h notice = Some candidate
                     /\ t1 <= candidate <= t2 + 86399000).
Proof.
  intros Hl1 Hp1 Ht1 Hl2 Hp2 Ht2 Hfrom Hto Hp.
  destruct (prepare_fields h c p Hp) as [_ [_ [_ [Hf Ht]]]].
  rewrite Hfrom in Hf. rewrite Hto in Ht.
  destruct (day_bounds_of_criteria h first t1 Hl1 Hp1) as [Hs _].
  destruct (day_bounds_of_criteria h last t2 Hl2 Hp2) as [_ He].
  rewrite Hs in Hf. rewrite He in Ht.
  rewrite dateFilter_iff.
  2:{ rewrite Hf. cbn [Filters.timeGiven]. destruct (Z.eqb_spec t1 0); [lia|reflexivity]. }
  rewrite Hf, Ht. split.
  - intros [candidate [Hc [Hlo Hhi]]]. exists candidate. split; [assumption|].
    split; [apply (Hlo t1 eq_refl); lia|apply (Hhi _ eq_refl); lia].
  - intros [candidate [Hc [Hlo Hhi]]]. exists candidate. split; [assumption|].
    split; intros t [= <-] _; assumption.
Qed.

(** X13, witness: the single day 2024-06-15 and a notice published at noon of
    that day. *)
Lemma date_range_of_days_witness :
  Filters.dateFilter exampleHost
    {| Filters.kw := []; Filters.typeSet := []; Filters.statusSet := [];
       Filters.stageSet := []; Filters.minValue := None; Filters.maxValue := None;
       Filters.fromTime := Some 1718409600000; Filters.toTime := Some 1718495999000;
       Filters.sourceSet := [] |} noticeJune15 = true <->
  exists candidate, Filters.candidateDate exampleHost noticeJune15 = Some candidate
                    /\ 1718409600000 <= candidate <= 1718409600000 + 86399000.
Proof.
  refine (date_range_of_days exampleHost
            (criteriaOf [] (VStr "2024-06-15") (VStr "2024-06-15") VUndefined VUndefined)
            _ "2024-06-15" "2024-06-15" 1718409600000 1718409600000 noticeJune15
            eq_refl eq_refl _ eq_refl eq_refl _ eq_refl eq_refl eq_refl); lia.
Defined.

(** ** The stage the route attaches *)

(** X14.  For a plain notice (its strings are ASCII and none of its
    objects has an own [toString]): unless the [procurementStage] or the
    [noticeType] of the notice normalises to the token [constructor], the
    stage the search route attaches is stable: [deriveProcurementStage] on
    the notice with the stage attached returns the stage that was derived
    from the notice without it, and neither call throws. *)
Theorem attached_stage_is_stable (h : Host) (fields : list (string * value)) :
  plain (VObj fields) = true ->
  Filters.normaliseToken h (get (VObj fields) "procurementStage") <> "constructor" ->
  Filters.normaliseToken h (or_else (get (VObj fields) "noticeType") (VStr EmptyString))
    <> "constructor" ->
  exists stage attached,
    Filters.deriveProcurementStage h (VObj fields) = Ret stage
    /\ Route.attachStage h fields = Ret attached
    /\ Filters.deriveProcurementStage h attached = Ret stage.
Proof.
  intros _ Hstage Htype.
  destruct (derive_shape h _ Hstage Htype) as [s [Hs _]].
  exists (VStr s). eexists. split; [assumption|].
  unfold Route.attachStage. rewrite Hs. cbn [bind]. split; [reflexivity|].
  now apply derive_attach_same.
Qed.

(** X14, witness: a Find a Tender notice with an award date. *)
Lemma attached_stage_is_stable_witness :
  exists stage attached,
    Filters.deriveProcurementStage exampleHost (VObj awardedFtsNotice) = Ret stage
    /\ Route.attachStage exampleHost awardedFtsNotice = Ret attached
    /\ Filters.deriveProcurementStage exampleHost attached = Ret stage.
Proof.
  refine (attached_stage_is_stable exampleHost awardedFtsNotice eq_refl _ _);
    vm_compute; discriminate.
Defined.

(** ** The source criterion and the others *)

(** X15.  The source criterion acts on its own: the result for requested
    sources is the result without them, with the notices of other sources
    left out.  In particular requesting sources never adds a notice. *)
Theorem source_criterion_is_independent (h : Host) (notices everything : list value)
    (c : Filters.Criteria) (sources : list string) :
  Filters.applyFilters h notices (withSources c []) = Ret everything ->
  exists p,
    Filters.prepare h (withSources c sources) = Ret p
    /\ Filters.applyFilters h notices (withSources c sources)
       = Ret (filter (fun notice => Filters.sourceFilter p (noticeSourceOf h notice))
                everything).
Proof.
  intros Hall. unfold Filters.applyFilters in *.
  destruct (prepare_total h (withSources c sources)) as [p Hp].
  exists p. split; [assumption|]. rewrite Hp. cbn [bind].
  destruct (Filters.prepare h (withSources c [])) as [p0|] eqn:Hp0; [|discriminate].
  cbn [bind] in Hall.
  destruct (prepare_record h _ _ Hp) as [tokens [Ht Ep]].
  destruct (prepare_record h _ _ Hp0) as [tokens0 [Ht0 Ep0]].
  cbn [withSources Filters.procurementStages] in Ht, Ht0.
  rewrite Ht in Ht0. injection Ht0 as <-.
  assert (Hkeep : forall notice,
            Filters.keepNotice h p notice =
            if nullish notice then Throw TypeError
            else if Filters.sourceFilter p (noticeSourceOf h notice)
                 then Filters.keepNotice h p0 notice else Ret false).
  { intros notice. unfold Filters.keepNotice, get_strict, noticeSourceOf.
    destruct (nullish notice); [reflexivity|]. cbn [bind].
    destruct (Filters.sourceFilter p _) eqn:Es; cbn [negb]; [|reflexivity].
    rewrite Ep0. unfold Filters.sourceFilter at 1. cbn [Filters.sourceSet withSources
      Filters.sources map flat_map length Nat.ltb Nat.leb andb negb].
    rewrite Ep. reflexivity. }
  clear Hp Hp0 Ht Ep Ep0.
  revert everything Hall. induction notices as [|x rest IH]; cbn [Filters.filterM];
    intros everything Hall.
  - injection Hall as <-. reflexivity.
  - destruct (Filters.keepNotice h p0 x) as [b|] eqn:Ex; [|discriminate].
    cbn [bind] in Hall.
    destruct (Filters.filterM (Filters.keepNotice h p0) rest) as [kept|]; [|discriminate].
    cbn [bind] in Hall. injection Hall as <-.
    rewrite (IH kept eq_refl). rewrite Hkeep.
    assert (Hn : nullish x = false).
    { revert Ex. unfold Filters.keepNotice, get_strict.
      destruct (nullish x); [discriminate|reflexivity]. }
    rewrite Hn, Ex.
    destruct (Filters.sourceFilter p (noticeSourceOf h x)) eqn:Es; cbn [bind].
    + destruct b; cbn [filter]; rewrite ?Es; reflexivity.
    + destruct b; cbn [filter]; rewrite ?Es; reflexivity.
Qed.

(** X15, witness: a Contracts Finder and a Find a Tender notice, the source
    [CF] requested. *)
Lemma source_criterion_is_independent_witness :
  exists p,
    Filters.prepare exampleHost
      (withSources (criteriaOf [] VUndefined VUndefined VUndefined VUndefined) ["CF"])
    = Ret p
    /\ Filters.applyFilters exampleHost
         [VObj contractsFinderAwarded; nhsTenderNotice]
         (withSources (criteriaOf [] VUndefined VUndefined VUndefined VUndefined) ["CF"])
       = Ret (filter (fun notice =>
                        Filters.sourceFilter p (noticeSourceOf exampleHost notice))
                [VObj contractsFinderAwarded; nhsTenderNotice]).
Proof.
  exact (source_criterion_is_independent exampleHost
           [VObj contractsFinderAwarded; nhsTenderNotice]
           [VObj contractsFinderAwarded; nhsTenderNotice]
           (criteriaOf [] VUndefined VUndefined VUndefined VUndefined) ["CF"] eq_refl).
Defined.

(** ** The helpers of the projection *)

Lemma array_find_spec {A} (f : A -> result bool) items hit :
  array_find f items = Ret hit ->
  match hit with
  | Some x => exists before after,
                items = (before ++ x :: after)%list
                /\ f x = Ret true
                /\ forall y, In y before -> f y = Ret false
  | None => forall y, In y items -> f y = Ret false
  end.
Proof.
  revert hit. induction items as [|x rest IH]; cbn [array_find]; intros hit H.
  - injection H as <-. intros y [].
  - destruct (f x) as [b|] eqn:E; [|discriminate]. cbn [bind] in H. destruct b.
    + injection H as <-. exists [], rest. split; [reflexivity|]. split; [assumption|].
      intros y [].
    + specialize (IH hit H). destruct hit as [z|].
      * destruct IH as [before [after [-> [Hz Hb]]]].
        exists (x :: before), after. split; [reflexivity|]. split; [assumption|].
        intros y [<-|Hy]; auto.
      * intros y [<-|Hy]; auto.
Qed.

Lemma array_find_returns {A} (f : A -> result bool) items :
  (forall x, In x items -> exists b, f x = Ret b) ->
  exists hit, array_find f items = Ret hit.
Proof.
  induction items as [|x rest IH]; intros H; cbn [array_find]; [eauto|].
  destruct (H x (or_introl eq_refl)) as [b ->]. cbn [bind]. destruct b; [eauto|].
  apply IH. intros y Hy. apply H. now right.
Qed.

Lemma isActive_true item :
  FtsProjection.isActive item = Ret true <->
  exists s, get item "status" = VStr s /\ toLowerCase s = "active".
Proof.
  unfold FtsProjection.isActive, get_strict.
  destruct item as [| |b0|n0|s0|items0|fields|name0]; cbn [nullish bind get];
    try (split; [discriminate|intros [s [H _]]; discriminate]).
  destruct (match assoc fields "status" with Some x => x | None => VUndefined end) as
    [| |b|n|s|items|fs|name]; cbn [truthy call_toLowerCase bind];
    try (split; [discriminate|intros [s' [H _]]; discriminate]).
  - destruct b; cbn [bind]; split; try discriminate; intros [s' [H _]]; discriminate.
  - destruct (negb _); cbn [bind]; split; try discriminate; intros [s' [H _]]; discriminate.
  - destruct (nonEmpty s) eqn:En; cbn [bind].
    + split.
      * intros [= H]. apply String.eqb_eq in H. eauto.
      * intros [s' [[= <-] H]]. rewrite H. reflexivity.
    + apply nonEmpty_false in En. subst s. split; [discriminate|].
      intros [s' [[= <-] H]]. discriminate.
Qed.

(** X16.  [selectAward] and [selectContract].  For an array whose items
    are objects with a string, or nothing, as [status], neither throws.
    The result is the first item whose status is [active] in any letter
    case; without such an item it is the first item of the array; and
    [null] for an empty array and for anything that is not an array.  The
    result is always [null] or an item of the array. *)
Theorem select_award_prefers_active :
  (forall before item after,
     (forall x, In x before -> FtsProjection.isActive x = Ret false) ->
     FtsProjection.isActive item = Ret true ->
     FtsProjection.selectAward (VArr (before ++ item :: after)) = Ret item)
  /\ (forall first rest,
        (forall x, In x (first :: rest) -> FtsProjection.isActive x = Ret false) ->
        FtsProjection.selectAward (VArr (first :: rest)) = Ret (or_else first VNull))
  /\ (forall awards, isArray awards = false \/ awards = VArr [] ->
        FtsProjection.selectAward awards = Ret VNull)
  /\ (forall awards selected,
        FtsProjection.selectAward awards = Ret selected ->
        selected = VNull \/ In selected (elements awards))
  /\ (forall items,
        (forall x, In x items ->
           exists fields, x = VObj fields
                          /\ (truthy (get x "status") = false
                              \/ exists s, get x "status" = VStr s)) ->
        exists selected, FtsProjection.selectAward (VArr items) = Ret selected)
  /\ (forall contracts,
        FtsProjection.selectContract contracts = FtsProjection.selectAward contracts).
Proof.
  split; [|split; [|split; [|split; [|split]]]].
  - intros before item after Hbefore Hitem. unfold FtsProjection.selectAward.
    assert (E : array_find FtsProjection.isActive (before ++ item :: after)
                = Ret (Some item)).
    { induction before as [|x rest IH]; cbn [app array_find].
      - rewrite Hitem. reflexivity.
      - rewrite (Hbefore x (or_introl eq_refl)). cbn [bind].
        apply IH. intros y Hy. apply Hbefore. now right. }
    rewrite E. cbn [bind found].
    apply isActive_true in Hitem. destruct Hitem as [s [Hs _]].
    destruct item; try discriminate Hs. reflexivity.
  - intros first rest Hnone. unfold FtsProjection.selectAward.
    assert (E : forall items, (forall x, In x items -> FtsProjection.isActive x = Ret false) ->
                array_find FtsProjection.isActive items = Ret None).
    { induction items as [|x xs IH]; intros Hx; cbn [array_find]; [reflexivity|].
      rewrite (Hx x (or_introl eq_refl)). cbn [bind]. apply IH.
      intros y Hy. apply Hx. now right. }
    rewrite (E _ Hnone). cbn [bind found nth or_else truthy].
    unfold or_else. destruct (truthy first) eqn:Et; rewrite ?Et; reflexivity.
  - intros awards [H| ->]; [|reflexivity]. destruct awards; try reflexivity. discriminate.
  - intros awards selected. unfold FtsProjection.selectAward.
    destruct awards; try (intros [= <-]; now left). cbn [elements].
    destruct (array_find FtsProjection.isActive items) as [hit|] eqn:E; [|discriminate].
    cbn [bind]. intros [= <-]. apply array_find_spec in E.
    destruct hit as [x|]; cbn [found].
    + destruct E as [before [after [-> [Hx _]]]].
      apply isActive_true in Hx. destruct Hx as [s [Hs _]].
      destruct x; try discriminate Hs. right. apply in_elt.
    + destruct items as [|y ys]; [now left|]. cbn [nth or_else truthy].
      unfold or_else. cbn [truthy]. destruct (truthy y); [right; now left|now left].
  - intros items Hitems. unfold FtsProjection.selectAward.
    destruct (array_find_returns FtsProjection.isActive items) as [hit ->]; [|cbn [bind]; eauto].
    intros x Hx. destruct (Hitems x Hx) as [fields [-> Hs]].
    unfold FtsProjection.isActive, get_strict. cbn [nullish bind].
    destruct Hs as [Hs|[s Hs]]; rewrite Hs; cbn [truthy].
    + eauto.
    + destruct (nonEmpty s); cbn [call_toLowerCase bind]; eauto.
  - reflexivity.
Qed.

(** X16, witness: a pending award in front of an award with the status
    [Active]. *)
Lemma select_award_prefers_active_witness :
  FtsProjection.selectAward (VArr ([pendingAward] ++ activeAward :: [])) = Ret activeAward.
Proof.
  refine (proj1 select_award_prefers_active [pendingAward] activeAward [] _ _).
  - intros x [<-|[]]. reflexivity.
  - reflexivity.
Defined.

Lemma some_true {A} (f : A -> result bool) items :
  some f items = Ret true -> exists x, In x items /\ f x = Ret true.
Proof.
  induction items as [|x rest IH]; cbn [some]; [discriminate|].
  destruct (f x) as [b|] eqn:E; [|discriminate]. cbn [bind]. destruct b.
  - intros _. exists x. split; [now left|assumption].
  - intros H. destruct (IH H) as [y [Hy Hf]]. exists y. split; [now right|assumption].
Qed.


(** X17.  [selectBuyer] returns [null] or a party of the array, and the
    party it returns has a role that reads [buyer] in some letter case; it
    is then a party with a buyer role in the sense of [partyHasBuyerRole],
    the test the search applies before the projection. *)
Theorem selected_buyer_has_buyer_role (h : Host) (parties selected : value) :
  FtsProjection.selectBuyer parties = Ret selected ->
  selected = VNull
  \/ (In selected (elements parties)
      /\ (exists role, In (VStr role) (elements (get selected "roles"))
                       /\ toLowerCase role = "buyer")
      /\ FtsSearch.partyHasBuyerRole h selected = true).
Proof.
  unfold FtsProjection.selectBuyer.
  destruct parties as [| |b|n|s|items|fields|name]; try (intros [= <-]; now left).
  destruct (array_find FtsProjection.isBuyer items) as [hit|] eqn:E; [|discriminate].
  cbn [bind elements]. intros [= <-]. apply array_find_spec in E.
  destruct hit as [party|]; cbn [found]; [|now left].
  destruct E as [before [after [-> [Hb _]]]].
  unfold FtsProjection.isBuyer, get_strict in Hb.
  destruct party as [| |b|n|s|xs|fields|name]; cbn [nullish bind get] in Hb;
    try discriminate Hb.
  right. cbn [or_else truthy]. split; [apply in_elt|].
  cbn [get].
  destruct (match assoc fields "roles" with Some x => x | None => VUndefined end)
    as [| |b|n|s|roles|fs|name] eqn:Eroles; try discriminate Hb.
  apply some_true in Hb. destruct Hb as [role [Hrole Hl]].
  destruct role as [| |b|n|r|xs|fs|name]; try discriminate Hl.
  cbn [call_toLowerCase bind] in Hl. injection Hl as Hl. apply String.eqb_eq in Hl.
  split.
  - exists r. split; assumption.
  - unfold FtsSearch.partyHasBuyerRole. cbn [truthy typeof jstype_eqb negb orb get].
    rewrite Eroles. cbn [elements]. apply existsb_exists.
    exists (VStr r). split; [assumption|].
    assert (Hne : nonEmpty r = true) by (destruct r; [discriminate|reflexivity]).
    unfold or_else. cbn [truthy]. rewrite Hne. cbn [ToString].
    unfold FtsSearch.BUYER_ROLE_test. rewrite Hl. reflexivity.
Qed.

(** X17, witness: a party without roles in front of a party with the role
    [Buyer]. *)
Lemma selected_buyer_has_buyer_role_witness :
  buyerParty = VNull
  \/ (In buyerParty (elements (VArr [pendingAward; buyerParty]))
      /\ (exists role, In (VStr role) (elements (get buyerParty "roles"))
                       /\ toLowerCase role = "buyer")
      /\ FtsSearch.partyHasBuyerRole exampleHost buyerParty = true).
Proof.
  exact (selected_buyer_has_buyer_role exampleHost (VArr [pendingAward; buyerParty])
           buyerParty eq_refl).
Defined.

(** X18.  [extractBudgetValues] returns [{ primary }] with [primary] either
    [null] or truthy.  When the budget has a non-empty [budgetBreakdown],
    only the breakdown is looked at: if none of its items has a truthy
    [amount], [primary] is [null] even though the budget has a flat
    [amount]. *)
Theorem budget_breakdown_hides_flat_amount :
  (forall planning result,
     FtsProjection.extractBudgetValues planning = Ret result ->
     exists primary, result = FtsProjection.budget primary
                     /\ (primary = VNull \/ truthy primary = true))
  /\ (forall planning item items,
        truthy planning = true -> typeof planning = TObject ->
        get (or_else (get planning "budget") (VObj [])) "budgetBreakdown"
          = VArr (item :: items) ->
        (forall x, In x (item :: items) ->
           nullish x = false /\ truthy (get x "amount") = false) ->
        FtsProjection.extractBudgetValues planning = Ret (FtsProjection.budget VNull)).
Proof.
  split.
  - intros planning result. unfold FtsProjection.extractBudgetValues.
    destruct (negb (truthy planning) || negb (jstype_eqb (typeof planning) TObject)).
    { intros [= <-]. eauto. }
    destruct (isArray _ && _).
    + destruct (array_find _ _) as [first|]; [|discriminate]. cbn [bind].
      intros [= <-]. eexists. split; [reflexivity|].
      unfold or_else. destruct (truthy (get (found first) "amount")) eqn:E; auto.
    + destruct (truthy (get _ "amount")) eqn:E; intros [= <-]; eauto.
  - intros planning item items Ht Ho Hb Hitems. unfold FtsProjection.extractBudgetValues.
    rewrite Ht, Ho, Hb. cbn [negb orb jstype_eqb isArray elements length Nat.ltb Nat.leb andb].
    assert (E : forall xs, (forall x, In x xs -> nullish x = false
                                                 /\ truthy (get x "amount") = false) ->
                array_find (fun item => amount <- get_strict item "amount" ;;
                                        Ret (truthy amount)) xs = Ret None).
    { induction xs as [|x xs IH]; intros Hx; cbn [array_find]; [reflexivity|].
      destruct (Hx x (or_introl eq_refl)) as [Hn Ha].
      unfold get_strict. rewrite Hn. cbn [bind]. rewrite Ha. apply IH.
      intros y Hy. apply Hx. now right. }
    rewrite (E _ Hitems). reflexivity.
Qed.

(** X18, witness: a budget with a flat amount and a breakdown of one item
    without an amount. *)
Lemma budget_breakdown_hides_flat_amount_witness :
  FtsProjection.extractBudgetValues planningWithBreakdown = Ret (FtsProjection.budget VNull)
  /\ truthy (get (get planningWithBreakdown "budget") "amount") = true.
Proof.
  split; [|reflexivity].
  refine (proj2 budget_breakdown_hides_flat_amount planningWithBreakdown
            (VObj [ ("description", VStr "Year 1") ]) [] eq_refl eq_refl eq_refl _).
  intros x [<-|[]]. split; reflexivity.
Defined.

(** ** The search over release packages *)

Lemma num_ltb_Fin a b : num_ltb (Fin a) (Fin b) = true <-> (a < b)%Q.
Proof.
  cbn [num_ltb]. rewrite negb_true_iff. split.
  - intros H. apply Qnot_le_lt. intros Hle. apply Qle_bool_iff in Hle. congruence.
  - intros H. destruct (Qle_bool b a) eqn:E; [|reflexivity].
    apply Qle_bool_iff in E. exfalso. exact (Qlt_not_le _ _ H E).
Qed.

Lemma num_ltb_Fin_false a b : num_ltb (Fin a) (Fin b) = false <-> (b <= a)%Q.
Proof.
  cbn [num_ltb]. rewrite negb_false_iff. apply Qle_bool_iff.
Qed.

(** A number clamped from below by [lo], then from above by [hi], or the
    other way round, with [lo <= hi]. *)
Lemma clamp_max_min lo hi x :
  (lo <= hi)%Q -> isNaN x = false ->
  num_le (Fin lo) (Math_max (Fin lo) (Math_min x (Fin hi)))
  /\ num_le (Math_max (Fin lo) (Math_min x (Fin hi))) (Fin hi).
Proof.
  intros Hlh Hx. destruct x as [| | |q]; try discriminate Hx.
  - cbn [Math_min num_ltb]. cbn [Math_max].
    destruct (num_ltb (Fin lo) (Fin hi)) eqn:E; cbn [num_le].
    + split; [assumption|apply Qle_refl].
    + split; [apply Qle_refl|assumption].
  - cbn. split; [apply Qle_refl|assumption].
  - cbn [Math_min]. destruct (num_ltb (Fin hi) (Fin q)) eqn:E1; cbn [Math_max].
    + destruct (num_ltb (Fin lo) (Fin hi)) eqn:E2; cbn [num_le].
      * split; [assumption|apply Qle_refl].
      * split; [apply Qle_refl|assumption].
    + apply num_ltb_Fin_false in E1.
      destruct (num_ltb (Fin lo) (Fin q)) eqn:E2; cbn [num_le].
      * apply num_ltb_Fin in E2. split; [now apply Qlt_le_weak|assumption].
      * split; [apply Qle_refl|assumption].
Qed.

Lemma clamp_min_max lo hi x :
  (lo <= hi)%Q -> isNaN x = false ->
  num_le (Fin lo) (Math_min (Fin hi) (Math_max (Fin lo) x))
  /\ num_le (Math_min (Fin hi) (Math_max (Fin lo) x)) (Fin hi).
Proof.
  intros Hlh Hx. destruct x as [| | |q]; try discriminate Hx.
  - cbn. split; [assumption|apply Qle_refl].
  - cbn [Math_max num_ltb]. cbn [Math_min].
    destruct (num_ltb (Fin lo) (Fin hi)) eqn:E; cbn [num_le].
    + split; [apply Qle_refl|assumption].
    + split; [assumption|apply Qle_refl].
  - cbn [Math_max]. destruct (num_ltb (Fin lo) (Fin q)) eqn:E1; cbn [Math_min].
    + apply num_ltb_Fin in E1.
      destruct (num_ltb (Fin q) (Fin hi)) eqn:E2; cbn [num_le].
      * apply num_ltb_Fin in E2. split; now apply Qlt_le_weak.
      * split; [assumption|apply Qle_refl].
    + destruct (num_ltb (Fin lo) (Fin hi)) eqn:E2; cbn [num_le].
      * split; [apply Qle_refl|assumption].
      * split; [assumption|apply Qle_refl].
Qed.

Lemma clamp_max_then_min lo hi x :
  (lo <= hi)%Q -> isNaN x = false ->
  num_le (Fin lo) (Math_min (Math_max x (Fin lo)) (Fin hi))
  /\ num_le (Math_min (Math_max x (Fin lo)) (Fin hi)) (Fin hi).
Proof.
  intros Hlh Hx. destruct x as [| | |q]; try discriminate Hx.
  - cbn. split; [assumption|apply Qle_refl].
  - cbn [Math_max num_ltb]. cbn [Math_min].
    destruct (num_ltb (Fin hi) (Fin lo)) eqn:E; cbn [num_le].
    + apply num_ltb_Fin in E. exfalso. exact (Qlt_not_le _ _ E Hlh).
    + split; [apply Qle_refl|assumption].
  - cbn [Math_max]. destruct (num_ltb (Fin q) (Fin lo)) eqn:E1; cbn [Math_min].
    + destruct (num_ltb (Fin hi) (Fin lo)) eqn:E2; cbn [num_le].
      * apply num_ltb_Fin in E2. exfalso. exact (Qlt_not_le _ _ E2 Hlh).
      * split; [apply Qle_refl|assumption].
    + apply num_ltb_Fin_false in E1.
      destruct (num_ltb (Fin hi) (Fin q)) eqn:E2; cbn [num_le].
      * split; [assumption|apply Qle_refl].
      * apply num_ltb_Fin_false in E2. split; assumption.
Qed.

Lemma num_or_not_NaN n d : isNaN d = false -> isNaN (num_or n d) = false.
Proof.
  intros Hd. unfold num_or. destruct n; cbn [isNaN num_is_zero orb]; try assumption;
    try reflexivity.
  destruct (Qeq_bool q 0); [assumption|reflexivity].
Qed.

(** X19.  The page sizes sent to the two portals.  For every plain value
    passed as the size (a number, a numeric string, nothing, [NaN], an
    infinity, an array or an object none of whose objects has an own
    [toString], on which [Number] would throw), the [limit] of the
    release-package search and the [pageSize] of the Find a Tender route
    are numbers from 1 to 100 and the [size] of the Contracts Finder search
    is a number from 1 to 1000, never [NaN].  The page size of the route
    passes through the clamp of the search unchanged. *)
Theorem page_sizes_are_clamped (h : Host) (size : value) :
  plain size = true ->
  (num_le (Fin 1) (FtsSearch.ocdsLimit h size)
   /\ num_le (FtsSearch.ocdsLimit h size) (Fin 100))
  /\ (num_le (Fin 1) (PageSize.pageSize h size)
      /\ num_le (PageSize.pageSize h size) (Fin 100))
  /\ (num_le (Fin 1) (PageSize.safeSize h size)
      /\ num_le (PageSize.safeSize h size) (Fin 1000))
  /\ FtsSearch.ocdsLimit h (VNum (PageSize.pageSize h size)) = PageSize.pageSize h size.
Proof.
  intros _.
  split; [|split; [|split]].
  - apply clamp_max_min; [discriminate|]. now apply num_or_not_NaN.
  - apply clamp_min_max; [discriminate|]. now apply num_or_not_NaN.
  - apply clamp_max_then_min; [discriminate|]. now apply num_or_not_NaN.
  - unfold FtsSearch.ocdsLimit, PageSize.pageSize. cbn [defaulted ToNumber].
    set (x := num_or (ToNumber h (defaulted size PageSize.DEFAULT_LIMIT))
                PageSize.DEFAULT_LIMIT).
    assert (Hx : isNaN x = false) by now apply num_or_not_NaN.
    unfold FtsSearch.OCDS_MAX_LIMIT, FtsSearch.DEFAULT_PAGE_SIZE.
    destruct x as [| | |q]; try discriminate Hx; try reflexivity.
    cbn [Math_max]. destruct (num_ltb (Fin 1) (Fin q)) eqn:E1; [|reflexivity].
    cbn [Math_min]. destruct (num_ltb (Fin q) (Fin 100)) eqn:E2; [|reflexivity].
    apply num_ltb_Fin in E1. apply num_ltb_Fin in E2.
    assert (Hz : Qeq_bool q 0 = false).
    { destruct (Qeq_bool q 0) eqn:Ez; [|reflexivity]. apply Qeq_bool_eq in Ez.
      rewrite Ez in E1. discriminate E1. }
    unfold num_or. cbn [isNaN num_is_zero orb]. rewrite Hz.
    cbn [Math_min].
    assert (E3 : num_ltb (Fin 100) (Fin q) = false).
    { apply num_ltb_Fin_false. now apply Qlt_le_weak. }
    rewrite E3. cbn [Math_max].
    assert (E4 : num_ltb (Fin 1) (Fin q) = true) by now apply num_ltb_Fin.
    rewrite E4. reflexivity.
Qed.

(** X19, witness: the size 500 gives the limit 100, the page size 100 and
    the Contracts Finder size 500. *)
Lemma page_sizes_are_clamped_witness :
  (num_le (Fin 1) (FtsSearch.ocdsLimit exampleHost (number_of 500))
   /\ num_le (FtsSearch.ocdsLimit exampleHost (number_of 500)) (Fin 100))
  /\ (num_le (Fin 1) (PageSize.pageSize exampleHost (number_of 500))
      /\ num_le (PageSize.pageSize exampleHost (number_of 500)) (Fin 100))
  /\ (num_le (Fin 1) (PageSize.safeSize exampleHost (number_of 500))
      /\ num_le (PageSize.safeSize exampleHost (number_of 500)) (Fin 1000))
  /\ FtsSearch.ocdsLimit exampleHost (VNum (PageSize.pageSize exampleHost (number_of 500)))
     = PageSize.pageSize exampleHost (number_of 500).
Proof.
  exact (page_sizes_are_clamped exampleHost (number_of 500) eq_refl).
Defined.

(** X20.  For a plain value (its strings are ASCII and none of its objects
    has an own [toString], on which [String] would throw),
    [normaliseOcdsStage] returns [tender], [award] or [planning], and it
    maps each of the three to itself in any letter case; anything else, as
    well as nothing at all, becomes [tender]. *)
Theorem ocds_stage_is_one_of_three (h : Host) (v : value) :
  plain v = true ->
  In (FtsSearch.normaliseOcdsStage h v) ["tender"; "award"; "planning"]
  /\ FtsSearch.normaliseOcdsStage h (VStr (FtsSearch.normaliseOcdsStage h v))
     = FtsSearch.normaliseOcdsStage h v
  /\ (forall s, asciiText s = true ->
                In (toLowerCase s) ["tender"; "award"; "planning"] ->
                FtsSearch.normaliseOcdsStage h (VStr s) = toLowerCase s).
Proof.
  intros _.
  assert (Hin : In (FtsSearch.normaliseOcdsStage h v) ["tender"; "award"; "planning"]).
  { unfold FtsSearch.normaliseOcdsStage.
    destruct (negb (truthy v)); [now left|].
    destruct (String.eqb_spec (toLowerCase (ToString h v)) "tender") as [->|_]; [now left|].
    destruct (String.eqb_spec (toLowerCase (ToString h v)) "award") as [->|_];
      [right; now left|].
    destruct (String.eqb_spec (toLowerCase (ToString h v)) "planning") as [->|_];
      [right; right; now left|now left]. }
  split; [assumption|]. split.
  - destruct Hin as [<-|[<-|[<-|[]]]]; reflexivity.
  - intros s _ Hs. unfold FtsSearch.normaliseOcdsStage. cbn [truthy ToString].
    destruct s as [|c s]; [simpl in Hs; intuition discriminate|].
    cbn [nonEmpty String.eqb negb].
    destruct Hs as [<-|[<-|[<-|[]]]]; reflexivity.
Qed.

(** X20, witness: [Award] in capitals is the stage [award]. *)
Lemma ocds_stage_is_one_of_three_witness :
  In (FtsSearch.normaliseOcdsStage exampleHost (VStr "AWARD")) ["tender"; "award"; "planning"]
  /\ FtsSearch.normaliseOcdsStage exampleHost
       (VStr (FtsSearch.normaliseOcdsStage exampleHost (VStr "AWARD")))
     = FtsSearch.normaliseOcdsStage exampleHost (VStr "AWARD")
  /\ (forall s, asciiText s = true ->
                In (toLowerCase s) ["tender"; "award"; "planning"] ->
                FtsSearch.normaliseOcdsStage exampleHost (VStr s) = toLowerCase s).
Proof.
  exact (ocds_stage_is_one_of_three exampleHost (VStr "AWARD") eq_refl).
Defined.




(** X22.  The authority test of the search ([matchesPreferredAuthority])
    and the one of the keyword block of [applyFilters]
    ([matchesAuthorityKeywords]) agree on every notice: both look at the
    same six fields.  A hit the search returns for NHS bodies only therefore
    passes the authority half of the keyword block as long as those fields
    are not changed in between. *)
Theorem authority_tests_agree (notice : value) :
  nullish notice = false ->
  FtsSearch.matchesPreferredAuthority notice = Filters.matchesAuthorityKeywords notice.
Proof.
  intros _. unfold FtsSearch.matchesPreferredAuthority, Filters.matchesAuthorityKeywords.
  destruct notice as [| |b|n|s|items|fields|name]; try reflexivity.
  - destruct b; reflexivity.
  - cbn [truthy]. destruct (negb _); reflexivity.
  - cbn [truthy]. destruct (nonEmpty s); reflexivity.
  - cbn [truthy typeof jstype_eqb negb orb existsb].
    destruct (Fts.containsAuthorityKeyword (get (VObj fields) "organisationName"));
    destruct (Fts.containsAuthorityKeyword (get (VObj fields) "organisationAddress"));
    destruct (Fts.containsAuthorityKeyword (get (VObj fields) "regionText"));
    destruct (Fts.containsAuthorityKeyword (get (VObj fields) "region"));
    destruct (Fts.containsAuthorityKeyword (get (VObj fields) "description"));
    destruct (Fts.containsAuthorityKeyword (get (VObj fields) "title")); reflexivity.
Qed.

(** X22, witness: the Find a Tender notice of an NHS trust. *)
Lemma authority_tests_agree_witness :
  FtsSearch.matchesPreferredAuthority nhsTenderNotice
  = Filters.matchesAuthorityKeywords nhsTenderNotice.
Proof. exact (authority_tests_agree nhsTenderNotice eq_refl). Defined.

Section ReleaseSelection.
Variable h : Host.

Lemma insertByDate_In a sorted x :
  In x (Fts.insertByDate h a sorted) <-> x = a \/ In x sorted.
Proof.
  induction sorted as [|b rest IH]; cbn [Fts.insertByDate].
  - simpl. intuition.
  - destruct (_ <=? 0).
    + simpl. intuition.
    + cbn [In]. rewrite IH. intuition.
Qed.

Lemma sortByDate_In releases x : In x (Fts.sortByDate h releases) <-> In x releases.
Proof.
  induction releases as [|a rest IH]; cbn [Fts.sortByDate]; [reflexivity|].
  rewrite insertByDate_In, IH. simpl. intuition.
Qed.


Lemma findById_In releases id found :
  Fts.findById releases id = Ret found -> found = VUndefined \/ In found releases.
Proof.
  induction releases as [|r rest IH]; cbn [Fts.findById].
  - intros [= <-]. now left.
  - destruct (get_strict r "id") as [x|]; [|discriminate]. cbn [bind].
    destruct (strict_eq x id).
    + intros [= <-]. right. now left.
    + intros H. destruct (IH H); [now left|right; now right].
Qed.

Lemma findById_returns releases id :
  (forall r, In r releases -> nullish r = false) ->
  exists found, Fts.findById releases id = Ret found.
Proof.
  induction releases as [|r rest IH]; intros H; cbn [Fts.findById]; [eauto|].
  unfold get_strict. rewrite (H r (or_introl eq_refl)). cbn [bind].
  destruct (strict_eq _ id); [eauto|]. apply IH. intros x Hx. apply H. now right.
Qed.

End ReleaseSelection.

(** X23.  [selectRelevantRelease] never makes a release up: what it returns
    is [null] or one of the releases of the package.  It throws nothing
    when the package is plain (none of its objects has an own [toString],
    on which [Date.parse] would throw) and no release of the package is
    [null] or [undefined], and nothing at all for a base record without an
    id. *)
Theorem selected_release_is_in_package :
  (forall (h : Host) (pkg noticeId selected : value),
     Fts.selectRelevantRelease h pkg noticeId = Ret selected ->
     selected = VNull \/ In selected (Fts.releasesOf pkg))
  /\ (forall (h : Host) (pkg noticeId : value),
        plain pkg = true ->
        (forall r, In r (Fts.releasesOf pkg) -> nullish r = false) ->
        exists selected, Fts.selectRelevantRelease h pkg noticeId = Ret selected)
  /\ (forall (h : Host) (pkg noticeId : value),
        truthy noticeId = false ->
        exists selected, Fts.selectRelevantRelease h pkg noticeId = Ret selected).
Proof.
  split; [|split].
  - intros h pkg noticeId selected. unfold Fts.selectRelevantRelease.
    destruct (negb (truthy pkg) || negb (isArray (get pkg "releases"))
              || (length (Fts.releasesOf pkg) =? 0)%nat) eqn:Eguard.
    { intros [= <-]. now left. }
    assert (Hne : Fts.releasesOf pkg <> []).
    { intros E. rewrite E in Eguard. cbn in Eguard. now rewrite !orb_true_r in Eguard. }
    destruct (negb (truthy noticeId)).
    { intros [= <-]. right. destruct (Fts.releasesOf pkg); [contradiction|now left]. }
    destruct (Fts.findById (Fts.releasesOf pkg) noticeId) as [byId|] eqn:E; [|discriminate].
    cbn [bind]. destruct (truthy byId) eqn:Et.
    + intros [= <-]. destruct (findById_In _ _ _ E) as [->|H]; [discriminate|now right].
    + intros [= <-].
      destruct (Fts.sortByDate h (Fts.releasesOf pkg)) as [|first rest] eqn:Es.
      * now left.
      * cbn [nth]. unfold or_else. destruct (truthy first); [|now left].
        right. apply (sortByDate_In h). rewrite Es. now left.
  - intros h pkg noticeId _ Hall. unfold Fts.selectRelevantRelease.
    destruct (_ || _); [eauto|]. destruct (negb (truthy noticeId)); [eauto|].
    destruct (findById_returns _ noticeId Hall) as [byId ->]. cbn [bind].
    destruct (truthy byId); eauto.
  - intros h pkg noticeId Hid. unfold Fts.selectRelevantRelease.
    destruct (_ || _); [eauto|]. rewrite Hid. cbn [negb]. eauto.
Qed.

(** X23, witness: the package of two releases and an id that matches neither.
    *)
Lemma selected_release_is_in_package_witness :
  VObj releaseMarch = VNull \/ In (VObj releaseMarch) (Fts.releasesOf twoReleasePackage).
Proof.
  exact (proj1 selected_release_is_in_package exampleHost twoReleasePackage
           (VStr "rel-7") (VObj releaseMarch) eq_refl).
Defined.

(** X24.  The release-package search maps each release on its own: it builds
    a base record with the id [release.id || release.ocid] and hands the
    package [{ releases: [release] }] to [mapReleasePackageToNotice].
    Whenever that id is truthy, the release selected there is the release
    itself, whether its own [id] is the one used or not. *)
Theorem single_release_is_selected (h : Host) (release : value) :
  truthy (FtsSearch.releaseId release) = true ->
  Fts.selectRelevantRelease h (FtsSearch.singleRelease release) (FtsSearch.releaseId release)
  = Ret release.
Proof.
  intros Hid. unfold Fts.selectRelevantRelease, FtsSearch.singleRelease.
  cbn [truthy get assoc String.eqb Ascii.eqb Bool.eqb andb isArray negb orb Fts.releasesOf
       length Nat.eqb].
  rewrite Hid. cbn [negb Fts.findById].
  destruct release as [| |b|n|s|items|fields|name]; try discriminate Hid.
  cbn [get_strict nullish bind].
  destruct (strict_eq _ _); cbn [bind truthy]; reflexivity.
Qed.

(** X24, witness: the release of March on its own. *)
Lemma single_release_is_selected_witness :
  Fts.selectRelevantRelease exampleHost (FtsSearch.singleRelease (VObj releaseMarch))
    (FtsSearch.releaseId (VObj releaseMarch))
  = Ret (VObj releaseMarch).
Proof. exact (single_release_is_selected exampleHost (VObj releaseMarch) eq_refl). Defined.

(** ** Addresses *)

Lemma trimStart_trimmed s : trimStart (trimStart s) = trimStart s.
Proof.
  induction s as [|c s IH]; [reflexivity|]. cbn [trimStart].
  destruct (isWhiteSpace c) eqn:E; [assumption|]. cbn [trimStart]. now rewrite E.
Qed.

Lemma trimEnd_trimmed s : trimEnd (trimEnd s) = trimEnd s.
Proof.
  induction s as [|c s IH]; [reflexivity|]. cbn [trimEnd].
  destruct (trimEnd s) as [|d rest] eqn:E.
  - destruct (isWhiteSpace c) eqn:Ec; [reflexivity|]. cbn [trimEnd]. now rewrite Ec.
  - cbn [trimEnd]. cbn [trimEnd] in IH. rewrite IH. reflexivity.
Qed.

Lemma trimEnd_head c s :
  isWhiteSpace c = false -> exists rest, trimEnd (String c s) = String c rest.
Proof.
  intros Hc. cbn [trimEnd]. destruct (trimEnd s); [rewrite Hc|]; eauto.
Qed.

Lemma trim_trimmed s : trimmed (trim s).
Proof.
  unfold trimmed, trim. split; [|apply trimEnd_trimmed].
  assert (H : trimStart s = EmptyString
              \/ exists c s', trimStart s = String c s' /\ isWhiteSpace c = false).
  { induction s as [|c s IH]; [now left|]. cbn [trimStart].
    destruct (isWhiteSpace c) eqn:E; [assumption|]. right. eauto. }
  destruct H as [->|[c [s' [-> Hc]]]]; [reflexivity|].
  destruct (trimEnd_head c s' Hc) as [rest ->]. cbn [trimStart]. now rewrite Hc.
Qed.

Lemma trimEnd_app a b :
  b <> EmptyString -> trimEnd b = b -> trimEnd (a ++ b) = (a ++ b)%string.
Proof.
  intros Hne Hb. induction a as [|c a IH]; [assumption|].
  cbn [append trimEnd]. rewrite IH.
  destruct (a ++ b)%string eqn:E; [|reflexivity].
  destruct a; [cbn in E; contradiction|discriminate E].
Qed.

Lemma trimStart_app a b :
  a <> EmptyString -> trimStart a = a -> trimStart (a ++ b) = (a ++ b)%string.
Proof.
  intros Hne Ha. destruct a as [|c a]; [contradiction|].
  cbn [append trimStart] in *. destruct (isWhiteSpace c) eqn:E; [|reflexivity].
  exfalso. assert (Hlen : (String.length (trimStart a) <= String.length a)%nat).
  { clear. induction a as [|d a IH]; [reflexivity|]. cbn [trimStart].
    destruct (isWhiteSpace d); cbn [String.length]; lia. }
  rewrite Ha in Hlen. cbn [String.length] in Hlen. lia.
Qed.

Lemma join_trimmed parts :
  parts <> [] ->
  (forall part, In part parts -> part <> EmptyString /\ trimmed part) ->
  join ", " parts <> EmptyString /\ trimmed (join ", " parts).
Proof.
  induction parts as [|x rest IH]; [contradiction|]. intros _ H.
  destruct (H x (or_introl eq_refl)) as [Hx [Hxs Hxe]].
  destruct rest as [|y rest'].
  - cbn [join]. repeat split; assumption.
  - assert (Hrest : join ", " (y :: rest') <> EmptyString /\ trimmed (join ", " (y :: rest'))).
    { apply IH; [discriminate|]. intros part Hp. apply H. now right. }
    destruct Hrest as [Hne [_ He]].
    change (join ", " (x :: y :: rest')) with (x ++ ", " ++ join ", " (y :: rest'))%string.
    split; [destruct x; [contradiction|discriminate]|]. split.
    + now apply trimStart_app.
    + apply trimEnd_app.
      * discriminate.
      * change (", " ++ join ", " (y :: rest'))%string
          with (", " ++ join ", " (y :: rest'))%string.
        apply (trimEnd_app ", "); assumption.
Qed.

(** X25.  For a plain address (its strings are ASCII), [formatAddress]
    returns [null] or a non-empty string without white space at either
    end.  It is the parts joined by a comma and a space,
    where the parts are the string fields among street address, locality,
    region, postal code, country name and description, each trimmed, the
    blank ones and the fields that are not strings left out; it is [null]
    exactly when no part is left or the address is not an object.  A street
    address with blanks around it, a locality, a blank region and a number
    for the postal code give the street address and the locality. *)
Theorem address_is_trimmed_parts (address : value) :
  plain address = true ->
  exists parts,
    parts = filter nonEmpty
              (map (fun part => match part with VStr s => trim s | _ => EmptyString end)
                 (addressFields address))
    /\ (forall part, In part parts -> part <> EmptyString /\ trimmed part)
    /\ (FtsProjection.formatAddress address = VNull
        \/ (FtsProjection.formatAddress address = VStr (join ", " parts)
            /\ join ", " parts <> EmptyString /\ trimmed (join ", " parts)))
    /\ (FtsProjection.formatAddress address = VNull <->
        truthy address = false \/ typeof address <> TObject \/ parts = [])
    /\ FtsProjection.formatAddress leedsAddress = VStr "1 Great George Street, Leeds".
Proof.
  intros _.
  eexists. split; [reflexivity|].
  match goal with |- ?A /\ ?B /\ ?C /\ ?D => cut (A /\ B /\ C); [intuition|] end.
  set (parts := filter nonEmpty _).
  assert (Hparts : forall part, In part parts -> part <> EmptyString /\ trimmed part).
  { intros part Hin. subst parts. apply filter_In in Hin. destruct Hin as [Hin Hne].
    split; [now apply nonEmpty_true|].
    apply in_map_iff in Hin. destruct Hin as [v [<- _]].
    destruct v; try (split; reflexivity). apply trim_trimmed. }
  split; [assumption|].
  unfold FtsProjection.formatAddress. fold (addressFields address). fold parts.
  destruct (truthy address); cbn [negb orb].
  2:{ split; [now left|]. split; [now left|reflexivity]. }
  destruct (typeof address) eqn:Et; cbn [jstype_eqb negb];
    try (split; [now left|]; split; [right; left; discriminate|reflexivity]).
  destruct parts as [|x rest] eqn:Ep; cbn [length Nat.ltb Nat.leb].
  - split; [now left|]. split; [now right; right|reflexivity].
  - split.
    + right. split; [reflexivity|]. apply join_trimmed; [discriminate|assumption].
    + split; [discriminate|]. intros [H|[H|H]]; [discriminate|contradiction|discriminate].
Qed.

(** X25, witness: the address in Leeds. *)
Lemma address_is_trimmed_parts_witness :
  exists parts,
    parts = filter nonEmpty
              (map (fun part => match part with VStr s => trim s | _ => EmptyString end)
                 (addressFields leedsAddress))
    /\ (forall part, In part parts -> part <> EmptyString /\ trimmed part)
    /\ (FtsProjection.formatAddress leedsAddress = VNull
        \/ (FtsProjection.formatAddress leedsAddress = VStr (join ", " parts)
            /\ join ", " parts <> EmptyString /\ trimmed (join ", " parts)))
    /\ (FtsProjection.formatAddress leedsAddress = VNull <->
        truthy leedsAddress = false \/ typeof leedsAddress <> TObject \/ parts = [])
    /\ FtsProjection.formatAddress leedsAddress = VStr "1 Great George Street, Leeds".
Proof.
  exact (address_is_trimmed_parts leedsAddress eq_refl).
Defined.

(** ** Entity decoder, further *)

Section Replace.
Local Open Scope N_scope.
Local Open Scope list_scope.

Variable prefix : Route.ustring -> option Route.ustring.
Variable prefixLength : nat.
Variable class : N -> bool.
Variable callback : Route.ustring -> Route.ustring -> result Route.ustring.

Lemma span_app p s : fst (Route.span p s) ++ snd (Route.span p s) = s.
Proof.
  induction s as [|u s IH]; [reflexivity|]. cbn [Route.span].
  destruct (p u); [|reflexivity].
  destruct (Route.span p s) as [run rest]. cbn [fst snd app] in *. now rewrite IH.
Qed.

(** A match needs the prefix and, after it, a [;]. *)
Lemma matchReference_Some s run :
  Route.matchReference prefix class s = Some run ->
  exists body, prefix s = Some body /\ In 59 body.
Proof.
  unfold Route.matchReference. destruct (prefix s) as [body|]; [|discriminate].
  pose proof (span_app class body) as Happ.
  destruct (Route.span class body) as [r rest]. cbn [fst snd] in Happ.
  destruct r as [|a r]; [discriminate|].
  destruct rest as [|b rest]; [discriminate|].
  destruct (N.eq_dec b 59) as [->|Hb].
  - intros _. exists body. split; [reflexivity|]. rewrite <- Happ.
    apply in_or_app. right. now left.
  - intros H. exfalso. destruct b as [|p]; [discriminate|].
    repeat (destruct p as [p|p|]; try discriminate H).
    now apply Hb.
Qed.

(** Without a match anywhere the text is returned as it is. *)
Lemma replaceAll_identity s :
  (forall before after, s = before ++ after ->
     Route.matchReference prefix class after = None) ->
  Route.replaceAll prefix prefixLength class callback 0 s = Ret s.
Proof.
  induction s as [|u s IH]; intros H; [reflexivity|].
  cbn [Route.replaceAll]. rewrite (H [] (u :: s) eq_refl).
  rewrite IH; [reflexivity|].
  intros before after E. apply (H (u :: before) after). now rewrite E.
Qed.

Lemma replaceAll_skip skip s :
  (length s <= skip)%nat ->
  Route.replaceAll prefix prefixLength class callback skip s = Ret [].
Proof.
  revert skip. induction s as [|u s IH]; intros skip H; [reflexivity|].
  cbn [Route.replaceAll]. destruct skip as [|skip]; [cbn in H; lia|].
  apply IH. cbn in H. lia.
Qed.

(** The exceptions of a replacement are those of its callback. *)
Lemma replaceAll_returns skip s :
  (forall whole run, exists out, callback whole run = Ret out) ->
  exists out, Route.replaceAll prefix prefixLength class callback skip s = Ret out.
Proof.
  intros Hcb. revert skip. induction s as [|u s IH]; intros skip; [cbn; eauto|].
  cbn [Route.replaceAll]. destruct skip as [|skip]; [|apply IH].
  destruct (Route.matchReference prefix class (u :: s)) as [run|].
  - destruct (Hcb (firstn (prefixLength + length run + 1) (u :: s)) run) as [out ->].
    cbn [bind]. destruct (IH (prefixLength + length run + 1 - 1)%nat) as [tail ->].
    cbn [bind]. eauto.
  - destruct (IH 0%nat) as [tail ->]. cbn [bind]. eauto.
Qed.

Lemma replaceAll_throws skip s e :
  Route.replaceAll prefix prefixLength class callback skip s = Throw e ->
  exists whole run, callback whole run = Throw e.
Proof.
  revert skip. induction s as [|u s IH]; intros skip; [discriminate|].
  cbn [Route.replaceAll]. destruct skip as [|skip]; [|apply IH].
  destruct (Route.matchReference prefix class (u :: s)) as [run|].
  - destruct (callback _ run) as [out|e'] eqn:Ecb; cbn [bind].
    + destruct (Route.replaceAll _ _ _ _ _ s) as [tail|e'] eqn:Et; cbn [bind];
        [discriminate|]. intros [= <-]. eapply IH. exact Et.
    + intros [= <-]. eauto.
  - destruct (Route.replaceAll _ _ _ _ _ s) as [tail|e'] eqn:Et; cbn [bind];
      [discriminate|]. intros [= <-]. eapply IH. exact Et.
Qed.

End Replace.

(** A list that gets past a pattern with the code unit [k] in front has
    [k] in front. *)
Ltac head_is k a H :=
  let E := fresh "E" in
  destruct (N.eq_dec a k) as [E|E];
  [subst a
  |exfalso; destruct a as [|?p]; [discriminate H|];
   repeat (match goal with q : positive |- _ => destruct q as [q|q|] end;
           try discriminate H);
   now apply E].

Lemma hexPrefix_Some s body :
  Route.hexPrefix s = Some body -> exists x, s = (38 :: 35 :: x :: body)%N.
Proof.
  intros H. destruct s as [|a s]; [discriminate H|]. head_is 38%N a H.
  destruct s as [|b s]; [discriminate H|]. head_is 35%N b H.
  destruct s as [|x s]; [discriminate H|]. cbn [Route.hexPrefix] in H.
  destruct (_ || _); [|discriminate H]. injection H as <-. eauto.
Qed.

Lemma decimalPrefix_Some s body :
  Route.decimalPrefix s = Some body -> s = (38 :: 35 :: body)%N.
Proof.
  intros H. destruct s as [|a s]; [discriminate H|]. head_is 38%N a H.
  destruct s as [|b s]; [discriminate H|]. head_is 35%N b H.
  now injection H as <-.
Qed.

Lemma namedPrefix_Some s body :
  Route.namedPrefix s = Some body -> s = (38 :: body)%N.
Proof.
  intros H. destruct s as [|a s]; [discriminate H|]. head_is 38%N a H.
  now injection H as <-.
Qed.

(** Each of the three replacements leaves a text without [&], or without
    [;], as it is. *)
Lemma pass_identity prefix prefixLength class callback s :
  (forall t body, prefix t = Some body -> exists pre, t = (38%N :: pre ++ body)%list) ->
  ~ In 38%N s \/ ~ In 59%N s ->
  Route.replaceAll prefix prefixLength class callback 0 s = Ret s.
Proof.
  intros Hprefix Hno. apply replaceAll_identity. intros before after ->.
  destruct (Route.matchReference prefix class after) as [run|] eqn:E; [|reflexivity].
  exfalso. apply matchReference_Some in E. destruct E as [body [Hb H59]].
  destruct (Hprefix _ _ Hb) as [pre ->].
  destruct Hno as [Hno|Hno]; apply Hno; apply in_or_app; right.
  - now left.
  - right. apply in_or_app. now right.
Qed.

Lemma hexPrefix_shape t body :
  Route.hexPrefix t = Some body -> exists pre, t = (38%N :: pre ++ body)%list.
Proof.
  intros H. apply hexPrefix_Some in H. destruct H as [x ->]. now exists [35%N; x].
Qed.

Lemma decimalPrefix_shape t body :
  Route.decimalPrefix t = Some body -> exists pre, t = (38%N :: pre ++ body)%list.
Proof. intros H. apply decimalPrefix_Some in H. subst. now exists [35%N]. Qed.

Lemma namedPrefix_shape t body :
  Route.namedPrefix t = Some body -> exists pre, t = (38%N :: pre ++ body)%list.
Proof. intros H. apply namedPrefix_Some in H. subst. now exists []. Qed.

(** X26.  A text without [&], or without [;], has no reference:
    [decodeHtmlEntities] returns it as it is. *)
Theorem text_without_reference_is_unchanged (h : Host) (s : Route.ustring) :
  ~ In 38%N s \/ ~ In 59%N s ->
  Route.decodeHtmlEntities h (Route.Text s) = Ret (Route.Text s).
Proof.
  intros Hno. unfold Route.decodeHtmlEntities. destruct s as [|u s]; [reflexivity|].
  rewrite (pass_identity _ _ _ _ _ hexPrefix_shape Hno). cbn [bind].
  rewrite (pass_identity _ _ _ _ _ decimalPrefix_shape Hno). cbn [bind].
  rewrite (pass_identity _ _ _ _ _ namedPrefix_shape Hno). reflexivity.
Qed.

(** X26, witness: [Fish & chips], with an ampersand and no semicolon. *)
Lemma text_without_reference_is_unchanged_witness :
  Route.decodeHtmlEntities exampleHost (Route.Text (Route.units "Fish & chips"))
  = Ret (Route.Text (Route.units "Fish & chips")).
Proof.
  refine (text_without_reference_is_unchanged exampleHost (Route.units "Fish & chips") _).
  right. vm_compute. intuition discriminate.
Defined.

Lemma numericCallback_throws radix whole digits e :
  Route.numericCallback radix whole digits = Throw e -> e = RangeError.
Proof.
  unfold Route.numericCallback, Route.fromCodePoint.
  destruct (negb _); [|discriminate]. destruct (_ <=? _)%N; [discriminate|].
  now intros [= <-].
Qed.

Lemma no_hash_no_numeric_reference prefix prefixLength class callback s :
  (forall t body, prefix t = Some body -> exists rest, t = (38 :: 35 :: rest)%N) ->
  ~ In 35%N s ->
  Route.replaceAll prefix prefixLength class callback 0 s = Ret s.
Proof.
  intros Hprefix Hno. apply replaceAll_identity. intros before after ->.
  destruct (Route.matchReference prefix class after) as [run|] eqn:E; [|reflexivity].
  exfalso. apply matchReference_Some in E. destruct E as [body [Hb _]].
  destruct (Hprefix _ _ Hb) as [rest ->].
  apply Hno. apply in_or_app. right. right. now left.
Qed.

(** X27.  [decodeHtmlEntities] throws nothing but a [RangeError], and only
    for a text with a [#] in it: the named references and the text around
    the references never make it throw. *)
Theorem decoder_throws_only_on_numeric_references (h : Host)
    (value : Route.optionalText) (e : error) :
  Route.decodeHtmlEntities h value = Throw e ->
  e = RangeError /\ exists s, value = Route.Text s /\ In 35%N s.
Proof.
  unfold Route.decodeHtmlEntities.
  destruct value as [| |s]; try discriminate. destruct s as [|u s]; [discriminate|].
  set (text := u :: s).
  assert (Hnamed : forall t, exists out,
            Route.replaceAll Route.namedPrefix 1 Route.isLetter (Route.namedCallback h) 0 t
            = Ret out).
  { intros t. apply replaceAll_returns. intros whole run.
    unfold Route.namedCallback. eauto. }
  intros H. split.
  - destruct (Route.replaceAll Route.hexPrefix 3 _ _ 0 text) as [s1|e1] eqn:E1.
    + cbn [bind] in H.
      destruct (Route.replaceAll Route.decimalPrefix 2 _ _ 0 s1) as [s2|e2] eqn:E2.
      * cbn [bind] in H. destruct (Hnamed s2) as [s3 E3]. rewrite E3 in H. discriminate H.
      * injection H as <-. apply replaceAll_throws in E2.
        destruct E2 as [whole [run E2]]. now apply numericCallback_throws in E2.
    + injection H as <-. apply replaceAll_throws in E1.
      destruct E1 as [whole [run E1]]. now apply numericCallback_throws in E1.
  - exists text. split; [reflexivity|].
    destruct (in_dec N.eq_dec 35%N text) as [Hin|Hno]; [assumption|exfalso].
    rewrite (no_hash_no_numeric_reference Route.hexPrefix) in H; [|
      intros t body Hp; apply hexPrefix_Some in Hp; destruct Hp as [x ->]; eauto|assumption].
    cbn [bind] in H.
    rewrite (no_hash_no_numeric_reference Route.decimalPrefix) in H; [|
      intros t body Hp; apply decimalPrefix_Some in Hp; subst; eauto|assumption].
    cbn [bind] in H. destruct (Hnamed text) as [s3 E3]. rewrite E3 in H. discriminate H.
Qed.

(** X27, witness: the reference [&#x110000;]. *)
Lemma decoder_throws_only_on_numeric_references_witness :
  RangeError = RangeError
  /\ exists s, Route.Text (Route.units "&#x110000;") = Route.Text s /\ In 35%N s.
Proof.
  exact (decoder_throws_only_on_numeric_references exampleHost
           (Route.Text (Route.units "&#x110000;")) RangeError eq_refl).
Defined.

Lemma span_letters name rest :
  forallb Route.isLetter name = true ->
  Route.span Route.isLetter (name ++ 59%N :: rest)%list = (name, (59%N :: rest)%list).
Proof.
  induction name as [|u name IH]; [reflexivity|].
  cbn [forallb app Route.span]. intros H. apply andb_true_iff in H. destruct H as [Hu Hn].
  rewrite Hu, (IH Hn). reflexivity.
Qed.

Lemma letter_token (u : N) :
  Route.isLetter u = true ->
  Filters.isTokenChar (lowerChar (ascii_of_N u)) = true.
Proof.
  intros H.
  assert (Hu : (u < 256)%N).
  { unfold Route.isLetter in H. apply orb_true_iff in H.
    destruct H as [H|H]; apply andb_true_iff in H; destruct H as [_ H];
      apply N.leb_le in H; lia. }
  rewrite <- (N_ascii_embedding u Hu) in H.
  destruct (ascii_of_N u) as [[] [] [] [] [] [] [] []]; try reflexivity; discriminate H.
Qed.

Lemma letters_key name :
  forallb Route.isLetter name = true ->
  everyChar Filters.isTokenChar (toLowerCase (Route.text name)) = true.
Proof.
  induction name as [|u name IH]; [reflexivity|].
  cbn [forallb]. intros H. apply andb_true_iff in H. destruct H as [Hu Hn].
  unfold Route.text, toLowerCase in *. cbn [map string_of_list_ascii mapString everyChar].
  rewrite (letter_token u Hu). now apply IH.
Qed.

Lemma letters_no_hash name :
  forallb Route.isLetter name = true -> ~ In 35%N (38%N :: name ++ [59%N])%list.
Proof.
  intros H [E|Hin]; [discriminate E|]. apply in_app_or in Hin.
  destruct Hin as [Hin|[E|[]]]; [|discriminate E].
  rewrite forallb_forall in H. specialize (H _ Hin). discriminate H.
Qed.

(** What the decoder makes of a text that is one named reference. *)
Lemma decode_named (h : Host) name :
  name <> [] -> forallb Route.isLetter name = true ->
  Route.decodeHtmlEntities h (Route.Text (38%N :: name ++ [59%N])%list)
  = Ret (Route.Text
           (let mapped := table_get Route.NAMED_HTML_ENTITIES (toLowerCase (Route.text name)) in
            if nullish mapped then (38%N :: name ++ [59%N])%list
            else Route.units (ToString h mapped))).
Proof.
  intros Hne Hletters. unfold Route.decodeHtmlEntities.
  rewrite (no_hash_no_numeric_reference Route.hexPrefix); [|
    intros t body Hp; apply hexPrefix_Some in Hp; destruct Hp as [x ->]; eauto
    |now apply letters_no_hash].
  cbn [bind].
  rewrite (no_hash_no_numeric_reference Route.decimalPrefix); [|
    intros t body Hp; apply decimalPrefix_Some in Hp; subst; eauto
    |now apply letters_no_hash].
  cbn [bind Route.replaceAll].
  assert (Hm : Route.matchReference Route.namedPrefix Route.isLetter
                 (38%N :: name ++ [59%N])%list = Some name).
  { unfold Route.matchReference. cbn [Route.namedPrefix].
    rewrite (span_letters name [] Hletters).
    destruct name; [contradiction|reflexivity]. }
  rewrite Hm. unfold Route.namedCallback. cbn [bind].
  rewrite replaceAll_skip; [|rewrite length_app; cbn [length]; lia].
  cbn [bind]. rewrite app_nil_r. reflexivity.
Qed.

(** X28.  A text that is one named reference, [&name;] with letters for
    the name.  A name that is, in lower case, one of [amp], [lt], [gt],
    [quot], [apos], [nbsp] is replaced by the character of the entity
    (a plain space for [nbsp]).  A name that reads [constructor] in lower
    case is replaced by the text of the inherited [Object] function,
    which the table lookup finds on the prototype.  Every other name is
    left as it is. *)
Theorem named_reference_alone (h : Host) (name : Route.ustring) :
  name <> [] -> forallb Route.isLetter name = true ->
  (forall c, In (toLowerCase (Route.text name), c) Route.NAMED_HTML_ENTITIES ->
     Route.decodeHtmlEntities h (Route.Text (38%N :: name ++ [59%N])%list)
     = Ret (Route.Text (Route.units c)))
  /\ (toLowerCase (Route.text name) = "constructor" ->
      Route.decodeHtmlEntities h (Route.Text (38%N :: name ++ [59%N])%list)
      = Ret (Route.Text (Route.units "function Object() { [native code] }")))
  /\ (~ In (toLowerCase (Route.text name)) (map fst Route.NAMED_HTML_ENTITIES) ->
      toLowerCase (Route.text name) <> "constructor" ->
      Route.decodeHtmlEntities h (Route.Text (38%N :: name ++ [59%N])%list)
      = Ret (Route.Text (38%N :: name ++ [59%N])%list)).
Proof.
  intros Hne Hletters. rewrite (decode_named h name Hne Hletters).
  split; [|split].
  - intros c Hin. cbn [Route.NAMED_HTML_ENTITIES In] in Hin.
    repeat (destruct Hin as [[= <- <-]|Hin]; [reflexivity|]). contradiction.
  - intros ->. reflexivity.
  - intros Hnot Hc.
    destruct (table_get_token Route.NAMED_HTML_ENTITIES _ (letters_key name Hletters) Hc)
      as [[x [Hget Hx]]|Hget].
    + exfalso. apply Hnot. unfold table_get in Hget.
      destruct (find _ Route.NAMED_HTML_ENTITIES) as [kv|] eqn:E.
      * apply find_some in E. destruct E as [Hin Hk]. apply String.eqb_eq in Hk.
        rewrite <- Hk. now apply in_map.
      * rewrite Object_prototype_token in Hget by now apply letters_key.
        destruct (String.eqb _ "constructor"); discriminate Hget.
    + rewrite Hget. reflexivity.
Qed.

(** X28, witness: the reference [&Constructor;]. *)
Lemma named_reference_alone_witness :
  Route.decodeHtmlEntities exampleHost (Route.Text (Route.units "&Constructor;"))
  = Ret (Route.Text (Route.units "function Object() { [native code] }")).
Proof.
  refine (proj1 (proj2 (named_reference_alone exampleHost (Route.units "Constructor") _ _))
            eq_refl); [discriminate|reflexivity].
Defined.

(** ** The export and the page *)







Lemma everyChar_trimStart p s : everyChar p s = true -> everyChar p (trimStart s) = true.
Proof.
  induction s as [|c s IH]; [reflexivity|]. cbn [trimStart]. intros H.
  destruct (isWhiteSpace c); [|assumption].
  cbn [everyChar] in H. apply andb_true_iff in H. now apply IH.
Qed.

Lemma everyChar_trimEnd p s : everyChar p s = true -> everyChar p (trimEnd s) = true.
Proof.
  induction s as [|c s IH]; [reflexivity|]. cbn [everyChar trimEnd]. intros H.
  apply andb_true_iff in H. destruct H as [Hc Hs]. specialize (IH Hs).
  destruct (trimEnd s).
  - destruct (isWhiteSpace c); [reflexivity|]. cbn [everyChar]. now rewrite Hc.
  - cbn [everyChar] in *. now rewrite Hc, IH.
Qed.

Lemma split_pieces inRun s piece :
  In piece (Page.split inRun s) ->
  everyChar (fun c => negb (Page.isSeparator c)) piece = true.
Proof.
  revert inRun piece. induction s as [|c s IH]; intros inRun piece; cbn [Page.split].
  - intros [<-|[]]. reflexivity.
  - destruct (Page.isSeparator c) eqn:Ec.
    + destruct inRun; [apply IH|]. intros [<-|H]; [reflexivity|]. now apply (IH true).
    + destruct (Page.split false s) as [|first others] eqn:Es.
      * intros [<-|[]]. cbn [everyChar]. now rewrite Ec.
      * intros [<-|H].
        -- cbn [everyChar]. rewrite Ec. cbn [negb andb].
           apply (IH false). rewrite Es. now left.
        -- apply (IH false). rewrite Es. now right.
Qed.

(** X30.  [parseCsv], which reads the keywords the page sends, on a text
    of ASCII characters: every keyword it returns is non-empty, has no
    white space at either end and contains no comma and no line feed.
    [applyFilters], with such keywords among plain options, therefore
    drops none of them: the keywords it matches are these, lower-cased. *)
Theorem parsed_keywords_all_count :
  (forall text part,
     asciiText text = true ->
     In part (Page.parseCsv text) ->
     part <> EmptyString /\ trimmed part
     /\ everyChar (fun c => negb (Page.isSeparator c)) part = true)
  /\ (forall (h : Host) (c : Filters.Criteria) (p : Filters.Prepared) (text : string),
        asciiText text = true ->
        plainCriteria c = true ->
        Filters.keywords c = Page.parseCsv text ->
        Filters.prepare h c = Ret p ->
        Filters.kw p = map toLowerCase (Page.parseCsv text)).
Proof.
  assert (Hparts : forall text part,
            In part (Page.parseCsv text) ->
            part <> EmptyString /\ trimmed part
            /\ everyChar (fun c => negb (Page.isSeparator c)) part = true).
  { intros text part Hin. unfold Page.parseCsv in Hin. apply filter_In in Hin.
    destruct Hin as [Hin Hne]. apply in_map_iff in Hin. destruct Hin as [piece [<- Hp]].
    split; [now apply nonEmpty_true|]. split; [apply trim_trimmed|].
    unfold trim. apply everyChar_trimEnd, everyChar_trimStart.
    now apply split_pieces in Hp. }
  split; [intros text part _; apply Hparts|].
  intros h c p text _ _ Hkw Hp. destruct (prepare_fields h c p Hp) as [-> _].
  rewrite Hkw. apply forallb_filter_id. apply forallb_forall.
  intros x Hx. apply in_map_iff in Hx. destruct Hx as [part [<- Hin]].
  destruct (Hparts text part Hin) as [Hne _]. apply nonEmpty_true.
  intros E. apply Hne. now apply (proj1 (toLowerCase_empty part)).
Qed.

(** X30, witness: the text of the keyword [Cloud] with blanks around it, a
    comma and a line feed. *)
Lemma parsed_keywords_all_count_witness :
  Filters.kw cloudPrepared
  = map toLowerCase (Page.parseCsv (" Cloud ," ++ String ExportRoute.newline EmptyString)).
Proof.
  exact (proj2 parsed_keywords_all_count exampleHost
           (criteriaOf ["Cloud"] VUndefined VUndefined VUndefined VUndefined)
           cloudPrepared (" Cloud ," ++ String ExportRoute.newline EmptyString)
           eq_refl eq_refl eq_refl eq_refl).
Defined.
